(** * Ledger transactions for paid expenses

    A shallow embedding of the currency-aware amount computation and of the
    two transaction builders, of the listing, of the descriptions and of the
    summary of the taxes, together with the properties stated for them.

    Numbers.  The source computes with JavaScript numbers, the binary64
    values of IEEE 754.  They are modelled by [number]: a finite value is
    the rational it stands for, and the two infinities, [NaN] and the
    negative zero are constructors of their own.  The arithmetic operations
    return the exact result rounded to the nearest binary64 value, a tie
    going to the even one, as the language defines them; so 5000 * 0.0093 is
    46.49999999999999 and not 46.5.  [is_number] says of a [number] that its
    finite value is a binary64 value: every result of an operation is one,
    and the properties assume it of their inputs where they depend on it. *)

From Stdlib Require Import QArith Qround Qabs Qpower Lqa ZArith Lia Ascii String Bool List.
From stdpp Require Import base option gmap strings.

Local Open Scope Q_scope.

(** ** JavaScript numbers *)

Inductive number : Type :=
| Fin (q : Q)        (* a finite value; [Fin 0] is the positive zero *)
| NegZero            (* -0 *)
| PosInf             (* Infinity *)
| NegInf             (* -Infinity *)
| NaN.

Definition Qltb (a b : Q) : bool := negb (Qle_bool b a).

Definition zero (negative : bool) : number := if negative then NegZero else Fin 0.
Definition infinity (negative : bool) : number := if negative then NegInf else PosInf.

(** The sign bit: true on negative values, on -0 and on -Infinity. *)
Definition signbit (x : number) : bool :=
  match x with
  | Fin q => Qltb q 0
  | NegZero | NegInf => true
  | PosInf | NaN => false
  end.

Definition is_zero (x : number) : bool :=
  match x with
  | Fin q => Qeq_bool q 0
  | NegZero => true
  | _ => false
  end.

Definition finite (x : number) : bool :=
  match x with
  | Fin _ | NegZero => true
  | _ => false
  end.

(** The rational a finite number stands for (0 on the others). *)
Definition value (x : number) : Q :=
  match x with
  | Fin q => q
  | _ => 0
  end.

(** *** Rounding to binary64 *)

Definition pow2 (k : Z) : Q := 2 ^ k.

(** The integer [e] with [2^e <= q < 2^(e+1)], for a positive [q]. *)
Definition Qlog2 (q : Q) : Z :=
  let k := (Z.log2 (Qnum q) - Z.log2 (Zpos (Qden q)))%Z in
  if Qle_bool (pow2 k) q then k else (k - 1)%Z.

(** The nearest integer, a tie going to the even one. *)
Definition round_half_even (x : Q) : Z :=
  let f := Qfloor x in
  match Qcompare (x - inject_Z f) (1 # 2) with
  | Lt => f
  | Gt => (f + 1)%Z
  | Eq => if Z.even f then f else (f + 1)%Z
  end.

(** The exponent of the unit in the last place of the binary64 values
    around a positive [a]: 53 significant bits, and nothing finer than
    [2^-1074]. *)
Definition ulp_exponent (a : Q) : Z := Z.max (Qlog2 a - 52) (-1074).

Definition nearest_pos (a : Q) : Q :=
  inject_Z (round_half_even (a / pow2 (ulp_exponent a))) * pow2 (ulp_exponent a).

(** The multiple of the unit in the last place that is nearest to [q], a tie
    going to the even multiple: the binary64 value nearest to [q] when [q] is
    in the range of the finite ones. *)
Definition nearest (q : Q) : Q :=
  if Qle_bool 0 q then nearest_pos q else - nearest_pos (- q).

(** The Number value for [q]: the nearest binary64 value; what rounds to
    [2^1024] or beyond is an infinity, and a negative [q] that rounds to zero
    is -0.  It is the number a numeric literal denotes, and the result of an
    operation whose exact result is [q]. *)
Definition number_for (q : Q) : number :=
  let r := nearest q in
  if Qle_bool (pow2 1024) (Qabs r) then infinity (Qltb q 0)
  else if Qeq_bool r 0 then zero (Qltb q 0)
  else Fin (Qred r).

(** [q] is a finite binary64 value. *)
Definition is_double (q : Q) : Prop := nearest q == q /\ Qabs q < pow2 1024.

(** [x] is a JavaScript number: its finite value is a binary64 value. *)
Definition is_number (x : number) : Prop :=
  match x with
  | Fin q => is_double q
  | _ => True
  end.

(** *** Operations *)

(** Unary minus. *)
Definition nneg (x : number) : number :=
  match x with
  | Fin q => if Qeq_bool q 0 then NegZero else Fin (- q)
  | NegZero => Fin 0
  | PosInf => NegInf
  | NegInf => PosInf
  | NaN => NaN
  end.

(** [x + y]: the sum of two zeros is -0 only when both are; every other
    finite sum is the exact sum, rounded. *)
Definition nadd (x y : number) : number :=
  match x, y with
  | NaN, _ | _, NaN => NaN
  | PosInf, NegInf | NegInf, PosInf => NaN
  | PosInf, _ | _, PosInf => PosInf
  | NegInf, _ | _, NegInf => NegInf
  | NegZero, NegZero => NegZero
  | NegZero, Fin q | Fin q, NegZero => number_for q
  | Fin p, Fin q => number_for (p + q)
  end.

(** [x - y]. *)
Definition nsub (x y : number) : number := nadd x (nneg y).

(** [x * y]: the exact product, rounded. *)
Definition nmul (x y : number) : number :=
  match x, y with
  | NaN, _ | _, NaN => NaN
  | (PosInf | NegInf), _ | _, (PosInf | NegInf) =>
      if is_zero x || is_zero y then NaN else infinity (xorb (signbit x) (signbit y))
  | _, _ =>
      if is_zero x || is_zero y then zero (xorb (signbit x) (signbit y))
      else number_for (value x * value y)
  end.

(** [x / y]: the exact quotient, rounded. *)
Definition ndiv (x y : number) : number :=
  match x, y with
  | NaN, _ | _, NaN => NaN
  | (PosInf | NegInf), (PosInf | NegInf) => NaN
  | (PosInf | NegInf), _ => infinity (xorb (signbit x) (signbit y))
  | _, (PosInf | NegInf) => zero (xorb (signbit x) (signbit y))
  | _, _ =>
      if is_zero y then
        if is_zero x then NaN else infinity (xorb (signbit x) (signbit y))
      else if is_zero x then zero (xorb (signbit x) (signbit y))
      else number_for (value x / value y)
  end.

(** [Math.abs]. *)
Definition Math_abs (x : number) : number :=
  match x with
  | Fin q => Fin (Qabs q)
  | NegZero => Fin 0
  | PosInf | NegInf => PosInf
  | NaN => NaN
  end.

(** [Math.round]: the nearest integer, a tie going towards +Infinity; a
    value in [-0.5, 0) gives -0.  The result is exact: the integer nearest
    to a binary64 value is one. *)
Definition Math_round (x : number) : number :=
  match x with
  | Fin q =>
      if Qltb q 0 && Qle_bool (- (1 # 2)) q then NegZero
      else Fin (inject_Z (Qfloor (q + (1 # 2))))
  | _ => x
  end.

(** Comparisons; every comparison with [NaN] is false. *)
Definition nle (x y : number) : bool :=
  match x, y with
  | NaN, _ | _, NaN => false
  | NegInf, _ | _, PosInf => true
  | _, NegInf | PosInf, _ => false
  | _, _ => Qle_bool (value x) (value y)
  end.

Definition nlt (x y : number) : bool :=
  match x, y with
  | NaN, _ | _, NaN => false
  | PosInf, _ | _, NegInf => false
  | NegInf, _ | _, PosInf => true
  | _, _ => Qltb (value x) (value y)
  end.

Definition nge (x y : number) : bool := nle y x.
Definition ngt (x y : number) : bool := nlt y x.

(** Truthiness of a number: 0, -0 and NaN are falsy. *)
Definition truthy (x : number) : bool :=
  match x with
  | NaN => false
  | _ => negb (is_zero x)
  end.

(** [x || y] on numbers. *)
Definition nor (x y : number) : number := if truthy x then x else y.

(** Same value, the two zeros identified (on numbers other than NaN this is
    the source's [===]). *)
Definition num_eq (x y : number) : Prop :=
  match x, y with
  | NaN, NaN | PosInf, PosInf | NegInf, NegInf => True
  | (Fin _ | NegZero), (Fin _ | NegZero) => value x == value y
  | _, _ => False
  end.

Infix "=n=" := num_eq (at level 70, no associativity).

(** A number that is finite and an integer. *)
Definition is_integer (x : number) : Prop :=
  is_number x /\ finite x = true /\ exists z : Z, value x == inject_Z z.

Definition of_Z (z : Z) : number := Fin (inject_Z z).

(** ** The decimal form of a number *)

Definition pow10 (k : Z) : Q := 10 ^ k.

(** The largest [k] at or below [start] with [10^k <= a]. *)
Fixpoint exponent_from (fuel : nat) (start : Z) (a : Q) : Z :=
  match fuel with
  | O => start
  | S fuel => if Qle_bool (pow10 start) a then start else exponent_from fuel (start - 1)%Z a
  end.

(** The integer [e] with [10^e <= a < 10^(e+1)], for a positive [a]: searched
    downwards from a bound obtained from the binary logarithm. *)
Definition Qlog10 (a : Q) : Z :=
  exponent_from 8 ((Qlog2 a + 1) * 30103 / 100000 + 2)%Z a.

(** The decimal with the fewest significant digits, [digits] at least, that
    is nearer to the binary64 value [a] than to any other one; of two such
    decimals the one closer to [a], and the one with the even last digit
    when they are as close. *)
Fixpoint shortest_decimal (fuel : nat) (digits : Z) (a : Q) (e : Z) : Q :=
  match fuel with
  | O => a
  | S fuel =>
      let scale := pow10 (e + 1 - digits) in
      let s := Qfloor (a / scale) in
      let below := inject_Z s * scale in
      let above := inject_Z (s + 1) * scale in
      let below_fits := Qeq_bool (nearest below) a in
      let above_fits := Qeq_bool (nearest above) a in
      if below_fits && above_fits then
        match Qcompare (a - below) (above - a) with
        | Lt => below
        | Gt => above
        | Eq => if Z.even s then below else above
        end
      else if below_fits then below
      else if above_fits then above
      else shortest_decimal fuel (digits + 1)%Z a e
  end.

(** The value of the digits [Number::toString] writes for a finite number
    other than zero: the shortest decimal that reads back as the number (17
    significant digits always do). *)
Definition decimal (q : Q) : Q :=
  let a := Qabs q in
  let d := shortest_decimal 17 1 a (Qlog10 a) in
  if Qle_bool 0 q then d else - d.

(** ** lodash helpers *)

(** [+(toString(x) + 'e' + k)] for a number [x] as lodash's [createRound]
    writes it: the digits of [x] with the exponent shifted by [k], read back
    as a number; the zeros keep their sign, and the text of an infinity with
    an exponent is not a number. *)
Definition shift (x : number) (k : Z) : number :=
  match x with
  | Fin q => if Qeq_bool q 0 then Fin 0 else number_for (decimal q * pow10 k)
  | NegZero => NegZero
  | _ => NaN
  end.

(** [_.round(number, precision)]: without a precision (or with 0) it is
    [Math.round]; otherwise the digits of a finite number are shifted by
    [precision] decimal places, the result is rounded with [Math.round] and
    its digits are shifted back.  The precision is at most 292. *)
Definition round (x : number) (precision : nat) : number :=
  match Nat.min precision 292, x with
  | O, _ => Math_round x
  | S _ as precision, (Fin _ | NegZero) =>
      shift (Math_round (shift x (Z.of_nat precision))) (- Z.of_nat precision)
  | _, _ => Math_round x
  end.

(** [_.sumBy(array, iteratee)]: 0 on the empty array, otherwise the elements
    are added from the left, starting from the first one. *)
Definition sumBy {A : Type} (array : list A) (iteratee : A -> number) : number :=
  match array with
  | [] => Fin 0
  | x :: rest => fold_left (fun acc y => nadd acc (iteratee y)) rest (iteratee x)
  end.

(** ** Objects *)

(** The values stored in [transaction.data]; an object is a finite map from
    its keys. *)
#[warnings="-register-all"]
Inductive jsvalue : Type :=
| JNum (n : number)
| JStr (s : string)
| JBool (b : bool)
| JNull
| JObj (o : gmap string jsvalue).

Abbreviation object := (gmap string jsvalue).

(** [{ ...a, ...b }]: the keys of [b] win. *)
Definition spread (a b : object) : object := b ∪ a.

(** [_.set(obj, key, v)] for a top-level key. *)
Definition set (obj : object) (key : string) (v : jsvalue) : object := <[key := v]> obj.

(** ** Exceptions and results *)

Inductive exception : Type :=
| Error (message : string)
| AssertionError (message : string)
| TypeError (message : string).

Inductive result (A : Type) : Type :=
| Ok (a : A)
| Throw (e : exception).

Arguments Ok {A} a.
Arguments Throw {A} e.

#[global] Instance result_ret : MRet result := fun _ a => Ok a.
#[global] Instance result_bind : MBind result :=
  fun _ _ f m => match m with Ok a => f a | Throw e => Throw e end.

(** [assert(value, message)] *)
Definition assert (value : bool) (message : string) : result unit :=
  if value then Ok tt else Throw (AssertionError message).

(** The messages the source fails with, under the names the specification
    gives to the failures. *)
Definition multi_currency_message : string :=
  "Multi-currency expenses are not supported for collectives that have a different currency than their hosts".
Definition fee_message : string := "Payment processor fee must be positive".
Definition total_message : string := "Total amount paid must be positive".
Definition expense_currency_message : string :=
  "Expense currency must be the same as collective currency".

Definition UnsupportedCurrencyCombination (e : exception) : Prop :=
  e = Error multi_currency_message \/ e = AssertionError expense_currency_message.

Definition InvalidArgument (e : exception) : Prop :=
  e = AssertionError fee_message \/ e = AssertionError total_message.

(** ** Data model *)

Inductive TransactionTypes : Type := CREDIT | DEBIT.

Inductive TransactionKind : Type :=
| ADDED_FUNDS | BALANCE_TRANSFER | CONTRIBUTION | EXPENSE | HOST_FEE
| HOST_FEE_SHARE | HOST_FEE_SHARE_DEBT | PAYMENT_PROCESSOR_COVER
| PLATFORM_TIP | PLATFORM_TIP_DEBT | PREPAID_PAYMENT_METHOD.

Module Collective.
Record t : Type := { id : Z; currency : string }.
End Collective.

Module Host.
Record t : Type := { id : Z; currency : string }.
End Host.

Module PaymentMethod.
Record t : Type := { id : Z }.
End PaymentMethod.

(** A tax line: the two fields the code reads, and the other fields of the
    line, which the code copies. *)
Module Tax.
Record t : Type := { type : string; rate : number; others : object }.

(** The line as an object. *)
Definition fields (tax : t) : object :=
  <["type" := JStr (type tax)]> (<["rate" := JNum (rate tax)]> (others tax)).
End Tax.

Module Expense.
Record data_t : Type := { taxes : option (list Tax.t) }.

Record t : Type := {
  id : Z;
  amount : number;
  currency : string;
  collective : option Collective.t;
  CollectiveId : Z;
  FromCollectiveId : Z;
  UserId : Z;
  PayoutMethodId : option Z;
  description : string;
  feesPayer : string;
  data : option data_t;
}.

(** [expense.collective = c] *)
Definition set_collective (e : t) (c : option Collective.t) : t :=
  {| id := id e; amount := amount e; currency := currency e; collective := c;
     CollectiveId := CollectiveId e; FromCollectiveId := FromCollectiveId e;
     UserId := UserId e; PayoutMethodId := PayoutMethodId e;
     description := description e; feesPayer := feesPayer e; data := data e |}.

(** [expense.feesPayer = payer] *)
Definition set_feesPayer (e : t) (payer : string) : t :=
  {| id := id e; amount := amount e; currency := currency e; collective := collective e;
     CollectiveId := CollectiveId e; FromCollectiveId := FromCollectiveId e;
     UserId := UserId e; PayoutMethodId := PayoutMethodId e;
     description := description e; feesPayer := payer; data := data e |}.

(** [expense.data?.taxes], the empty list when either is missing. *)
Definition tax_lines (e : t) : list Tax.t :=
  match data e with
  | Some d => match taxes d with Some l => l | None => [] end
  | None => []
  end.
End Expense.

(** The argument type [FEES_IN_HOST_CURRENCY]: every fee is optional. *)
Module FEES_IN_HOST_CURRENCY.
Record t : Type := {
  paymentProcessorFeeInHostCurrency : option number;
  hostFeeInHostCurrency : option number;
  platformFeeInHostCurrency : option number;
}.
End FEES_IN_HOST_CURRENCY.

(** Fees once the defaults are merged in: every fee is a number. *)
Module Fees.
Record t : Type := {
  paymentProcessorFeeInHostCurrency : number;
  hostFeeInHostCurrency : number;
  platformFeeInHostCurrency : number;
}.
End Fees.

Definition DEFAULT_FEES : Fees.t :=
  {| Fees.paymentProcessorFeeInHostCurrency := Fin 0;
     Fees.hostFeeInHostCurrency := Fin 0;
     Fees.platformFeeInHostCurrency := Fin 0 |}.

(** [{ ...defaults, ...fees }] *)
Definition spread_fees (defaults : Fees.t) (fees : FEES_IN_HOST_CURRENCY.t) : Fees.t :=
  {| Fees.paymentProcessorFeeInHostCurrency :=
       default (Fees.paymentProcessorFeeInHostCurrency defaults)
               (FEES_IN_HOST_CURRENCY.paymentProcessorFeeInHostCurrency fees);
     Fees.hostFeeInHostCurrency :=
       default (Fees.hostFeeInHostCurrency defaults)
               (FEES_IN_HOST_CURRENCY.hostFeeInHostCurrency fees);
     Fees.platformFeeInHostCurrency :=
       default (Fees.platformFeeInHostCurrency defaults)
               (FEES_IN_HOST_CURRENCY.platformFeeInHostCurrency fees) |}.

Record FxRates : Type := {
  expenseToHost : number;
  collectiveToHost : number;
  expenseToCollective : number;
}.

(** One amount in the three currencies. *)
Record Amounts : Type := {
  inHostCurrency : number;
  inCollectiveCurrency : number;
  inExpenseCurrency : number;
}.

Module Processed.
Record t : Type := {
  fxRates : FxRates;
  amount : Amounts;
  paymentProcessorFee : Amounts;
  hostFee : Amounts;
  platformFee : Amounts;
}.
End Processed.

Module Transaction.
Record t : Type := {
  netAmountInCollectiveCurrency : number;
  amountInHostCurrency : number;
  hostCurrency : string;
  hostCurrencyFxRate : number;
  paymentProcessorFeeInHostCurrency : number;
  hostFeeInHostCurrency : number;
  platformFeeInHostCurrency : number;
  ExpenseId : Z;
  type : TransactionTypes;
  kind : TransactionKind;
  amount : number;
  currency : string;
  description : string;
  CreatedByUserId : Z;
  CollectiveId : Z;
  FromCollectiveId : Z;
  HostCollectiveId : Z;
  PaymentMethodId : option Z;     (* null, or absent, is [None] *)
  PayoutMethodId : option Z;
  taxAmount : option number;      (* null is [None] *)
  data : object;
}.

(** [transaction.amount = a; transaction.amountInHostCurrency = h;
     transaction.netAmountInCollectiveCurrency = n; transaction.data = d] *)
Definition update (transaction : t) (a h n : number) (d : object) : t :=
  {| netAmountInCollectiveCurrency := n;
     amountInHostCurrency := h;
     hostCurrency := hostCurrency transaction;
     hostCurrencyFxRate := hostCurrencyFxRate transaction;
     paymentProcessorFeeInHostCurrency := paymentProcessorFeeInHostCurrency transaction;
     hostFeeInHostCurrency := hostFeeInHostCurrency transaction;
     platformFeeInHostCurrency := platformFeeInHostCurrency transaction;
     ExpenseId := ExpenseId transaction;
     type := type transaction;
     kind := kind transaction;
     amount := a;
     currency := currency transaction;
     description := description transaction;
     CreatedByUserId := CreatedByUserId transaction;
     CollectiveId := CollectiveId transaction;
     FromCollectiveId := FromCollectiveId transaction;
     HostCollectiveId := HostCollectiveId transaction;
     PaymentMethodId := PaymentMethodId transaction;
     PayoutMethodId := PayoutMethodId transaction;
     taxAmount := taxAmount transaction;
     data := d |}.
End Transaction.

(** ** lib/math *)

(** Modelled from the spec: [toNegative], imported from [lib/math], whose
    code is missing.  The specification describes each of its uses as a
    negation: the stored fees are "negated", the manual gross amount is
    [-(totalPaid - processorFee)] and the manual net amount is [-totalPaid]. *)
Definition toNegative (n : number) : number := nneg n.

(** ** Amounts and taxes *)

(** [expense.collective.currency] throws a TypeError when the collective is
    not loaded. *)
Definition the_collective (expense : Expense.t) : result Collective.t :=
  match Expense.collective expense with
  | Some c => Ok c
  | None => Throw (TypeError "Cannot read properties of undefined (reading 'currency')")
  end.

(** The three currencies of a fee given in the host currency. *)
Definition fee_amounts (fx : FxRates) (inHost : number) : Amounts :=
  {| inHostCurrency := inHost;
     inCollectiveCurrency := Math_round (ndiv inHost (collectiveToHost fx));
     inExpenseCurrency := Math_round (ndiv inHost (expenseToHost fx)) |}.

(** The object [computeExpenseAmounts] returns once the FX rates are set:
    the amounts in the proper currency. *)
Definition amounts_for (expense : Expense.t) (fxRates : FxRates) (fees : Fees.t) : Processed.t :=
  {| Processed.fxRates := fxRates;
     Processed.amount :=
       {| inHostCurrency := Math_round (nmul (Expense.amount expense) (expenseToHost fxRates));
          inCollectiveCurrency :=
            Math_round (nmul (Expense.amount expense) (expenseToCollective fxRates));
          inExpenseCurrency := Expense.amount expense |};
     Processed.paymentProcessorFee :=
       fee_amounts fxRates (Fees.paymentProcessorFeeInHostCurrency fees);
     Processed.hostFee := fee_amounts fxRates (Fees.hostFeeInHostCurrency fees);
     Processed.platformFee := fee_amounts fxRates (Fees.platformFeeInHostCurrency fees) |}.

(** From a payout provider response, compute all amounts and FX rates in
    their proper currency. *)
Definition computeExpenseAmounts (expense : Expense.t) (hostCurrency : string)
    (expenseToHostFxRate : number) (fees : Fees.t) : result Processed.t :=
  collective ← the_collective expense;
  (* Adapt all FX rates based on what we received from the provider *)
  fxRates ←
    (if String.eqb (Collective.currency collective) hostCurrency then
       Ok {| expenseToHost := expenseToHostFxRate;
             collectiveToHost := Fin 1;
             expenseToCollective := expenseToHostFxRate |}
     else if String.eqb (Expense.currency expense) (Collective.currency collective) then
       Ok {| expenseToHost := expenseToHostFxRate;
             collectiveToHost := expenseToHostFxRate;
             expenseToCollective := Fin 1 |}
     else Throw (Error multi_currency_message));
  (* Compute the amounts in the proper currency *)
  Ok (amounts_for expense fxRates fees).

Definition computeExpenseTaxes (expense : Expense.t) : option number :=
  match Expense.tax_lines expense with
  | [] => None
  | taxes =>
      let ratesSum := sumBy taxes Tax.rate in
      let amountWithoutTaxes := ndiv (Expense.amount expense) (nadd (Fin 1) ratesSum) in
      Some (nor (nneg (Math_round (nsub (Expense.amount expense) amountWithoutTaxes))) (Fin 0))
  end.

(** The [tax] entry both builders put into [expenseDataForTransaction] when
    the expense has tax lines: every field of the first line, with [id], the
    rounded [rate] and the legacy [percentage] set over them. *)
Definition tax_data (expense : Expense.t) : object :=
  match Expense.tax_lines expense with
  | [] => ∅
  | tax :: _ =>
      {[ "tax" :=
           JObj (spread
                   (Tax.fields tax)
                   (<["id" := JStr (Tax.type tax)]>
                    (<["rate" := JNum (round (Tax.rate tax) 4)]>
                     {[ "percentage" := JNum (round (nmul (Tax.rate tax) (Fin 100)) 0) ]}))) ]}
  end.

(** The object literal [transaction] of [createTransactionsFromPaidExpense]:
    the debit built from the processed amounts, before the adjustment for a
    payee who pays the fees.  [collective] is [expense.collective]. *)
Definition debit_transaction (host : Host.t) (expense : Expense.t) (collective : Collective.t)
    (fees : Fees.t) (expenseToHostFxRate : number) (processedAmounts : Processed.t)
    (transactionData : option object) (paymentMethod : option PaymentMethod.t)
    : Transaction.t :=
  let expenseDataForTransaction : object :=
    spread {[ "expenseToHostFxRate" := JNum expenseToHostFxRate ]} (tax_data expense) in
  {| Transaction.netAmountInCollectiveCurrency :=
       nmul (Fin (-1))
         (nadd (nadd (nadd (inCollectiveCurrency (Processed.amount processedAmounts))
                           (inCollectiveCurrency (Processed.paymentProcessorFee processedAmounts)))
                     (inCollectiveCurrency (Processed.hostFee processedAmounts)))
               (inCollectiveCurrency (Processed.platformFee processedAmounts)));
     Transaction.amountInHostCurrency := nneg (inHostCurrency (Processed.amount processedAmounts));
     Transaction.hostCurrency := Host.currency host;
     Transaction.hostCurrencyFxRate := collectiveToHost (Processed.fxRates processedAmounts);
     Transaction.paymentProcessorFeeInHostCurrency :=
       toNegative (Fees.paymentProcessorFeeInHostCurrency fees);
     Transaction.hostFeeInHostCurrency := toNegative (Fees.hostFeeInHostCurrency fees);
     Transaction.platformFeeInHostCurrency := toNegative (Fees.platformFeeInHostCurrency fees);
     Transaction.ExpenseId := Expense.id expense;
     Transaction.type := DEBIT;
     Transaction.kind := EXPENSE;
     Transaction.amount := nneg (inCollectiveCurrency (Processed.amount processedAmounts));
     Transaction.currency := Collective.currency collective;
     Transaction.description := Expense.description expense;
     Transaction.CreatedByUserId := Expense.UserId expense;
     Transaction.CollectiveId := Expense.CollectiveId expense;
     Transaction.FromCollectiveId := Expense.FromCollectiveId expense;
     Transaction.HostCollectiveId := Host.id host;
     Transaction.PaymentMethodId := PaymentMethod.id <$> paymentMethod;
     Transaction.PayoutMethodId := Expense.PayoutMethodId expense;
     Transaction.taxAmount := computeExpenseTaxes expense;
     Transaction.data := spread (default ∅ transactionData) expenseDataForTransaction |}.

(** ** The two builders *)

Inductive FxRateConfig : Type :=
| auto
| rate (r : number).

Section Builders.

(** [models.Collective.findByPk] *)
Variable findByPk : Z -> option Collective.t.
(** [getFxRate(from, to, new Date())]: the rate, or the failure of the
    lookup. *)
Variable getFxRate : string -> string -> result number.

(** [expense.collective = expense.collective || (await models.Collective.findByPk(expense.CollectiveId))] *)
Definition load_collective (expense : Expense.t) : Expense.t :=
  Expense.set_collective expense
    (match Expense.collective expense with
     | Some c => Some c
     | None => findByPk (Expense.CollectiveId expense)
     end).

(** [expenseToHostFxRateConfig === 'auto' ? await getFxRate(...) : expenseToHostFxRateConfig] *)
Definition resolve_fx_rate (host : Host.t) (expense : Expense.t)
    (expenseToHostFxRateConfig : FxRateConfig) : result number :=
  match expenseToHostFxRateConfig with
  | auto => getFxRate (Expense.currency expense) (Host.currency host)
  | rate r => Ok r
  end.

(** The record handed to [models.Transaction.createDoubleEntry] by
    [createTransactionsFromPaidExpense], or the exception thrown before. *)
Definition createTransactionsFromPaidExpense (host : Host.t) (expense : Expense.t)
    (fees : FEES_IN_HOST_CURRENCY.t) (expenseToHostFxRateConfig : FxRateConfig)
    (transactionData : option object) (paymentMethod : option PaymentMethod.t)
    : result Transaction.t :=
  let fees := spread_fees DEFAULT_FEES fees in
  let expense := load_collective expense in
  (* Use the supplied FX rate or fetch a new one for the time of payment *)
  expenseToHostFxRate ← resolve_fx_rate host expense expenseToHostFxRateConfig;
  processedAmounts ← computeExpenseAmounts expense (Host.currency host) expenseToHostFxRate fees;
  collective ← the_collective expense;
  let transaction :=
    debit_transaction host expense collective fees expenseToHostFxRate processedAmounts
      transactionData paymentMethod in
  (* If the payee is assuming the fees, we adapt the amounts *)
  if String.eqb (Expense.feesPayer expense) "PAYEE" then
    Ok (Transaction.update transaction
          (nadd (Transaction.amount transaction)
                (inCollectiveCurrency (Processed.paymentProcessorFee processedAmounts)))
          (nadd (Transaction.amountInHostCurrency transaction)
                (inHostCurrency (Processed.paymentProcessorFee processedAmounts)))
          (nadd (Transaction.netAmountInCollectiveCurrency transaction)
                (inCollectiveCurrency (Processed.paymentProcessorFee processedAmounts)))
          (set (Transaction.data transaction) "feesPayer" (JStr "PAYEE")))
  else Ok transaction.

End Builders.

(** The object [amounts] of the manual builder. *)
Record ManualAmounts : Type := {
  m_amount : number;
  m_amountInHostCurrency : number;
  m_paymentProcessorFeeInHostCurrency : number;
  m_netAmountInCollectiveCurrency : number;
  m_hostCurrencyFxRate : number;
}.

(** [amounts] as first built: values are already adjusted to negative DEBIT
    values. *)
Definition initial_amounts (paymentProcessorFeeInHostCurrency totalAmountPaidInHostCurrency : number)
    : ManualAmounts :=
  let grossAmount :=
    toNegative (nsub totalAmountPaidInHostCurrency paymentProcessorFeeInHostCurrency) in
  let netAmountInCollectiveCurrency := toNegative totalAmountPaidInHostCurrency in
  {| m_amount := grossAmount;
     m_amountInHostCurrency := grossAmount;
     m_paymentProcessorFeeInHostCurrency := toNegative paymentProcessorFeeInHostCurrency;
     m_netAmountInCollectiveCurrency := netAmountInCollectiveCurrency;
     m_hostCurrencyFxRate := Fin 1 |}.

(** The three assignments that adjust [amounts] when the currency of the
    host is different from the currency of the collective.  [grossAmount] is
    [amounts.amountInHostCurrency], which no assignment changes. *)
Definition adjust_amounts (amounts : ManualAmounts) (expense : Expense.t) : ManualAmounts :=
  let grossAmount := m_amountInHostCurrency amounts in
  let hostCurrencyFxRate := round (Math_abs (ndiv grossAmount (Expense.amount expense))) 5 in
  {| m_amount := round (ndiv (m_amount amounts) hostCurrencyFxRate) 0;
     m_amountInHostCurrency := m_amountInHostCurrency amounts;
     m_paymentProcessorFeeInHostCurrency := m_paymentProcessorFeeInHostCurrency amounts;
     m_netAmountInCollectiveCurrency :=
       round (ndiv (m_netAmountInCollectiveCurrency amounts) hostCurrencyFxRate) 0;
     m_hostCurrencyFxRate := hostCurrencyFxRate |}.

(** [if (isCoveredByPayee) { set(transactionData, 'feesPayer', 'PAYEE') }];
    [set] leaves a null [transactionData] null.  [transactionData] is the
    parameter once its default has been applied: an argument that is left
    out is the empty object, [Some ∅], and [None] is a null that the caller
    passes. *)
Definition tag_payee (expense : Expense.t) (transactionData : option object) : option object :=
  if String.eqb (Expense.feesPayer expense) "PAYEE" then
    (fun d => set d "feesPayer" (JStr "PAYEE")) <$> transactionData
  else transactionData.

(** The object literal [transaction] of the manual builder. *)
Definition manual_transaction (host : Host.t) (expense : Expense.t) (collective : Collective.t)
    (amounts : ManualAmounts) (transactionData : option object) : Transaction.t :=
  let expenseDataForTransaction : object := tax_data expense in
  {| Transaction.netAmountInCollectiveCurrency := m_netAmountInCollectiveCurrency amounts;
     Transaction.amountInHostCurrency := m_amountInHostCurrency amounts;
     Transaction.hostCurrency := Host.currency host;
     Transaction.hostCurrencyFxRate := m_hostCurrencyFxRate amounts;
     Transaction.paymentProcessorFeeInHostCurrency := m_paymentProcessorFeeInHostCurrency amounts;
     Transaction.hostFeeInHostCurrency := Fin 0;
     Transaction.platformFeeInHostCurrency := Fin 0;
     Transaction.ExpenseId := Expense.id expense;
     Transaction.type := DEBIT;
     Transaction.kind := EXPENSE;
     Transaction.amount := m_amount amounts;
     Transaction.currency := Collective.currency collective;
     Transaction.description := Expense.description expense;
     Transaction.CreatedByUserId := Expense.UserId expense;
     Transaction.CollectiveId := Expense.CollectiveId expense;
     Transaction.FromCollectiveId := Expense.FromCollectiveId expense;
     Transaction.HostCollectiveId := Host.id host;
     Transaction.PaymentMethodId := None;
     Transaction.PayoutMethodId := Expense.PayoutMethodId expense;
     Transaction.taxAmount := computeExpenseTaxes expense;
     Transaction.data :=
       spread (spread {[ "isManual" := JBool true ]} (default ∅ transactionData))
              expenseDataForTransaction |}.

(** The record handed to [models.Transaction.createDoubleEntry] by
    [createTransactionsForManuallyPaidExpense], or the exception thrown
    before.  The source reads [expense.collective.currency] before it would
    load a missing collective, so the lookup is never reached: either the
    collective is there or the read has thrown.  [transactionData] is [None]
    for a null and [Some ∅] for an argument that is left out. *)
Definition createTransactionsForManuallyPaidExpense (host : Host.t) (expense : Expense.t)
    (paymentProcessorFeeInHostCurrency totalAmountPaidInHostCurrency : number)
    (transactionData : option object) : result Transaction.t :=
  _ ← assert (nge paymentProcessorFeeInHostCurrency (Fin 0)) fee_message;
  _ ← assert (ngt totalAmountPaidInHostCurrency (Fin 0)) total_message;
  let amounts := initial_amounts paymentProcessorFeeInHostCurrency totalAmountPaidInHostCurrency in
  let transactionData := tag_payee expense transactionData in
  collective ← the_collective expense;
  (* Adjust values if currency from host is different from the currency of the collective. *)
  amounts ←
    (if negb (String.eqb (Host.currency host) (Collective.currency collective)) then
       _ ← assert (String.eqb (Expense.currency expense) (Collective.currency collective))
             expense_currency_message;
       Ok (adjust_amounts amounts expense)
     else Ok amounts);
  Ok (manual_transaction host expense collective amounts transactionData).

(** ** Vocabulary of the properties *)

(** [x] is a finite number whose value is the rational [q]. *)
Definition represents (x : number) (q : Q) : Prop := finite x = true /\ value x == q.

Infix "~>" := represents (at level 70, no associativity).

(** The three representations of a fee as the specification words them: the
    host-currency value is the input, the two others are that value divided
    by the rate to the host currency and rounded, each on its own. *)
Definition fee_representations (fx : FxRates) (input : number) (a : Amounts) : Prop :=
  inHostCurrency a = input /\
  inCollectiveCurrency a = Math_round (ndiv (inHostCurrency a) (collectiveToHost fx)) /\
  inExpenseCurrency a = Math_round (ndiv (inHostCurrency a) (expenseToHost fx)).

(** [x] is Infinity, or finite and not negative. *)
Definition not_negative (x : number) : Prop :=
  x = PosInf \/ (finite x = true /\ 0 <= value x).

(** [v] is the integer nearest to the finite number [x], the upper one when
    two are equally near. *)
Definition nearest_integer (x v : number) : Prop :=
  finite x = true ->
  is_integer v /\ value v - (1 # 2) <= value x /\ value x < value v + (1 # 2).

(** [v] is [x] rounded to [p] decimals, for an [x] that is finite and not
    out of range: within half a unit of the [p]-th decimal, and the errors
    of the roundings to binary64 on the way. *)
Definition rounded_to_decimals (p : nat) (x v : number) : Prop :=
  finite x = true ->
  Qabs (value x) * pow10 (Z.of_nat p) <= pow2 1000 ->
  finite v = true /\
  Qabs (value v - value x) <=
    (1 # 2) * pow10 (- Z.of_nat p) + (Qabs (value x) + pow10 (- Z.of_nat p)) * pow2 (-49)
    + pow2 (-1072).

(** The two converted representations of a fee are the integers nearest to
    the quotients. *)
Definition fee_rounded (fx : FxRates) (a : Amounts) : Prop :=
  nearest_integer (ndiv (inHostCurrency a) (collectiveToHost fx)) (inCollectiveCurrency a) /\
  nearest_integer (ndiv (inHostCurrency a) (expenseToHost fx)) (inExpenseCurrency a).

(** The failure condition as the specification words it: the computation
    fails with [UnsupportedCurrencyCombination] exactly when more than one of
    the expense currency and the collective currency differs from the host
    currency. *)
Definition fails_iff_both_differ_from_host (expense : Expense.t) (c : Collective.t)
    (hostCurrency : string) (r : number) (fees : Fees.t) : Prop :=
  (exists e, computeExpenseAmounts expense hostCurrency r fees = Throw e /\
             UnsupportedCurrencyCombination e) <->
  (Expense.currency expense <> hostCurrency /\ Collective.currency c <> hostCurrency).

(** The agreement of the representations of a fee as the specification
    words it: the host-currency value and each of the two others, brought
    back to the host currency, are within 1 minor unit. *)
Definition agree_within_one (fx : FxRates) (a : Amounts) : Prop :=
  nle (Math_abs (nsub (inHostCurrency a)
                      (nmul (inCollectiveCurrency a) (collectiveToHost fx)))) (Fin 1) = true /\
  nle (Math_abs (nsub (inHostCurrency a)
                      (nmul (inExpenseCurrency a) (expenseToHost fx)))) (Fin 1) = true.

(** The distance, in exact arithmetic, between a value [h] in the host
    currency and a value [c] in another currency brought back to the host
    currency at the rate [r]. *)
Definition distance (h c r : number) : Q := Qabs (value h - value c * value r).

(** The agreement that holds, in exact arithmetic, of a value [c] that is
    finite: half of the rate, for the rounding to an integer, and the error
    of the division in binary64. *)
Definition agrees (h c r : number) : Prop :=
  finite c = true ->
  distance h c r <= value r / 2 + Qabs (value h) * pow2 (-53) + value r * pow2 (-1075).

Definition agree_within_rounding (fx : FxRates) (a : Amounts) : Prop :=
  agrees (inHostCurrency a) (inCollectiveCurrency a) (collectiveToHost fx) /\
  agrees (inHostCurrency a) (inExpenseCurrency a) (expenseToHost fx).

(** The agreement within one minor unit, in exact arithmetic. *)
Definition agree_within_unit (fx : FxRates) (a : Amounts) : Prop :=
  (finite (inCollectiveCurrency a) = true ->
   distance (inHostCurrency a) (inCollectiveCurrency a) (collectiveToHost fx) <= 1) /\
  (finite (inExpenseCurrency a) = true ->
   distance (inHostCurrency a) (inExpenseCurrency a) (expenseToHost fx) <= 1).

(** The net amount when the payee pays the fees, as the specification
    words it: minus the sum of the gross amount, the host fee and the
    platform fee in the collective currency. *)
Definition payee_net_closed_form (t : Transaction.t) (p : Processed.t) : Prop :=
  Transaction.netAmountInCollectiveCurrency t =n=
  nneg (nadd (nadd (inCollectiveCurrency (Processed.amount p))
                   (inCollectiveCurrency (Processed.hostFee p)))
             (inCollectiveCurrency (Processed.platformFee p))).

(** The gross amount and the three fees in the collective currency are
    finite and not negative, and their sum is [2^53] at most: adding them
    rounds nothing. *)
Definition sums_are_exact (p : Processed.t) : Prop :=
  finite (inCollectiveCurrency (Processed.amount p)) = true /\
  finite (inCollectiveCurrency (Processed.paymentProcessorFee p)) = true /\
  finite (inCollectiveCurrency (Processed.hostFee p)) = true /\
  finite (inCollectiveCurrency (Processed.platformFee p)) = true /\
  nle (Fin 0) (inCollectiveCurrency (Processed.amount p)) = true /\
  nle (Fin 0) (inCollectiveCurrency (Processed.paymentProcessorFee p)) = true /\
  nle (Fin 0) (inCollectiveCurrency (Processed.hostFee p)) = true /\
  nle (Fin 0) (inCollectiveCurrency (Processed.platformFee p)) = true /\
  value (inCollectiveCurrency (Processed.amount p)) +
  value (inCollectiveCurrency (Processed.paymentProcessorFee p)) +
  value (inCollectiveCurrency (Processed.hostFee p)) +
  value (inCollectiveCurrency (Processed.platformFee p)) <= inject_Z (2 ^ 53).

(** The sum of numbers as the specification writes it: added one by one
    from the left. *)
Definition sum_from_left (numbers : list number) : number :=
  match numbers with
  | [] => Fin 0
  | x :: rest => fold_left nadd rest x
  end.

(** The tax as the specification words it:
    [-round(amount - amount / (1 + ratesSum))], with [ratesSum] the sum of
    the rates of the tax lines. *)
Definition tax_formula (expense : Expense.t) : number :=
  let ratesSum := sum_from_left (Tax.rate <$> Expense.tax_lines expense) in
  let amountWithoutTaxes := ndiv (Expense.amount expense) (nadd (Fin 1) ratesSum) in
  nneg (Math_round (nsub (Expense.amount expense) amountWithoutTaxes)).

(** What the specification says of an expense with tax lines: the value of
    the formula is returned, a negative zero as 0. *)
Definition returns_tax_formula (expense : Expense.t) : Prop :=
  Expense.tax_lines expense <> [] ->
  exists v, computeExpenseTaxes expense = Some v /\ v <> NegZero /\ v =n= tax_formula expense.


(** The net amount is the sum of the gross amount and the stored fees. *)
Definition net_is_sum (t : Transaction.t) : Prop :=
  Transaction.netAmountInCollectiveCurrency t =n=
  nadd (nadd (nadd (Transaction.amount t) (Transaction.paymentProcessorFeeInHostCurrency t))
             (Transaction.hostFeeInHostCurrency t))
       (Transaction.platformFeeInHostCurrency t).


(** A fee as the data model has it: a non-negative integer. *)
Definition is_fee (x : number) : Prop := is_integer x /\ nge x (Fin 0) = true.

(** [data.isManual] as the specification words it. *)
Definition is_marked_manual (t : Transaction.t) : Prop :=
  Transaction.data t !! "isManual" = Some (JBool true).

(** ** Listing transactions *)

(** A condition of a [where] clause: a plain value given by the caller, or
    one of the two filters [getTransactions] builds with the operators
    [Op.in], [Op.gte] and [Op.lt]. *)
Inductive condition : Type :=
| is_value (v : jsvalue)
| is_in (ids : list Z)
| is_between (gte lt : Z).

Module Options.
Record t : Type := {
  where_ : option object;     (* [where] *)
  limit : option number;
  include : option (list string);
}.
End Options.

Module Query.
Record t : Type := {
  where_ : gmap string condition;
  order : list (string * string);
  limit : option number;
  include : option (list string);
}.
End Query.

(** [new Date('2015-01-01')], in milliseconds since the epoch. *)
Definition default_start_date : Z := 1420070400000.

(** [value || other] on an optional number: what is kept when the value is
    truthy. *)
Definition truthy_number (o : option number) : option number :=
  match o with
  | Some n => if truthy n then Some n else None
  | None => None
  end.

(** The query [getTransactions] hands to [models.Transaction.findAll], or
    the exception thrown before.  Dates are milliseconds since the epoch;
    [now] is [new Date()]; a missing argument is [None]. *)
Definition getTransactions (now : Z) (collectiveids : list Z) (startDate endDate : option Z)
    (options : option Options.t) : result Query.t :=
  let startDate := default default_start_date startDate in
  let endDate := default now endDate in
  options ←
    match options with
    | Some o => Ok o
    | None => Throw (TypeError "Cannot read properties of undefined (reading 'where')")
    end;
  let where_ := default ∅ (Options.where_ options) in
  Ok {| Query.where_ :=
          <["createdAt" := is_between startDate endDate]>
            (<["CollectiveId" := is_in collectiveids]> (is_value <$> where_));
        Query.order := [("createdAt", "DESC")];
        Query.limit := truthy_number (Options.limit options);
        Query.include := Options.include options |}.

(** ** Descriptions *)

(** Strings are sequences of code units below 256.  These are the white
    space and line terminator characters of that range, the ones
    [String.prototype.trim] removes. *)
Definition is_white_space (a : ascii) : bool :=
  let n := nat_of_ascii a in
  ((9 <=? n)%nat && (n <=? 13)%nat) || (n =? 32)%nat || (n =? 160)%nat.

Fixpoint trimStart (s : string) : string :=
  match s with
  | EmptyString => EmptyString
  | String a rest => if is_white_space a then trimStart rest else s
  end.

(** [s] without its trailing white space. *)
Fixpoint trimEnd (s : string) : string :=
  match s with
  | EmptyString => EmptyString
  | String a rest =>
      match trimEnd rest with
      | EmptyString => if is_white_space a then EmptyString else String a EmptyString
      | rest' => String a rest'
      end
  end.

(** [s.trim()] *)
Definition trim (s : string) : string := trimEnd (trimStart s).

(** [s.includes(search)] *)
Definition includes (s search : string) : bool :=
  match String.index 0 search s with
  | Some _ => true
  | None => false
  end.

(** [_.truncate(s, { length })] with the default omission ['...'] and no
    separator. *)
Definition truncate (s : string) (length : nat) : string :=
  if (String.length s <=? length)%nat then s
  else if (length - 3 <? 1)%nat then "..."
  else String.substring 0 (length - 3) s +:+ "...".

Inductive TierType : Type :=
| TICKET
| other_tier_type (name : string).

Inductive ExpenseType : Type :=
| CHARGE
| other_expense_type (name : string).

Definition kindStrings (kind : TransactionKind) : string :=
  match kind with
  | ADDED_FUNDS => "Added Funds"
  | BALANCE_TRANSFER => "Balance Transfer"
  | CONTRIBUTION => "Contribution"
  | EXPENSE => "Expense"
  | HOST_FEE => "Host Fee"
  | HOST_FEE_SHARE => "Host Fee Share"
  | HOST_FEE_SHARE_DEBT => "Host Fee Share Debt"
  | PAYMENT_PROCESSOR_COVER => "Cover of Payment Processor Fee"
  | PLATFORM_TIP => "Platform Tip"
  | PLATFORM_TIP_DEBT => "Platform Tip Debt"
  | PREPAID_PAYMENT_METHOD => "Prepaid Payment Method"
  end.

(** A stored transaction, with the fields [generateDescription] reads.  A
    kind that is not a key of [kindStrings] is [None]. *)
Module TransactionRow.
Record t : Type := {
  isRefund : bool;
  RefundTransactionId : option Z;
  OrderId : option Z;
  kind : option TransactionKind;
  description : option string;
  ExpenseId : option Z;
  CollectiveId : Z;
  FromCollectiveId : Z;
  isDebt : bool;
  type : TransactionTypes;
}.
End TransactionRow.

Module Order.
Record t : Type := {
  TierId : option Z;
  SubscriptionId : option Z;
  description : option string;
  CollectiveId : Z;
  FromCollectiveId : Z;
}.
End Order.

Module Tier.
Record t : Type := { name : string; type : TierType }.
End Tier.

Module Subscription.
Record t : Type := { interval : option string }.
End Subscription.

Module PaidExpense.
Record t : Type := { type : ExpenseType; description : string }.
End PaidExpense.

Module Account.
Record t : Type := { name : option string }.
End Account.

(** The lookups by id, of [req.loaders] or of [models]; a lookup that finds
    nothing answers null. *)
Module Lookups.
Record t : Type := {
  Transaction : Z -> option TransactionRow.t;
  Order : Z -> option Order.t;
  Tier : Z -> option Tier.t;
  Subscription : Z -> option Subscription.t;
  Expense : Z -> option PaidExpense.t;
  Collective : Z -> option Account.t;
}.
End Lookups.

(** [kind === EXPENSE] *)
Definition is_expense_kind (kind : option TransactionKind) : bool :=
  match kind with
  | Some EXPENSE => true
  | _ => false
  end.

(** An id that is truthy: present and not 0. *)
Definition truthy_id (id : option Z) : option Z :=
  match id with
  | Some z => if (z =? 0)%Z then None else Some z
  | None => None
  end.

(** A string that is truthy: present and not empty. *)
Definition truthy_string (s : option string) : option string :=
  match s with
  | Some EmptyString => None
  | other => other
  end.

(** [account.name.trim()]: a TypeError on a missing account or name. *)
Definition trimmed_name (account : option Account.t) : result string :=
  match account with
  | Some a =>
      match Account.name a with
      | Some name => Ok (trim name)
      | None => Throw (TypeError "Cannot read properties of null (reading 'trim')")
      end
  | None => Throw (TypeError "Cannot read properties of null (reading 'name')")
  end.

Definition default_wording : string := "Financial contribution to".

Section Descriptions.

(** [models], and [req.loaders] when there is a request. *)
Variable models : Lookups.t.
Variable req : option Lookups.t.
Variable full : bool.

(** [req ? req.loaders.X.byId.load(id) : models.X.findByPk(id)] *)
Definition lookup {A : Type} (table : Lookups.t -> Z -> option A) (id : Z) : option A :=
  match req with
  | Some loaders => table loaders id
  | None => table models id
  end.

(** [` prefix${account.name.trim()}`] *)
Definition named (prefix : string) (account : option Account.t) : result string :=
  name ← trimmed_name account; Ok (prefix +:+ name).

(** [if (full) { ... }], the empty string otherwise. *)
Definition when_full (part : result string) : result string :=
  if full then part else Ok "".

(** [generateDescription] from the point where the transaction is known
    not to be described as a refund. *)
Definition describe (transaction : TransactionRow.t) : result string :=
  let order : option Order.t :=
    match truthy_id (TransactionRow.OrderId transaction) with
    | Some id => lookup Lookups.Order id
    | None => None
    end in
  let baseString : string :=
    match TransactionRow.kind transaction with
    | Some kind => kindStrings kind
    | None => "Transaction"
    end in
  let '(baseString, tierString, extraString) :=
    match TransactionRow.kind transaction with
    | Some CONTRIBUTION =>
        let tier : option Tier.t :=
          match order ≫= (fun o => truthy_id (Order.TierId o)) with
          | Some id => lookup Lookups.Tier id
          | None => None
          end in
        let tierString : string :=
          match tier with
          | Some tier => " (" +:+ truncate (Tier.name tier) 128 +:+ ")"
          | None => ""
          end in
        let subscription : option Subscription.t :=
          match order ≫= (fun o => truthy_id (Order.SubscriptionId o)) with
          | Some id => lookup Lookups.Subscription id
          | None => None
          end in
        let interval : option string := subscription ≫= Subscription.interval in
        let baseString : string :=
          if bool_decide (interval = Some "month") then "Monthly contribution"
          else if bool_decide (interval = Some "year") then "Yearly contribution"
          else match tier with
               | Some tier =>
                   match Tier.type tier with
                   | TICKET => "Registration"
                   | _ => baseString
                   end
               | None => baseString
               end in
        (baseString, tierString, "")
    | Some ADDED_FUNDS =>
        let extraString : string :=
          match truthy_string (order ≫= Order.description) with
          | Some d =>
              if negb (includes d default_wording) then " - " +:+ d
              else match truthy_string (TransactionRow.description transaction) with
                   | Some d' =>
                       if negb (includes d' default_wording) then " - " +:+ d' else ""
                   | None => ""
                   end
          | None =>
              match truthy_string (TransactionRow.description transaction) with
              | Some d' =>
                  if negb (includes d' default_wording) then " - " +:+ d' else ""
              | None => ""
              end
          end in
        (baseString, "", extraString)
    | Some EXPENSE =>
        let expense : option PaidExpense.t :=
          match truthy_id (TransactionRow.ExpenseId transaction) with
          | Some id => lookup Lookups.Expense id
          | None => None
          end in
        match expense with
        | Some expense =>
            match PaidExpense.type expense with
            | CHARGE => ("Virtual Card charge", "", "")
            | _ => (baseString, "", " - " +:+ PaidExpense.description expense)
            end
        | None => (baseString, "", "")
        end
    | _ => (baseString, "", "")
    end : string * string * string in
  (* without a request the two accounts are those of the order *)
  ids ←
    (match req with
    | Some _ => Ok (TransactionRow.CollectiveId transaction, TransactionRow.FromCollectiveId transaction)
    | None =>
        match order with
        | Some o => Ok (Order.CollectiveId o, Order.FromCollectiveId o)
        | None => Throw (TypeError "Cannot read properties of undefined (reading 'CollectiveId')")
        end
     end : result (Z * Z));
  let account := lookup Lookups.Collective (fst ids) in
  let oppositeAccount := lookup Lookups.Collective (snd ids) in
  let debtString : string := if TransactionRow.isDebt transaction then " owed" else "" in
  fromTo ←
    ((if TransactionRow.isDebt transaction then
       match TransactionRow.type transaction with
       | CREDIT =>
           toString ← when_full (named " by " account);
           fromString ← named " to " oppositeAccount;
           Ok (fromString, toString)
       | DEBIT =>
           fromString ← named " by " oppositeAccount;
           toString ← when_full (named " to " account);
           Ok (fromString, toString)
       end
     else if is_expense_kind (TransactionRow.kind transaction) then
       match TransactionRow.type transaction with
       | CREDIT =>
           fromString ← when_full (named " from " account);
           toString ← named " to " oppositeAccount;
           Ok (fromString, toString)
       | DEBIT =>
           fromString ← named " from " oppositeAccount;
           toString ← when_full (named " to " account);
           Ok (fromString, toString)
       end
     else
       match TransactionRow.type transaction with
       | CREDIT =>
           fromString ← named " from " oppositeAccount;
           toString ← when_full (named " to " account);
           Ok (fromString, toString)
       | DEBIT =>
           fromString ← when_full (named " from " account);
           toString ← named " to " oppositeAccount;
           Ok (fromString, toString)
       end) : result (string * string));
  Ok (baseString +:+ debtString +:+ fst fromTo +:+ snd fromTo +:+ tierString +:+ extraString).

(** The double quote character. *)
Definition quote : string := String (ascii_of_nat 34) EmptyString.

(** The transaction a refund refers to, when the transaction is a refund
    and the lookup finds it. *)
Definition refunded (transaction : TransactionRow.t) : option TransactionRow.t :=
  if TransactionRow.isRefund transaction then
    match truthy_id (TransactionRow.RefundTransactionId transaction) with
    | Some id => lookup Lookups.Transaction id
    | None => None
    end
  else None.

(** [generateDescription(transaction, { req, full })].  The source calls
    itself on the refunded transaction, as often as refunds refer to
    refunds; [fuel] bounds the number of calls and [None] is a recursion
    that has not ended within it. *)
Fixpoint generateDescription (fuel : nat) (transaction : TransactionRow.t) : option (result string) :=
  match fuel with
  | O => None
  | S fuel =>
      match refunded transaction with
      | Some refundedTransaction =>
          match generateDescription fuel refundedTransaction with
          | Some (Ok refundedTransactionDescription) =>
              Some (Ok ("Refund of " +:+ quote +:+ refundedTransactionDescription +:+ quote))
          | Some (Throw e) => Some (Throw e)
          | None => None
          end
      | None => Some (describe transaction)
      end
  end.

(** [final] is reached from [transaction] by following [n] refunds, and is
    not itself described as a refund. *)
Inductive refund_chain : TransactionRow.t -> nat -> TransactionRow.t -> Prop :=
| chain_end (transaction : TransactionRow.t) :
    refunded transaction = None -> refund_chain transaction 0 transaction
| chain_step (transaction next final : TransactionRow.t) (n : nat) :
    refunded transaction = Some next ->
    refund_chain next n final ->
    refund_chain transaction (S n) final.

End Descriptions.

(** [description] wrapped [n] times as the description of a refund. *)
Fixpoint refund_of (n : nat) (description : string) : string :=
  match n with
  | O => description
  | S n => "Refund of " +:+ quote +:+ refund_of n description +:+ quote
  end.

(** What a chain of [n] refunds makes of the description of its last
    transaction: an exception goes through unchanged. *)
Definition refund_result (n : nat) (described : result string) : result string :=
  match described with
  | Ok description => Ok (refund_of n description)
  | Throw e => Throw e
  end.

(** The label and the trailing part of the description of an expense. *)
Definition expense_label (expense : PaidExpense.t) : string :=
  match PaidExpense.type expense with
  | CHARGE => "Virtual Card charge"
  | _ => "Expense"
  end.

Definition expense_suffix (expense : PaidExpense.t) : string :=
  match PaidExpense.type expense with
  | CHARGE => ""
  | _ => " - " +:+ PaidExpense.description expense
  end.

(** ** Summary of the taxes *)

(** [_.groupBy(array, key)]: the elements under their key, in the order of
    the array. *)
Definition groupBy {A : Type} (array : list A) (key : A -> string) : gmap string (list A) :=
  fold_left (fun groups x => <[key x := default [] (groups !! key x) ++ [x]]> groups) array ∅.

Record TaxSummary : Type := {
  collected : number;
  paid : number;
}.

(** [t.taxAmount] is truthy. *)
Definition has_taxes (t : Transaction.t) : bool :=
  match Transaction.taxAmount t with
  | Some n => truthy n
  | None => false
  end.

Section TaxesSummary.

(** [sumByWhen] of [lib/utils], whose code is missing: a parameter. *)
Variable sumByWhen :
  list Transaction.t -> (Transaction.t -> number) -> (Transaction.t -> bool) -> number.
(** [transaction.hostCurrencyRate], [None] on a transaction without that
    field. *)
Variable hostCurrencyRate : Transaction.t -> option number.
(** The property key a value other than a string is turned into. *)
Variable toPropertyKey : jsvalue -> string.

(** The key [_.groupBy(..., 'data.tax.id')] files a transaction under. *)
Definition tax_id (t : Transaction.t) : string :=
  match Transaction.data t !! "tax" with
  | Some (JObj tax) =>
      match tax !! "id" with
      | Some (JStr id) => id
      | Some v => toPropertyKey v
      | None => "undefined"
      end
  | _ => "undefined"
  end.

Definition getTaxAmountInHostCurrency (transaction : Transaction.t) : number :=
  nor (nmul (default NaN (Transaction.taxAmount transaction))
            (default (Fin 1) (truthy_number (hostCurrencyRate transaction))))
      (Fin 0).

(** The transactions with taxes filed under [id], in their order. *)
Definition taxed_under (id : string) (allTransactions : list Transaction.t)
    : list Transaction.t :=
  List.filter (fun t => has_taxes t && String.eqb (tax_id t) id) allTransactions.

Definition is_type (type : TransactionTypes) (t : Transaction.t) : bool :=
  match Transaction.type t, type with
  | CREDIT, CREDIT | DEBIT, DEBIT => true
  | _, _ => false
  end.

(** From a list of transactions, the totals collected and paid for each tax
    id, or null when no transaction has taxes. *)
Definition getTaxesSummary (allTransactions : list Transaction.t)
    : option (gmap string TaxSummary) :=
  let transactionsWithTaxes := List.filter has_taxes allTransactions in
  match transactionsWithTaxes with
  | [] => None
  | _ =>
      let groupedTransactions := groupBy transactionsWithTaxes tax_id in
      Some ((fun transactions =>
               {| collected :=
                    Math_abs (sumByWhen transactions getTaxAmountInHostCurrency (is_type CREDIT));
                  paid := sumByWhen transactions getTaxAmountInHostCurrency (is_type DEBIT) |})
              <$> groupedTransactions)
  end.

End TaxesSummary.

(** ** Sample data *)

Definition usd_host : Host.t := {| Host.id := 11; Host.currency := "USD" |}.
Definition usd_collective : Collective.t := {| Collective.id := 21; Collective.currency := "USD" |}.
Definition eur_collective : Collective.t := {| Collective.id := 22; Collective.currency := "EUR" |}.
Definition gbp_collective : Collective.t := {| Collective.id := 23; Collective.currency := "GBP" |}.
Definition jpy_collective : Collective.t := {| Collective.id := 24; Collective.currency := "JPY" |}.

(** An expense of [amount] minor units in [currency], charged to
    [collective]; [taxes] are its tax lines. *)
Definition an_expense (amount : Z) (currency : string) (collective : Collective.t)
    (feesPayer : string) (taxes : option (list Tax.t)) : Expense.t :=
  {| Expense.id := 31;
     Expense.amount := of_Z amount;
     Expense.currency := currency;
     Expense.collective := Some collective;
     Expense.CollectiveId := Collective.id collective;
     Expense.FromCollectiveId := 41;
     Expense.UserId := 51;
     Expense.PayoutMethodId := Some 61%Z;
     Expense.description := "Invoice";
     Expense.feesPayer := feesPayer;
     Expense.data := Some {| Expense.taxes := taxes |} |}.

Definition no_fees : FEES_IN_HOST_CURRENCY.t :=
  {| FEES_IN_HOST_CURRENCY.paymentProcessorFeeInHostCurrency := None;
     FEES_IN_HOST_CURRENCY.hostFeeInHostCurrency := None;
     FEES_IN_HOST_CURRENCY.platformFeeInHostCurrency := None |}.

(** Only a payment processor fee. *)
Definition processor_fee (fee : Z) : FEES_IN_HOST_CURRENCY.t :=
  {| FEES_IN_HOST_CURRENCY.paymentProcessorFeeInHostCurrency := Some (of_Z fee);
     FEES_IN_HOST_CURRENCY.hostFeeInHostCurrency := None;
     FEES_IN_HOST_CURRENCY.platformFeeInHostCurrency := None |}.

(** The three fees, given. *)
Definition three_fees (processor host platform : Z) : FEES_IN_HOST_CURRENCY.t :=
  {| FEES_IN_HOST_CURRENCY.paymentProcessorFeeInHostCurrency := Some (of_Z processor);
     FEES_IN_HOST_CURRENCY.hostFeeInHostCurrency := Some (of_Z host);
     FEES_IN_HOST_CURRENCY.platformFeeInHostCurrency := Some (of_Z platform) |}.

Definition some_fees (processor host platform : Z) : Fees.t :=
  {| Fees.paymentProcessorFeeInHostCurrency := of_Z processor;
     Fees.hostFeeInHostCurrency := of_Z host;
     Fees.platformFeeInHostCurrency := of_Z platform |}.

(** Collaborators for the examples: no collective is found by id, and the
    rate lookup answers 1. *)
Definition no_collective : Z -> option Collective.t := fun _ => None.
Definition unit_rate : string -> string -> result number := fun _ _ => Ok (Fin 1).

(** ** Sample data for the descriptions and the summaries *)

Definition jane : Account.t := {| Account.name := Some " Jane " |}.
Definition webpack : Account.t := {| Account.name := Some "Webpack" |}.

(** A transaction of the collective 21 with the account 41; [refund] is the
    transaction it refunds, if any. *)
Definition a_row (kind : TransactionKind) (type : TransactionTypes) (refund : option Z)
    : TransactionRow.t :=
  {| TransactionRow.isRefund := bool_decide (is_Some refund);
     TransactionRow.RefundTransactionId := refund;
     TransactionRow.OrderId := None;
     TransactionRow.kind := Some kind;
     TransactionRow.description := Some "Invoice";
     TransactionRow.ExpenseId := Some 31%Z;
     TransactionRow.CollectiveId := 21;
     TransactionRow.FromCollectiveId := 41;
     TransactionRow.isDebt := false;
     TransactionRow.type := type |}.

(** Lookups that find the accounts 21 and 41, the expense 31 and, under
    every id, [refund] as the transaction. *)
Definition sample_lookups (refund : option TransactionRow.t) : Lookups.t :=
  {| Lookups.Transaction := fun _ => refund;
     Lookups.Order := fun _ => None;
     Lookups.Tier := fun _ => None;
     Lookups.Subscription := fun _ => None;
     Lookups.Expense := fun id =>
       if (id =? 31)%Z then
         Some {| PaidExpense.type := other_expense_type "INVOICE";
                 PaidExpense.description := "Hosting" |}
       else None;
     Lookups.Collective := fun id =>
       if (id =? 21)%Z then Some webpack else if (id =? 41)%Z then Some jane else None |}.

(** A summation for the examples: [f] summed over the elements that satisfy
    [when]. *)
Definition sum_when (transactions : list Transaction.t) (f : Transaction.t -> number)
    (when : Transaction.t -> bool) : number :=
  sumBy (List.filter when transactions) f.

(** A tax of 20 %, and one of 10 % that also has a number. *)
Definition vat : Tax.t :=
  {| Tax.type := "VAT"; Tax.rate := number_for (1 # 5); Tax.others := ∅ |}.
Definition gst : Tax.t :=
  {| Tax.type := "GST"; Tax.rate := number_for (1 # 10);
     Tax.others := {[ "idNumber" := JStr "123" ]} |}.

(** A transaction of [taxAmount] minor units of the tax [id]. *)
Definition a_taxed (type : TransactionTypes) (id : string) (taxAmount : option number)
    : Transaction.t :=
  {| Transaction.netAmountInCollectiveCurrency := of_Z (-1200);
     Transaction.amountInHostCurrency := of_Z (-1200);
     Transaction.hostCurrency := "USD";
     Transaction.hostCurrencyFxRate := Fin 1;
     Transaction.paymentProcessorFeeInHostCurrency := Fin 0;
     Transaction.hostFeeInHostCurrency := Fin 0;
     Transaction.platformFeeInHostCurrency := Fin 0;
     Transaction.ExpenseId := 31;
     Transaction.type := type;
     Transaction.kind := EXPENSE;
     Transaction.amount := of_Z (-1200);
     Transaction.currency := "USD";
     Transaction.description := "Invoice";
     Transaction.CreatedByUserId := 51;
     Transaction.CollectiveId := 21;
     Transaction.FromCollectiveId := 41;
     Transaction.HostCollectiveId := 11;
     Transaction.PaymentMethodId := None;
     Transaction.PayoutMethodId := None;
     Transaction.taxAmount := taxAmount;
     Transaction.data := {[ "tax" := JObj {[ "id" := JStr id ]} ]} |}.

(** * Properties *)

(** ** Rounding to binary64 *)

Lemma pow2_pos (k : Z) : 0 < pow2 k.
Proof. apply Qpower_0_lt. reflexivity. Qed.

Lemma pow2_add (a b : Z) : pow2 (a + b) == pow2 a * pow2 b.
Proof. apply Qpower_plus. discriminate. Qed.

Lemma pow2_sub (a b : Z) : pow2 (a - b) == pow2 a / pow2 b.
Proof.
  pose proof (pow2_pos b). pose proof (pow2_add (a - b) b) as H1.
  replace (a - b + b)%Z with a in H1 by lia.
  rewrite H1. field. lra.
Qed.

Lemma pow2_le (a b : Z) : (a <= b)%Z -> pow2 a <= pow2 b.
Proof. intros H. apply Qpower_le_compat_l; [exact H | discriminate]. Qed.

Lemma pow2_lt (a b : Z) : (a < b)%Z -> pow2 a < pow2 b.
Proof. intros H. apply Qpower_lt_compat_l; [exact H | reflexivity]. Qed.

Lemma pow2_lt_inv (a b : Z) : pow2 a < pow2 b -> (a < b)%Z.
Proof. intros H. apply (Qpower_lt_compat_l_inv 2); [exact H | reflexivity]. Qed.

Lemma pow2_Z (k : Z) : (0 <= k)%Z -> pow2 k == inject_Z (2 ^ k).
Proof. intros H. unfold pow2. rewrite Zpower_Qpower by exact H. reflexivity. Qed.

Lemma pow2_0 : pow2 0 == 1.
Proof. reflexivity. Qed.

Lemma pow2_succ (k : Z) : pow2 (k + 1) == 2 * pow2 k.
Proof. rewrite pow2_add. change (pow2 1) with 2. ring. Qed.

Lemma inject_Z_nonneg (z : Z) : (0 <= z)%Z -> 0 <= inject_Z z.
Proof. intros H. change 0 with (inject_Z 0). rewrite <- Zle_Qle. exact H. Qed.

Lemma inject_Z_pos (z : Z) : (0 < z)%Z -> 0 < inject_Z z.
Proof. intros H. change 0 with (inject_Z 0). rewrite <- Zlt_Qlt. exact H. Qed.

(** *** The binary logarithm *)

Lemma Qlog2_spec (q : Q) : 0 < q -> pow2 (Qlog2 q) <= q /\ q < pow2 (Qlog2 q + 1).
Proof.
  intros Hq. destruct q as [n d].
  assert (Hn : (0 < n)%Z) by (unfold Qlt in Hq; cbn in Hq; lia).
  unfold Qlog2. cbn [Qnum Qden].
  set (a := Z.log2 n). set (b := Z.log2 (Zpos d)).
  destruct (Z.log2_spec n Hn) as [Ha1 Ha2]. fold a in Ha1, Ha2.
  destruct (Z.log2_spec (Zpos d) eq_refl) as [Hb1 Hb2]. fold b in Hb1, Hb2.
  assert (Ha0 : (0 <= a)%Z) by apply Z.log2_nonneg.
  assert (Hb0 : (0 <= b)%Z) by apply Z.log2_nonneg.
  assert (Hqd : (n # d) * inject_Z (Zpos d) == inject_Z n).
  { rewrite Qmake_Qdiv. field. discriminate. }
  replace (Z.succ a) with (a + 1)%Z in Ha2 by lia.
  replace (Z.succ b) with (b + 1)%Z in Hb2 by lia.
  rewrite Zle_Qle, <- pow2_Z in Ha1 by lia.
  rewrite Zlt_Qlt, <- pow2_Z in Ha2 by lia.
  rewrite Zle_Qle, <- pow2_Z in Hb1 by lia.
  rewrite Zlt_Qlt, <- pow2_Z in Hb2 by lia.
  set (N := inject_Z n) in *. set (D := inject_Z (Zpos d)) in *. set (x := n # d) in *.
  assert (Hx : 0 < x) by exact Hq.
  assert (Hup : x < pow2 (a - b + 1)).
  { replace (a - b + 1)%Z with (a + 1 - b)%Z by lia. rewrite pow2_sub.
    pose proof (pow2_pos b). apply Qlt_shift_div_l; [assumption |].
    clearbody N D x. nra. }
  assert (Hlow : pow2 (a - b - 1) < x).
  { replace (a - b - 1)%Z with (a - (b + 1))%Z by lia. rewrite pow2_sub.
    pose proof (pow2_pos (b + 1)). apply Qlt_shift_div_r; [assumption |].
    clearbody N D x. nra. }
  destruct (Qle_bool (pow2 (a - b)) x) eqn:E.
  - apply Qle_bool_iff in E. split; [exact E | exact Hup].
  - split; [apply Qlt_le_weak; exact Hlow |].
    replace (a - b - 1 + 1)%Z with (a - b)%Z by lia.
    apply Qnot_le_lt. intros H. apply Qle_bool_iff in H. congruence.
Qed.

Lemma Qlog2_unique (q : Q) (e : Z) : pow2 e <= q -> q < pow2 (e + 1) -> Qlog2 q = e.
Proof.
  intros H1 H2.
  assert (Hq : 0 < q) by (pose proof (pow2_pos e); lra).
  destruct (Qlog2_spec q Hq) as [L1 L2].
  assert ((e < Qlog2 q + 1)%Z) by (apply pow2_lt_inv; lra).
  assert ((Qlog2 q < e + 1)%Z) by (apply pow2_lt_inv; lra).
  lia.
Qed.

Lemma Qlog2_comp (p q : Q) : 0 < p -> p == q -> Qlog2 p = Qlog2 q.
Proof.
  intros Hp H. destruct (Qlog2_spec p Hp) as [L1 L2].
  symmetry. apply Qlog2_unique; rewrite <- H; assumption.
Qed.

Lemma Qlog2_le (p q : Q) : 0 < p -> p <= q -> (Qlog2 p <= Qlog2 q)%Z.
Proof.
  intros Hp H.
  destruct (Qlog2_spec p Hp) as [L1 _].
  destruct (Qlog2_spec q ltac:(lra)) as [_ L2].
  assert ((Qlog2 p < Qlog2 q + 1)%Z) by (apply pow2_lt_inv; lra).
  lia.
Qed.

Lemma Qlog2_pow2_mult (m k : Z) :
  (0 < m)%Z -> Qlog2 (inject_Z m * pow2 k) = (Z.log2 m + k)%Z.
Proof.
  intros Hm. destruct (Z.log2_spec m Hm) as [H1 H2].
  pose proof (Z.log2_nonneg m) as H0.
  replace (Z.succ (Z.log2 m)) with (Z.log2 m + 1)%Z in H2 by lia.
  rewrite Zle_Qle, <- pow2_Z in H1 by lia.
  rewrite Zlt_Qlt, <- pow2_Z in H2 by lia.
  pose proof (pow2_pos k).
  apply Qlog2_unique.
  - rewrite pow2_add. nra.
  - replace (Z.log2 m + k + 1)%Z with (Z.log2 m + 1 + k)%Z by lia. rewrite pow2_add. nra.
Qed.

(** *** Rounding to an integer *)

Lemma round_half_even_floor (x : Q) :
  (Qfloor x <= round_half_even x <= Qfloor x + 1)%Z.
Proof.
  unfold round_half_even.
  destruct (Qcompare (x - inject_Z (Qfloor x)) (1 # 2)); [destruct (Z.even (Qfloor x)) | |]; lia.
Qed.

Lemma round_half_even_comp (x y : Q) : x == y -> round_half_even x = round_half_even y.
Proof.
  intros H. unfold round_half_even.
  assert (Hf : Qfloor x = Qfloor y) by (rewrite H; reflexivity).
  rewrite Hf.
  assert (Hc : Qcompare (x - inject_Z (Qfloor y)) (1 # 2) =
               Qcompare (y - inject_Z (Qfloor y)) (1 # 2)) by (rewrite H; reflexivity).
  rewrite Hc. reflexivity.
Qed.

Lemma round_half_even_Z (z : Z) : round_half_even (inject_Z z) = z.
Proof.
  unfold round_half_even. rewrite Qfloor_Z.
  destruct (Qcompare_spec (inject_Z z - inject_Z z) (1 # 2)) as [H | H | H].
  - exfalso. lra.
  - reflexivity.
  - exfalso. lra.
Qed.

Lemma round_half_even_error (x : Q) : Qabs (inject_Z (round_half_even x) - x) <= 1 # 2.
Proof.
  pose proof (Qfloor_le x) as H1. pose proof (Qlt_floor x) as H2.
  rewrite inject_Z_plus in H2. change (inject_Z 1) with 1 in H2.
  apply Qabs_Qle_condition. unfold round_half_even.
  destruct (Qcompare_spec (x - inject_Z (Qfloor x)) (1 # 2)) as [H | H | H].
  - destruct (Z.even (Qfloor x)); [| rewrite inject_Z_plus; change (inject_Z 1) with 1]; lra.
  - lra.
  - rewrite inject_Z_plus. change (inject_Z 1) with 1. lra.
Qed.

Lemma round_half_even_le (x : Q) (z : Z) : x <= inject_Z z -> (round_half_even x <= z)%Z.
Proof.
  intros H. destruct (Qlt_le_dec x (inject_Z z)) as [Hlt | Hge].
  - pose proof (Qfloor_le x) as Hf.
    assert ((Qfloor x < z)%Z) by (rewrite Zlt_Qlt; lra).
    pose proof (round_half_even_floor x). lia.
  - assert (E : x == inject_Z z) by lra.
    rewrite (round_half_even_comp _ _ E), round_half_even_Z. lia.
Qed.

Lemma round_half_even_ge (x : Q) (z : Z) : inject_Z z <= x -> (z <= round_half_even x)%Z.
Proof.
  intros H. apply Qfloor_resp_le in H. rewrite Qfloor_Z in H.
  pose proof (round_half_even_floor x). lia.
Qed.

Lemma round_half_even_mono (x y : Q) : x <= y -> (round_half_even x <= round_half_even y)%Z.
Proof.
  intros H. pose proof (Qfloor_resp_le _ _ H) as Hf.
  destruct (Z.eq_dec (Qfloor x) (Qfloor y)) as [E | E].
  - unfold round_half_even. rewrite E.
    destruct (Qcompare_spec (x - inject_Z (Qfloor y)) (1 # 2)),
             (Qcompare_spec (y - inject_Z (Qfloor y)) (1 # 2));
      try destruct (Z.even (Qfloor y)); try lia; exfalso; lra.
  - pose proof (round_half_even_floor x). pose proof (round_half_even_floor y). lia.
Qed.

Lemma round_half_even_nonneg (x : Q) : 0 <= x -> (0 <= round_half_even x)%Z.
Proof. intros H. apply round_half_even_ge. exact H. Qed.

(** *** Rounding to the nearest binary64 value *)

Lemma ulp_exponent_min (a : Q) : (-1074 <= ulp_exponent a)%Z.
Proof. unfold ulp_exponent. lia. Qed.

Lemma ulp_exponent_comp (a b : Q) : 0 < a -> a == b -> ulp_exponent a = ulp_exponent b.
Proof. intros Ha H. unfold ulp_exponent. rewrite (Qlog2_comp a b Ha H). reflexivity. Qed.

Lemma ulp_exponent_le (p q : Q) : 0 < p -> p <= q -> (ulp_exponent p <= ulp_exponent q)%Z.
Proof. intros Hp H. unfold ulp_exponent. pose proof (Qlog2_le p q Hp H). lia. Qed.

Lemma nearest_pos_zero (a : Q) : a == 0 -> nearest_pos a == 0.
Proof.
  intros H. unfold nearest_pos.
  assert (E : a / pow2 (ulp_exponent a) == inject_Z 0).
  { pose proof (pow2_pos (ulp_exponent a)) as Hw.
    assert (Ea : a / pow2 (ulp_exponent a) * pow2 (ulp_exponent a) == a) by (field; lra).
    change (inject_Z 0) with 0.
    set (s := a / pow2 (ulp_exponent a)) in *. set (w := pow2 (ulp_exponent a)) in *.
    clearbody s w. nra. }
  rewrite (round_half_even_comp _ _ E), round_half_even_Z. ring.
Qed.

Lemma nearest_pos_comp (a b : Q) : 0 <= a -> a == b -> nearest_pos a == nearest_pos b.
Proof.
  intros Ha H. destruct (Qlt_le_dec 0 a) as [Hpos | Hzero].
  - unfold nearest_pos. rewrite <- (ulp_exponent_comp a b Hpos H).
    assert (E : a / pow2 (ulp_exponent a) == b / pow2 (ulp_exponent a)).
    { unfold Qdiv. apply Qmult_comp; [exact H | reflexivity]. }
    rewrite (round_half_even_comp _ _ E). reflexivity.
  - rewrite (nearest_pos_zero a), (nearest_pos_zero b); [reflexivity | lra | lra].
Qed.

Lemma nearest_pos_nonneg (a : Q) : 0 <= a -> 0 <= nearest_pos a.
Proof.
  intros Ha. unfold nearest_pos. pose proof (pow2_pos (ulp_exponent a)) as Hu.
  assert (0 <= a / pow2 (ulp_exponent a)) by (apply Qle_shift_div_l; [assumption | lra]).
  pose proof (round_half_even_nonneg _ H) as Hr. rewrite Zle_Qle in Hr.
  change (inject_Z 0) with 0 in Hr. nra.
Qed.

(** A multiple of a power of two that is at least as coarse as the unit in
    the last place is not crossed by the rounding. *)
Lemma nearest_pos_le_grid (a : Q) (z k : Z) :
  (ulp_exponent a <= k)%Z -> a <= inject_Z z * pow2 k -> nearest_pos a <= inject_Z z * pow2 k.
Proof.
  intros Hk H. unfold nearest_pos. set (u := ulp_exponent a) in *.
  pose proof (pow2_pos u) as Hu.
  assert (Ek : pow2 k == inject_Z (2 ^ (k - u)) * pow2 u).
  { rewrite <- pow2_Z by lia. rewrite <- pow2_add. replace (k - u + u)%Z with k by lia. reflexivity. }
  assert (Hs : a / pow2 u <= inject_Z (z * 2 ^ (k - u))).
  { apply Qle_shift_div_r; [assumption |]. rewrite inject_Z_mult, <- Qmult_assoc, <- Ek. exact H. }
  apply round_half_even_le in Hs. rewrite Zle_Qle, inject_Z_mult in Hs.
  rewrite Ek. set (r := inject_Z (round_half_even (a / pow2 u))) in *.
  set (g := inject_Z (2 ^ (k - u))) in *. set (w := pow2 u) in *. clearbody r g w. nra.
Qed.

Lemma nearest_pos_ge_grid (a : Q) (z k : Z) :
  (ulp_exponent a <= k)%Z -> inject_Z z * pow2 k <= a -> inject_Z z * pow2 k <= nearest_pos a.
Proof.
  intros Hk H. unfold nearest_pos. set (u := ulp_exponent a) in *.
  pose proof (pow2_pos u) as Hu.
  assert (Ek : pow2 k == inject_Z (2 ^ (k - u)) * pow2 u).
  { rewrite <- pow2_Z by lia. rewrite <- pow2_add. replace (k - u + u)%Z with k by lia. reflexivity. }
  assert (Hs : inject_Z (z * 2 ^ (k - u)) <= a / pow2 u).
  { apply Qle_shift_div_l; [assumption |]. rewrite inject_Z_mult, <- Qmult_assoc, <- Ek. exact H. }
  apply round_half_even_ge in Hs. rewrite Zle_Qle, inject_Z_mult in Hs.
  rewrite Ek. set (r := inject_Z (round_half_even (a / pow2 u))) in *.
  set (g := inject_Z (2 ^ (k - u))) in *. set (w := pow2 u) in *. clearbody r g w. nra.
Qed.

Lemma ulp_exponent_pow2_mult (m k : Z) :
  (0 < m < 2 ^ 53)%Z -> (-1074 <= k)%Z -> (ulp_exponent (inject_Z m * pow2 k) <= k)%Z.
Proof.
  intros Hm Hk. unfold ulp_exponent. rewrite Qlog2_pow2_mult by lia.
  assert (Z.log2 m < 53)%Z by (apply Z.log2_lt_pow2; lia). lia.
Qed.

(** A value with 53 significant bits is left as it is. *)
Lemma nearest_pos_exact (a : Q) (m k : Z) :
  (0 <= m <= 2 ^ 53)%Z -> (-1074 <= k)%Z -> a == inject_Z m * pow2 k -> nearest_pos a == a.
Proof.
  intros Hm Hk Ha.
  assert (H0 : 0 <= a).
  { rewrite Ha. pose proof (pow2_pos k). pose proof (inject_Z_nonneg m ltac:(lia)). nra. }
  rewrite (nearest_pos_comp a _ H0 Ha), Ha.
  destruct (Z.eq_dec m 0%Z) as [-> | Hm0].
  { rewrite nearest_pos_zero; ring. }
  assert (Hgrid : forall m' k', (0 < m' < 2 ^ 53)%Z -> (-1074 <= k')%Z ->
            nearest_pos (inject_Z m' * pow2 k') == inject_Z m' * pow2 k').
  { intros m' k' Hm' Hk'. pose proof (ulp_exponent_pow2_mult m' k' Hm' Hk') as Hu.
    apply Qle_antisym.
    - apply nearest_pos_le_grid; [exact Hu | lra].
    - apply nearest_pos_ge_grid; [exact Hu | lra]. }
  destruct (Z.eq_dec m (2 ^ 53)%Z) as [-> | Hm1].
  - assert (E : inject_Z (2 ^ 53) * pow2 k == inject_Z (2 ^ 52) * pow2 (k + 1)).
    { rewrite pow2_succ. change (inject_Z (2 ^ 53)) with (2 * inject_Z (2 ^ 52)). ring. }
    assert (0 <= inject_Z (2 ^ 53) * pow2 k) by (pose proof (pow2_pos k); nra).
    rewrite (nearest_pos_comp _ _ H E), E. apply Hgrid; lia.
  - apply Hgrid; lia.
Qed.

(** The result of the rounding has 53 significant bits. *)
Lemma nearest_pos_form (a : Q) :
  0 <= a ->
  exists m, (0 <= m <= 2 ^ 53)%Z /\ nearest_pos a == inject_Z m * pow2 (ulp_exponent a).
Proof.
  intros Ha. exists (round_half_even (a / pow2 (ulp_exponent a))). split; [| reflexivity].
  pose proof (pow2_pos (ulp_exponent a)) as Hu.
  split.
  - apply round_half_even_nonneg. apply Qle_shift_div_l; [assumption | lra].
  - apply round_half_even_le. apply Qle_shift_div_r; [assumption |].
    destruct (Qlt_le_dec 0 a) as [Hpos | Hzero].
    + destruct (Qlog2_spec a Hpos) as [_ Hlt].
      assert (Hle : pow2 (Qlog2 a + 1) <= inject_Z (2 ^ 53) * pow2 (ulp_exponent a)).
      { rewrite <- pow2_Z by lia. rewrite <- pow2_add. apply pow2_le. unfold ulp_exponent. lia. }
      lra.
    + assert (0 < inject_Z (2 ^ 53)) by reflexivity. nra.
Qed.

Lemma nearest_pos_idem (a : Q) : 0 <= a -> nearest_pos (nearest_pos a) == nearest_pos a.
Proof.
  intros Ha. destruct (nearest_pos_form a Ha) as (m & Hm & E).
  apply (nearest_pos_exact _ m (ulp_exponent a)); [exact Hm | apply ulp_exponent_min | exact E].
Qed.

Lemma nearest_pos_mono (p q : Q) : 0 <= p -> p <= q -> nearest_pos p <= nearest_pos q.
Proof.
  intros Hp H. destruct (Qlt_le_dec 0 p) as [Hpos | Hzero].
  - pose proof (ulp_exponent_le p q Hpos H) as Hu.
    destruct (Z.eq_dec (ulp_exponent p) (ulp_exponent q)) as [E | E].
    + unfold nearest_pos. rewrite E. pose proof (pow2_pos (ulp_exponent q)) as Hw.
      assert (Hs : p / pow2 (ulp_exponent q) <= q / pow2 (ulp_exponent q)).
      { apply Qle_shift_div_l; [assumption |].
        assert (Eq : p / pow2 (ulp_exponent q) * pow2 (ulp_exponent q) == p) by (field; lra).
        rewrite Eq. exact H. }
      apply round_half_even_mono in Hs. rewrite Zle_Qle in Hs.
      set (w := pow2 (ulp_exponent q)) in *.
      set (r := inject_Z (round_half_even (p / w))) in *.
      set (r' := inject_Z (round_half_even (q / w))) in *.
      clearbody w r r'. nra.
    + assert (Hq : ulp_exponent q = (Qlog2 q - 52)%Z).
      { pose proof (ulp_exponent_min p). unfold ulp_exponent in *. lia. }
      assert (Hlog : (Qlog2 p < Qlog2 q)%Z) by (unfold ulp_exponent in *; lia).
      destruct (Qlog2_spec p Hpos) as [_ Hp2].
      destruct (Qlog2_spec q ltac:(lra)) as [Hq1 _].
      assert (Hb : pow2 (Qlog2 p + 1) <= pow2 (Qlog2 q)) by (apply pow2_le; lia).
      assert (E1 : inject_Z 1 * pow2 (Qlog2 q) == pow2 (Qlog2 q)) by ring.
      apply Qle_trans with (inject_Z 1 * pow2 (Qlog2 q)).
      * apply nearest_pos_le_grid; [lia | lra].
      * apply nearest_pos_ge_grid; [lia | lra].
  - rewrite (nearest_pos_zero p) by lra. apply nearest_pos_nonneg. lra.
Qed.

(** The error of the rounding: half a unit in the last place. *)
Lemma nearest_pos_error (a : Q) :
  0 <= a -> Qabs (nearest_pos a - a) <= a * pow2 (-53) + pow2 (-1075).
Proof.
  intros Ha. pose proof (pow2_pos (-53)). pose proof (pow2_pos (-1075)).
  destruct (Qlt_le_dec 0 a) as [Hpos | Hzero].
  2: { apply Qabs_Qle_condition. rewrite (nearest_pos_zero a) by lra. split; nra. }
  unfold nearest_pos. set (u := ulp_exponent a).
  pose proof (pow2_pos u) as Hu.
  pose proof (round_half_even_error (a / pow2 u)) as He.
  apply Qabs_Qle_condition in He. destruct He as [He1 He2].
  assert (Ea : a / pow2 u * pow2 u == a) by (field; lra).
  assert (Hhalf : pow2 (u - 1) * 2 == pow2 u).
  { replace u with (u - 1 + 1)%Z at 2 by lia. rewrite pow2_succ. ring. }
  assert (Hbound : pow2 (u - 1) <= a * pow2 (-53) + pow2 (-1075)).
  { unfold u, ulp_exponent. destruct (Z.max_spec (Qlog2 a - 52) (-1074)) as [[_ ->] | [_ ->]].
    - change (-1074 - 1)%Z with (-1075)%Z. nra.
    - destruct (Qlog2_spec a Hpos) as [Hl _].
      replace (Qlog2 a - 52 - 1)%Z with (Qlog2 a + -53)%Z by lia. rewrite pow2_add.
      pose proof (pow2_pos (Qlog2 a)). nra. }
  apply Qabs_Qle_condition.
  set (r := inject_Z (round_half_even (a / pow2 u))) in *.
  set (w := pow2 u) in *. set (h := pow2 (u - 1)) in *. set (s := a / w) in *.
  clearbody r w h s. split; nra.
Qed.

(** *** Both signs *)

Lemma nearest_nonneg (q : Q) : 0 <= q -> nearest q = nearest_pos q.
Proof. intros H. unfold nearest. apply Qle_bool_iff in H. rewrite H. reflexivity. Qed.

Lemma nearest_neg (q : Q) : q < 0 -> nearest q = - nearest_pos (- q).
Proof.
  intros H. unfold nearest. destruct (Qle_bool 0 q) eqn:E; [| reflexivity].
  apply Qle_bool_iff in E. exfalso. lra.
Qed.

Lemma nearest_comp (p q : Q) : p == q -> nearest p == nearest q.
Proof.
  intros H. destruct (Qlt_le_dec p 0) as [Hneg | Hpos].
  - rewrite (nearest_neg p), (nearest_neg q) by lra.
    rewrite (nearest_pos_comp (- p) (- q)); [reflexivity | lra | rewrite H; reflexivity].
  - rewrite (nearest_nonneg p), (nearest_nonneg q) by lra.
    apply nearest_pos_comp; assumption.
Qed.

#[global] Instance nearest_Proper : Proper (Qeq ==> Qeq) nearest.
Proof. intros p q H. apply nearest_comp. exact H. Qed.

Lemma nearest_0 : nearest 0 == 0.
Proof. reflexivity. Qed.

Lemma nearest_opp (q : Q) : nearest (- q) == - nearest q.
Proof.
  destruct (Qlt_le_dec q 0) as [Hneg | Hpos].
  - rewrite (nearest_neg q), (nearest_nonneg (- q)) by lra. ring.
  - destruct (Qlt_le_dec 0 q) as [Hq | Hq].
    + rewrite (nearest_neg (- q)), (nearest_nonneg q) by lra.
      rewrite (nearest_pos_comp (- - q) q); [reflexivity | lra | ring].
    + assert (E : q == 0) by lra.
      rewrite (nearest_comp (- q) 0), (nearest_comp q 0); [reflexivity | lra | lra].
Qed.

Lemma nearest_sign_nonneg (q : Q) : 0 <= q -> 0 <= nearest q.
Proof. intros H. rewrite nearest_nonneg by exact H. apply nearest_pos_nonneg. exact H. Qed.

Lemma nearest_sign_nonpos (q : Q) : q <= 0 -> nearest q <= 0.
Proof.
  intros H. assert (E : q == - - q) by ring. rewrite (nearest_comp _ _ E), nearest_opp.
  pose proof (nearest_sign_nonneg (- q)). lra.
Qed.

Lemma nearest_mono (p q : Q) : p <= q -> nearest p <= nearest q.
Proof.
  intros H. destruct (Qlt_le_dec p 0) as [Hp | Hp], (Qlt_le_dec q 0) as [Hq | Hq].
  - rewrite (nearest_neg p), (nearest_neg q) by assumption.
    pose proof (nearest_pos_mono (- q) (- p)). lra.
  - pose proof (nearest_sign_nonpos p). pose proof (nearest_sign_nonneg q). lra.
  - exfalso. lra.
  - rewrite (nearest_nonneg p), (nearest_nonneg q) by assumption.
    apply nearest_pos_mono; assumption.
Qed.

Lemma nearest_idem (q : Q) : nearest (nearest q) == nearest q.
Proof.
  destruct (Qlt_le_dec q 0) as [Hneg | Hpos].
  - rewrite (nearest_neg q) by assumption. rewrite nearest_opp.
    pose proof (nearest_pos_nonneg (- q)).
    rewrite (nearest_nonneg (nearest_pos (- q))) by lra.
    rewrite nearest_pos_idem by lra. reflexivity.
  - rewrite (nearest_nonneg q) by assumption.
    pose proof (nearest_pos_nonneg q).
    rewrite nearest_nonneg by lra. apply nearest_pos_idem. assumption.
Qed.

(** A value with 53 significant bits is left as it is. *)
Lemma nearest_exact (q : Q) (m k : Z) :
  (Z.abs m <= 2 ^ 53)%Z -> (-1074 <= k)%Z -> q == inject_Z m * pow2 k -> nearest q == q.
Proof.
  intros Hm Hk Hq. pose proof (pow2_pos k) as Hw.
  destruct (Z_lt_le_dec m 0) as [Hneg | Hpos].
  - assert (Hlt : inject_Z m < 0) by (change 0 with (inject_Z 0); rewrite <- Zlt_Qlt; lia).
    rewrite nearest_neg by (rewrite Hq; nra).
    rewrite (nearest_pos_exact (- q) (- m) k); [ring | lia | lia |].
    rewrite Hq, inject_Z_opp. ring.
  - pose proof (inject_Z_nonneg m Hpos).
    rewrite nearest_nonneg by (rewrite Hq; nra).
    apply (nearest_pos_exact q m k); [lia | lia | exact Hq].
Qed.

Lemma nearest_Z (z : Z) : (Z.abs z <= 2 ^ 53)%Z -> nearest (inject_Z z) == inject_Z z.
Proof. intros H. apply (nearest_exact _ z 0); [exact H | lia | rewrite pow2_0; ring]. Qed.

Lemma nearest_error (q : Q) : Qabs (nearest q - q) <= Qabs q * pow2 (-53) + pow2 (-1075).
Proof.
  destruct (Qlt_le_dec q 0) as [Hneg | Hpos].
  - rewrite nearest_neg by assumption. rewrite (Qabs_neg q) by lra.
    pose proof (nearest_pos_error (- q) ltac:(lra)) as H.
    assert (E : - nearest_pos (- q) - q == - (nearest_pos (- q) - - q)) by ring.
    rewrite E, Qabs_opp. exact H.
  - rewrite nearest_nonneg by assumption. rewrite (Qabs_pos q) by assumption.
    apply nearest_pos_error. assumption.
Qed.

Lemma nearest_form (q : Q) :
  exists m k, (Z.abs m <= 2 ^ 53)%Z /\ (-1074 <= k)%Z /\ nearest q == inject_Z m * pow2 k.
Proof.
  destruct (Qlt_le_dec q 0) as [Hneg | Hpos].
  - destruct (nearest_pos_form (- q) ltac:(lra)) as (m & Hm & E).
    exists (- m)%Z, (ulp_exponent (- q)). split; [lia |]. split; [apply ulp_exponent_min |].
    rewrite nearest_neg by assumption. rewrite E, inject_Z_opp. ring.
  - destruct (nearest_pos_form q Hpos) as (m & Hm & E).
    exists m, (ulp_exponent q). split; [lia |]. split; [apply ulp_exponent_min |].
    rewrite nearest_nonneg by assumption. exact E.
Qed.

(** ** Numbers *)

Lemma Qltb_lt (a b : Q) : Qltb a b = true <-> a < b.
Proof.
  unfold Qltb. rewrite negb_true_iff, <- not_true_iff_false, Qle_bool_iff.
  split; [apply Qnot_le_lt | apply Qlt_not_le].
Qed.

Lemma Qltb_ge (a b : Q) : Qltb a b = false <-> b <= a.
Proof. unfold Qltb. rewrite negb_false_iff. apply Qle_bool_iff. Qed.

Lemma Qeq_bool_false (a b : Q) : Qeq_bool a b = false <-> ~ a == b.
Proof. rewrite <- not_true_iff_false, Qeq_bool_iff. reflexivity. Qed.

Lemma Qle_bool_comp (a b c d : Q) : a == b -> c == d -> Qle_bool a c = Qle_bool b d.
Proof.
  intros H1 H2. apply eq_true_iff_eq. rewrite !Qle_bool_iff, H1, H2. reflexivity.
Qed.

Lemma Qltb_comp (a b c d : Q) : a == b -> c == d -> Qltb a c = Qltb b d.
Proof. intros H1 H2. unfold Qltb. rewrite (Qle_bool_comp c d a b H2 H1). reflexivity. Qed.

Lemma Qeq_bool_compat (a b c d : Q) : a == b -> c == d -> Qeq_bool a c = Qeq_bool b d.
Proof.
  intros H1 H2. apply eq_true_iff_eq. rewrite !Qeq_bool_iff, H1, H2. reflexivity.
Qed.

Lemma represents_Fin (q : Q) : Fin q ~> q.
Proof. split; reflexivity. Qed.

Lemma represents_value (x : number) : finite x = true -> x ~> value x.
Proof. intros H. split; [assumption | reflexivity]. Qed.

Lemma represents_eq (x : number) (p q : Q) : x ~> p -> p == q -> x ~> q.
Proof. intros [Hf Hv] Hpq. split; [assumption |]. rewrite Hv. assumption. Qed.

Lemma represents_is_zero (x : number) (q : Q) : x ~> q -> (is_zero x = true <-> q == 0).
Proof.
  intros [Hf Hv]. destruct x; try discriminate; simpl in *.
  - rewrite Qeq_bool_iff, Hv. reflexivity.
  - rewrite <- Hv. split; reflexivity.
Qed.

Lemma represents_zero (b : bool) : zero b ~> 0.
Proof. destruct b; split; reflexivity. Qed.

Lemma num_eq_refl (x : number) : x =n= x.
Proof. destruct x; simpl; reflexivity || exact I. Qed.

Lemma num_eq_sym (x y : number) : x =n= y -> y =n= x.
Proof. destruct x, y; simpl; try tauto; intros H; symmetry; exact H. Qed.

Lemma num_eq_trans (x y z : number) : x =n= y -> y =n= z -> x =n= z.
Proof.
  destruct x, y, z; simpl; try tauto; intros H1 H2; lra.
Qed.

#[global] Instance num_eq_equivalence : Equivalence num_eq.
Proof. split; [exact num_eq_refl | exact num_eq_sym | exact num_eq_trans]. Qed.

Lemma represents_num_eq (x y : number) (p q : Q) : x ~> p -> y ~> q -> (x =n= y <-> p == q).
Proof.
  intros [Hx Hp] [Hy Hq].
  destruct x, y; try discriminate; simpl in *; rewrite <- Hp, <- Hq; reflexivity.
Qed.

Lemma represents_num_eq_l (x y : number) (q : Q) : x =n= y -> y ~> q -> x ~> q.
Proof.
  intros H [Hf Hv]. destruct x, y; try discriminate; try contradiction;
    split; try reflexivity; simpl in *; lra.
Qed.

Lemma num_eq_finite (x y : number) : x =n= y -> finite x = finite y.
Proof. destruct x, y; simpl; try tauto; reflexivity. Qed.

Lemma represents_nle (x y : number) (p q : Q) : x ~> p -> y ~> q -> (nle x y = true <-> p <= q).
Proof.
  intros [Hx Hp] [Hy Hq].
  destruct x, y; try discriminate; simpl in *; rewrite Qle_bool_iff, <- Hp, <- Hq; reflexivity.
Qed.

Lemma represents_nlt (x y : number) (p q : Q) : x ~> p -> y ~> q -> (nlt x y = true <-> p < q).
Proof.
  intros [Hx Hp] [Hy Hq].
  destruct x, y; try discriminate; simpl in *; rewrite Qltb_lt, <- Hp, <- Hq; reflexivity.
Qed.

(** *** Binary64 values *)

Lemma pow2_1024_pos : 0 < pow2 1024.
Proof. apply pow2_pos. Qed.

Lemma is_double_comp (p q : Q) : p == q -> is_double p -> is_double q.
Proof. intros H [H1 H2]. split; rewrite <- H; assumption. Qed.

Lemma is_double_0 : is_double 0.
Proof. split; [reflexivity | apply pow2_1024_pos]. Qed.

Lemma is_double_opp (q : Q) : is_double q -> is_double (- q).
Proof.
  intros [H1 H2]. split.
  - rewrite nearest_opp, H1. reflexivity.
  - rewrite Qabs_opp. exact H2.
Qed.

Lemma is_double_abs (q : Q) : is_double q -> is_double (Qabs q).
Proof.
  intros H. apply Qabs_case; intros _; [exact H | apply is_double_opp; exact H].
Qed.

Lemma pow2_53_lt_1024 : inject_Z (2 ^ 53) < pow2 1024.
Proof. rewrite <- pow2_Z by lia. apply pow2_lt. lia. Qed.

(** The integers up to [2^53] are binary64 values. *)
Lemma is_double_Z (z : Z) : (Z.abs z <= 2 ^ 53)%Z -> is_double (inject_Z z).
Proof.
  intros H. split; [apply nearest_Z; exact H |].
  pose proof pow2_53_lt_1024 as Hlt.
  assert (Hz : Qabs (inject_Z z) <= inject_Z (2 ^ 53)).
  { apply Qabs_Qle_condition. rewrite <- inject_Z_opp, <- !Zle_Qle. lia. }
  lra.
Qed.

Lemma is_double_nearest (q : Q) : Qabs (nearest q) < pow2 1024 -> is_double (nearest q).
Proof. intros H. split; [apply nearest_idem | exact H]. Qed.

(** A binary64 value has 53 significant bits. *)
Lemma is_double_form (q : Q) :
  is_double q ->
  exists m k, (Z.abs m <= 2 ^ 53)%Z /\ (-1074 <= k)%Z /\ q == inject_Z m * pow2 k.
Proof.
  intros [H _]. destruct (nearest_form q) as (m & k & Hm & Hk & E).
  exists m, k. split; [exact Hm |]. split; [exact Hk |]. rewrite <- H. exact E.
Qed.

(** *** The Number value for a rational *)

Lemma number_for_comp (p q : Q) : p == q -> number_for p = number_for q.
Proof.
  intros H. unfold number_for. pose proof (nearest_comp p q H) as Hn.
  rewrite (Qle_bool_comp (pow2 1024) (pow2 1024) (Qabs (nearest p)) (Qabs (nearest q)))
    by (rewrite ?Hn; reflexivity).
  rewrite (Qeq_bool_compat (nearest p) (nearest q) 0 0) by (assumption || reflexivity).
  rewrite (Qltb_comp p q 0 0) by (assumption || reflexivity).
  rewrite (Qred_complete _ _ Hn). reflexivity.
Qed.

Lemma number_for_cases (q : Q) :
  (pow2 1024 <= Qabs (nearest q) /\ number_for q = infinity (Qltb q 0)) \/
  (nearest q == 0 /\ number_for q = zero (Qltb q 0)) \/
  (Qabs (nearest q) < pow2 1024 /\ ~ nearest q == 0 /\ number_for q = Fin (Qred (nearest q))).
Proof.
  unfold number_for.
  destruct (Qle_bool (pow2 1024) (Qabs (nearest q))) eqn:E1.
  - left. apply Qle_bool_iff in E1. split; [exact E1 | reflexivity].
  - right. assert (H1 : Qabs (nearest q) < pow2 1024).
    { apply Qnot_le_lt. intros H. apply Qle_bool_iff in H. congruence. }
    destruct (Qeq_bool (nearest q) 0) eqn:E2.
    + left. apply Qeq_bool_iff in E2. split; [exact E2 | reflexivity].
    + right. apply Qeq_bool_false in E2. repeat split; assumption.
Qed.

Lemma is_number_zero (b : bool) : is_number (zero b).
Proof. destruct b; [exact I | exact is_double_0]. Qed.

Lemma is_number_infinity (b : bool) : is_number (infinity b).
Proof. destruct b; exact I. Qed.

(** The Number value for a rational is a number. *)
Lemma number_for_is_number (q : Q) : is_number (number_for q).
Proof.
  destruct (number_for_cases q) as [[_ ->] | [[_ ->] | (H1 & _ & ->)]].
  - apply is_number_infinity.
  - apply is_number_zero.
  - apply (is_double_comp (nearest q)); [symmetry; apply Qred_correct |].
    apply is_double_nearest. exact H1.
Qed.

Lemma number_for_finite_iff (q : Q) :
  finite (number_for q) = true <-> Qabs (nearest q) < pow2 1024.
Proof.
  destruct (number_for_cases q) as [[H ->] | [[H ->] | (H1 & _ & ->)]].
  - split; [destruct (Qltb q 0); discriminate | intros H'; exfalso; lra].
  - split; [| destruct (Qltb q 0); reflexivity].
    intros _. rewrite H. apply pow2_1024_pos.
  - split; [intros _; exact H1 | reflexivity].
Qed.

(** A finite Number value stands for the nearest binary64 value. *)
Lemma number_for_finite (q : Q) : finite (number_for q) = true -> number_for q ~> nearest q.
Proof.
  intros Hf. split; [exact Hf |].
  destruct (number_for_cases q) as [[_ E] | [[H E] | (_ & _ & E)]]; rewrite E in *.
  - destruct (Qltb q 0); discriminate.
  - destruct (Qltb q 0); simpl; rewrite H; reflexivity.
  - simpl. apply Qred_correct.
Qed.

(** The Number value for a binary64 value is that value. *)
Lemma number_for_exact (q : Q) : is_double q -> number_for q ~> q.
Proof.
  intros [H1 H2].
  assert (Hf : finite (number_for q) = true) by (apply number_for_finite_iff; rewrite H1; exact H2).
  apply (represents_eq _ (nearest q)); [apply number_for_finite; exact Hf | exact H1].
Qed.

Lemma number_for_Z (z : Z) : (Z.abs z <= 2 ^ 53)%Z -> number_for (inject_Z z) ~> inject_Z z.
Proof. intros H. apply number_for_exact, is_double_Z, H. Qed.

Lemma number_for_number (x : number) :
  is_number x -> finite x = true -> number_for (value x) =n= x.
Proof.
  intros Hn Hf. destruct x; try discriminate.
  - apply (represents_num_eq _ _ q q); [apply number_for_exact; exact Hn | apply represents_Fin |].
    reflexivity.
  - reflexivity.
Qed.

(** The three kinds of Number values. *)
Lemma number_for_spec (q : Q) :
  (number_for q = PosInf /\ pow2 1024 <= nearest q) \/
  (number_for q = NegInf /\ nearest q <= - pow2 1024) \/
  (number_for q ~> nearest q /\ Qabs (nearest q) < pow2 1024).
Proof.
  pose proof pow2_1024_pos as Hpos.
  destruct (Qlt_le_dec (Qabs (nearest q)) (pow2 1024)) as [Hlt | Hge].
  - right. right. split; [| exact Hlt].
    apply number_for_finite, number_for_finite_iff, Hlt.
  - destruct (number_for_cases q) as [[_ E] | [[H _] | (H & _)]].
    + destruct (Qlt_le_dec q 0) as [Hq | Hq].
      * right. left. pose proof (nearest_sign_nonpos q ltac:(lra)) as Hs.
        rewrite (Qabs_neg _ Hs) in Hge.
        apply Qltb_lt in Hq. rewrite Hq in E. split; [exact E | lra].
      * left. pose proof (nearest_sign_nonneg q Hq) as Hs.
        rewrite (Qabs_pos _ Hs) in Hge.
        apply Qltb_ge in Hq. rewrite Hq in E. split; [exact E | lra].
    + exfalso. rewrite H in Hge. change (Qabs 0) with 0 in Hge. lra.
    + exfalso. lra.
Qed.

(** The rounding keeps the order. *)
Lemma number_for_nle (p q : Q) : p <= q -> nle (number_for p) (number_for q) = true.
Proof.
  intros H. pose proof (nearest_mono p q H) as Hm. pose proof pow2_1024_pos as Hpos.
  destruct (number_for_spec p) as [[-> P] | [[-> P] | [P1 P2]]],
           (number_for_spec q) as [[-> Q] | [[-> Q] | [Q1 Q2]]];
    try reflexivity; try (exfalso; lra).
  - exfalso. apply Qabs_Qlt_condition in Q2. lra.
  - destruct Q1 as [Qf _]. destruct (number_for q); try discriminate; reflexivity.
  - destruct P1 as [Pf _]. destruct (number_for p); try discriminate; reflexivity.
  - exfalso. apply Qabs_Qlt_condition in P2. lra.
  - apply (represents_nle _ _ _ _ P1 Q1). exact Hm.
Qed.

Lemma number_for_0 : number_for 0 = Fin 0.
Proof. reflexivity. Qed.


Lemma number_for_nonpos (q : Q) : q <= 0 -> nle (number_for q) (Fin 0) = true.
Proof. intros H. rewrite <- number_for_0. apply number_for_nle. exact H. Qed.

(** *** The operations *)

Lemma represents_nneg (x : number) (q : Q) : x ~> q -> nneg x ~> - q.
Proof.
  intros [Hf Hv]. destruct x; try discriminate; simpl in *.
  - destruct (Qeq_bool q0 0) eqn:E; split; simpl; try reflexivity.
    + apply Qeq_bool_iff in E. rewrite <- Hv, E. reflexivity.
    + rewrite Hv. reflexivity.
  - split; simpl; [reflexivity |]. rewrite <- Hv. reflexivity.
Qed.

Lemma nneg_is_number (x : number) : is_number x -> is_number (nneg x).
Proof.
  destruct x; simpl; try tauto.
  - intros H. destruct (Qeq_bool q 0); [exact I | apply is_double_opp; exact H].
  - intros _. exact is_double_0.
Qed.


(** A finite sum is the exact sum, rounded. *)
Lemma nadd_finite (x y : number) :
  finite x = true -> finite y = true -> nadd x y =n= number_for (value x + value y).
Proof.
  intros Hx Hy. destruct x, y; try discriminate; cbn [nadd value].
  - reflexivity.
  - rewrite (number_for_comp (q + 0) q) by ring. reflexivity.
  - rewrite (number_for_comp (0 + q) q) by ring. reflexivity.
  - rewrite (number_for_comp (0 + 0) 0) by ring. reflexivity.
Qed.

Lemma nadd_is_number (x y : number) : is_number (nadd x y).
Proof. destruct x, y; cbn [nadd]; try exact I; apply number_for_is_number. Qed.

Lemma nsub_is_number (x y : number) : is_number (nsub x y).
Proof. apply nadd_is_number. Qed.

(** A finite product is the exact product, rounded. *)
Lemma nmul_finite (x y : number) :
  finite x = true -> finite y = true -> nmul x y =n= number_for (value x * value y).
Proof.
  intros Hx Hy.
  assert (nmul x y = if is_zero x || is_zero y
                     then zero (xorb (signbit x) (signbit y))
                     else number_for (value x * value y)) as ->
    by (destruct x, y; try discriminate; reflexivity).
  destruct (is_zero x || is_zero y) eqn:E; [| reflexivity].
  assert (H0 : value x * value y == 0).
  { apply orb_true_iff in E. destruct E as [E | E].
    - apply (represents_is_zero x (value x) (represents_value x Hx)) in E. rewrite E. ring.
    - apply (represents_is_zero y (value y) (represents_value y Hy)) in E. rewrite E. ring. }
  rewrite (number_for_comp _ 0 H0), number_for_0.
  destruct (xorb _ _); reflexivity.
Qed.

Lemma nmul_is_number (x y : number) : is_number (nmul x y).
Proof.
  unfold nmul.
  destruct x, y; cbn [is_zero];
    repeat match goal with
           | |- context [if ?b then _ else _] => destruct b
           end;
    first [exact I | apply is_number_zero | apply is_number_infinity | apply number_for_is_number].
Qed.

(** A finite quotient by a number other than zero is the exact quotient,
    rounded. *)
Lemma ndiv_finite (x y : number) :
  finite x = true -> finite y = true -> is_zero y = false ->
  ndiv x y =n= number_for (value x / value y).
Proof.
  intros Hx Hy Ey.
  assert (ndiv x y = if is_zero x then zero (xorb (signbit x) (signbit y))
                     else number_for (value x / value y)) as ->
    by (destruct x, y; try discriminate; unfold ndiv; rewrite Ey; reflexivity).
  destruct (is_zero x) eqn:E; [| reflexivity].
  assert (H0 : value x / value y == 0).
  { apply (represents_is_zero x (value x) (represents_value x Hx)) in E. rewrite E.
    unfold Qdiv. ring. }
  rewrite (number_for_comp _ 0 H0), number_for_0.
  destruct (xorb _ _); reflexivity.
Qed.

Lemma ndiv_is_number (x y : number) : is_number (ndiv x y).
Proof.
  unfold ndiv.
  destruct x, y; cbn [is_zero];
    repeat match goal with
           | |- context [if ?b then _ else _] => destruct b
           end;
    first [exact I | apply is_number_zero | apply is_number_infinity | apply number_for_is_number].
Qed.

(** The operations on operands whose exact result is a binary64 value. *)
Lemma represents_nadd (x y : number) (p q : Q) :
  x ~> p -> y ~> q -> is_double (p + q) -> nadd x y ~> p + q.
Proof.
  intros [Hx Hp] [Hy Hq] Hd.
  apply (represents_num_eq_l _ _ _ (nadd_finite x y Hx Hy)).
  rewrite (number_for_comp _ (p + q)) by (rewrite Hp, Hq; reflexivity).
  apply number_for_exact. exact Hd.
Qed.

Lemma represents_nsub (x y : number) (p q : Q) :
  x ~> p -> y ~> q -> is_double (p - q) -> nsub x y ~> p - q.
Proof.
  intros Hx Hy Hd. unfold nsub.
  apply (represents_nadd _ _ _ _ Hx (represents_nneg _ _ Hy)). exact Hd.
Qed.

Lemma represents_nmul (x y : number) (p q : Q) :
  x ~> p -> y ~> q -> is_double (p * q) -> nmul x y ~> p * q.
Proof.
  intros [Hx Hp] [Hy Hq] Hd.
  apply (represents_num_eq_l _ _ _ (nmul_finite x y Hx Hy)).
  rewrite (number_for_comp _ (p * q)) by (rewrite Hp, Hq; reflexivity).
  apply number_for_exact. exact Hd.
Qed.

Lemma represents_ndiv (x y : number) (p q : Q) :
  x ~> p -> y ~> q -> ~ q == 0 -> is_double (p / q) -> ndiv x y ~> p / q.
Proof.
  intros Hx Hy Hq0 Hd.
  assert (Ey : is_zero y = false).
  { apply not_true_iff_false. intros E. apply Hq0, (represents_is_zero _ _ Hy), E. }
  destruct Hx as [Hx Hp], Hy as [Hy Hq].
  apply (represents_num_eq_l _ _ _ (ndiv_finite x y Hx Hy Ey)).
  rewrite (number_for_comp _ (p / q)) by (rewrite Hp, Hq; reflexivity).
  apply number_for_exact. exact Hd.
Qed.

(** The operations in general: a finite result is the nearest binary64
    value. *)
Lemma represents_nadd_nearest (x y : number) (p q : Q) :
  x ~> p -> y ~> q -> finite (nadd x y) = true -> nadd x y ~> nearest (p + q).
Proof.
  intros [Hx Hp] [Hy Hq] Hf.
  pose proof (nadd_finite x y Hx Hy) as E.
  rewrite (number_for_comp _ (p + q)) in E by (rewrite Hp, Hq; reflexivity).
  apply (represents_num_eq_l _ _ _ E). apply number_for_finite.
  rewrite <- (num_eq_finite _ _ E). exact Hf.
Qed.

Lemma represents_nmul_nearest (x y : number) (p q : Q) :
  x ~> p -> y ~> q -> finite (nmul x y) = true -> nmul x y ~> nearest (p * q).
Proof.
  intros [Hx Hp] [Hy Hq] Hf.
  pose proof (nmul_finite x y Hx Hy) as E.
  rewrite (number_for_comp _ (p * q)) in E by (rewrite Hp, Hq; reflexivity).
  apply (represents_num_eq_l _ _ _ E). apply number_for_finite.
  rewrite <- (num_eq_finite _ _ E). exact Hf.
Qed.

Lemma represents_ndiv_nearest (x y : number) (p q : Q) :
  x ~> p -> y ~> q -> ~ q == 0 -> finite (ndiv x y) = true -> ndiv x y ~> nearest (p / q).
Proof.
  intros Hx Hy Hq0 Hf.
  assert (Ey : is_zero y = false).
  { apply not_true_iff_false. intros E. apply Hq0, (represents_is_zero _ _ Hy), E. }
  destruct Hx as [Hx Hp], Hy as [Hy Hq].
  pose proof (ndiv_finite x y Hx Hy Ey) as E.
  rewrite (number_for_comp _ (p / q)) in E by (rewrite Hp, Hq; reflexivity).
  apply (represents_num_eq_l _ _ _ E). apply number_for_finite.
  rewrite <- (num_eq_finite _ _ E). exact Hf.
Qed.

Lemma represents_Math_abs (x : number) (q : Q) : x ~> q -> Math_abs x ~> Qabs q.
Proof.
  intros [Hx Hq]. destruct x; try discriminate; simpl in *; split; simpl; try reflexivity.
  - rewrite Hq. reflexivity.
  - rewrite <- Hq. reflexivity.
Qed.

Lemma Math_abs_is_number (x : number) : is_number x -> is_number (Math_abs x).
Proof.
  destruct x; simpl; try tauto.
  - apply is_double_abs.
  - intros _. exact is_double_0.
Qed.

Lemma represents_Math_round (x : number) (q : Q) :
  x ~> q -> Math_round x ~> inject_Z (Qfloor (q + (1 # 2))).
Proof.
  intros [Hx Hq]. destruct x; try discriminate; cbn [value Math_round] in *.
  - destruct (Qltb q0 0 && Qle_bool (- (1 # 2)) q0) eqn:E.
    + apply andb_true_iff in E. destruct E as [E1 E2].
      apply Qltb_lt in E1. apply Qle_bool_iff in E2.
      split; [reflexivity |].
      assert (Qfloor (q + (1 # 2)) = 0%Z) as ->; [| reflexivity].
      rewrite <- Hq.
      pose proof (Qfloor_le (q0 + (1 # 2))) as L.
      pose proof (Qlt_floor (q0 + (1 # 2))) as U.
      set (z := Qfloor (q0 + (1 # 2))) in *.
      assert (inject_Z z < inject_Z 1) as H1.
      { change (inject_Z 1) with 1. lra. }
      assert (inject_Z (-1) < inject_Z z) as H2.
      { rewrite inject_Z_plus in U. change (inject_Z (-1)) with (-1). change (inject_Z 1) with 1 in U. lra. }
      rewrite <- Zlt_Qlt in H1, H2. lia.
    + split; [reflexivity |]. cbn [value]. rewrite Hq. reflexivity.
  - split; [reflexivity |]. cbn [value]. rewrite <- Hq. reflexivity.
Qed.

Lemma Math_round_finite (x : number) : finite (Math_round x) = finite x.
Proof.
  destruct x; simpl; try reflexivity.
  destruct (Qltb q 0 && Qle_bool (- (1 # 2)) q); reflexivity.
Qed.

Lemma Qfloor_half (z : Z) : Qfloor (inject_Z z + (1 # 2)) = z.
Proof.
  pose proof (Qfloor_le (inject_Z z + (1 # 2))) as L.
  pose proof (Qlt_floor (inject_Z z + (1 # 2))) as U.
  set (k := Qfloor (inject_Z z + (1 # 2))) in *.
  assert (H1 : inject_Z k < inject_Z (z + 1)).
  { rewrite inject_Z_plus. change (inject_Z 1) with 1. lra. }
  assert (H2 : inject_Z z < inject_Z (k + 1)) by lra.
  rewrite <- Zlt_Qlt in H1, H2. lia.
Qed.

(** The integer nearest to a binary64 value is a binary64 value. *)
Lemma is_double_Math_round (q : Q) : is_double q -> is_double (inject_Z (Qfloor (q + (1 # 2)))).
Proof.
  intros Hd. destruct (is_double_form q Hd) as (m & k & Hm & Hk & E).
  destruct (Z_lt_le_dec k 0) as [Hneg | Hpos].
  - apply is_double_Z.
    assert (Hq : Qabs q <= inject_Z (2 ^ 52)).
    { assert (Hw : pow2 k <= pow2 (-1)) by (apply pow2_le; lia).
      assert (Eh : pow2 (-1) == 1 # 2) by reflexivity. rewrite Eh in Hw.
      pose proof (pow2_pos k) as Hw0.
      assert (Hm' : Qabs (inject_Z m) <= inject_Z (2 ^ 53)).
      { apply Qabs_Qle_condition. rewrite <- inject_Z_opp, <- !Zle_Qle. lia. }
      rewrite E, Qabs_Qmult, (Qabs_pos (pow2 k)) by lra.
      assert (E52 : inject_Z (2 ^ 52) == inject_Z (2 ^ 53) * (1 # 2)) by reflexivity.
      rewrite E52.
      pose proof (Qabs_nonneg (inject_Z m)). 
      set (a := Qabs (inject_Z m)) in *. set (w := pow2 k) in *. clearbody a w. nra. }
    apply Qabs_Qle_condition in Hq. destruct Hq as [Hq1 Hq2].
    pose proof (Qfloor_le (q + (1 # 2))) as L.
    pose proof (Qlt_floor (q + (1 # 2))) as U.
    set (f := Qfloor (q + (1 # 2))) in *.
    rewrite inject_Z_plus in U. change (inject_Z 1) with 1 in U.
    assert (H1 : inject_Z f < inject_Z (2 ^ 52 + 1)).
    { rewrite inject_Z_plus. change (inject_Z 1) with 1. lra. }
    assert (H2 : inject_Z (- (2 ^ 52 + 1)) < inject_Z f).
    { rewrite inject_Z_opp, inject_Z_plus. change (inject_Z 1) with 1. lra. }
    rewrite <- Zlt_Qlt in H1, H2. lia.
  - assert (Ez : q == inject_Z (m * 2 ^ k)).
    { rewrite E, inject_Z_mult, pow2_Z by exact Hpos. reflexivity. }
    assert (Ef : Qfloor (q + (1 # 2)) = (m * 2 ^ k)%Z).
    { rewrite <- (Qfloor_half (m * 2 ^ k)). apply Qfloor_comp. rewrite Ez. reflexivity. }
    rewrite Ef. apply (is_double_comp q); assumption.
Qed.

Lemma Math_round_is_number (x : number) : is_number x -> is_number (Math_round x).
Proof.
  destruct x; simpl; try tauto.
  intros H. destruct (Qltb q 0 && Qle_bool (- (1 # 2)) q); [exact I |].
  apply is_double_Math_round. exact H.
Qed.

(** The result of [Math.round] is an integer when it is finite. *)
Lemma Math_round_is_integer (x : number) :
  is_number x -> finite x = true -> is_integer (Math_round x).
Proof.
  intros Hn Hf. split; [apply Math_round_is_number; exact Hn |].
  split; [rewrite Math_round_finite; exact Hf |].
  exists (Qfloor (value x + (1 # 2))).
  apply (represents_Math_round x (value x)). apply represents_value. exact Hf.
Qed.

Lemma represents_Math_round_integer (x : number) (z : Z) :
  x ~> inject_Z z -> Math_round x ~> inject_Z z.
Proof.
  intros H. apply represents_Math_round in H. rewrite Qfloor_half in H. exact H.
Qed.

Lemma is_integer_represents (x : number) : is_integer x -> exists z : Z, x ~> inject_Z z.
Proof. intros (_ & Hf & z & Hz). exists z. split; assumption. Qed.

Lemma is_integer_of_Z (z : Z) : (Z.abs z <= 2 ^ 53)%Z -> is_integer (of_Z z).
Proof.
  intros H. split; [apply is_double_Z; exact H |]. split; [reflexivity |]. exists z. reflexivity.
Qed.

(** Multiplying by -1 is negating, on every number. *)
Lemma nmul_minus_one (x : number) : is_number x -> nmul (Fin (-1)) x =n= nneg x.
Proof.
  intros Hn. destruct x; try exact I.
  - unfold nmul, nneg. change (is_zero (Fin (-1))) with false.
    cbn [is_zero orb value signbit].
    destruct (Qeq_bool q 0) eqn:E.
    + apply Qeq_bool_iff in E.
      destruct (xorb _ _); simpl; rewrite ?E; reflexivity.
    + apply (represents_num_eq _ _ (- q) (- q)); [| apply represents_Fin | reflexivity].
      rewrite (number_for_comp _ (- q)) by ring.
      apply number_for_exact, is_double_opp, Hn.
  - reflexivity.
Qed.

(** Multiplying by 1 changes nothing, on every number. *)
Lemma nmul_one_r (x : number) : is_number x -> nmul x (Fin 1) =n= x.
Proof.
  intros Hn. destruct x; try exact I.
  - unfold nmul. change (is_zero (Fin 1)) with false.
    cbn [is_zero orb value signbit]. rewrite orb_false_r.
    destruct (Qeq_bool q 0) eqn:E.
    + apply Qeq_bool_iff in E. rewrite xorb_false_r.
      destruct (Qltb q 0); simpl; rewrite E; reflexivity.
    + apply (represents_num_eq _ _ q q); [| apply represents_Fin | reflexivity].
      rewrite (number_for_comp _ q) by ring.
      apply number_for_exact, Hn.
  - reflexivity.
Qed.

Lemma nmul_one_l (x : number) : is_number x -> nmul (Fin 1) x =n= x.
Proof.
  intros Hn. destruct x; try exact I.
  - unfold nmul. change (is_zero (Fin 1)) with false.
    cbn [is_zero orb value signbit].
    destruct (Qeq_bool q 0) eqn:E.
    + apply Qeq_bool_iff in E. rewrite xorb_false_l.
      destruct (Qltb q 0); simpl; rewrite E; reflexivity.
    + apply (represents_num_eq _ _ q q); [| apply represents_Fin | reflexivity].
      rewrite (number_for_comp _ q) by ring.
      apply number_for_exact, Hn.
  - reflexivity.
Qed.


(** *** Integers *)

(** Sums, differences and products of integers are exact up to [2^53]. *)
Lemma represents_nneg_Z (x : number) (a : Z) : x ~> inject_Z a -> nneg x ~> inject_Z (- a).
Proof. intros H. rewrite inject_Z_opp. apply represents_nneg. exact H. Qed.

Lemma represents_nadd_Z (x y : number) (a b : Z) :
  x ~> inject_Z a -> y ~> inject_Z b -> (Z.abs (a + b) <= 2 ^ 53)%Z ->
  nadd x y ~> inject_Z (a + b).
Proof.
  intros Hx Hy H. rewrite inject_Z_plus.
  apply represents_nadd; [exact Hx | exact Hy |].
  rewrite <- inject_Z_plus. apply is_double_Z. exact H.
Qed.

Lemma represents_nsub_Z (x y : number) (a b : Z) :
  x ~> inject_Z a -> y ~> inject_Z b -> (Z.abs (a - b) <= 2 ^ 53)%Z ->
  nsub x y ~> inject_Z (a - b).
Proof.
  intros Hx Hy H. unfold nsub, Z.sub.
  apply represents_nadd_Z; [exact Hx | apply represents_nneg_Z; exact Hy | exact H].
Qed.

Lemma represents_of_Z (z : Z) : of_Z z ~> inject_Z z.
Proof. apply represents_Fin. Qed.

Lemma is_integer_bounded (x : number) :
  is_integer x -> exists z : Z, x ~> inject_Z z /\ is_double (inject_Z z).
Proof.
  intros (Hn & Hf & z & Hz). exists z. split; [split; assumption |].
  destruct x; try discriminate.
  - apply (is_double_comp q); assumption.
  - apply (is_double_comp 0); [exact Hz | apply is_double_0].
Qed.

Lemma represents_nonneg (x : number) (z : Z) :
  x ~> inject_Z z -> nle (Fin 0) x = true -> (0 <= z)%Z.
Proof.
  intros H Hpos. apply (represents_nle _ _ _ _ (represents_Fin 0) H) in Hpos.
  change 0 with (inject_Z 0) in Hpos. rewrite <- Zle_Qle in Hpos. exact Hpos.
Qed.

Lemma represents_is_number (x : number) (z : Z) :
  x ~> inject_Z z -> (Z.abs z <= 2 ^ 53)%Z -> is_number x.
Proof.
  intros [Hf Hv] H. destruct x; try exact I.
  apply (is_double_comp (inject_Z z)); [symmetry; exact Hv | apply is_double_Z; exact H].
Qed.

Lemma nneg_num_eq (x y : number) : x =n= y -> nneg x =n= nneg y.
Proof.
  destruct x as [p| | | |], y as [q| | | |]; cbn [num_eq value nneg]; try tauto; intros E.
  - rewrite (Qeq_bool_compat p q 0 0 E (Qeq_refl 0)).
    destruct (Qeq_bool q 0); cbn; [reflexivity | rewrite E; reflexivity].
  - assert (Qeq_bool p 0 = true) as -> by (apply Qeq_bool_iff; exact E). reflexivity.
  - assert (Qeq_bool q 0 = true) as -> by (apply Qeq_bool_iff; symmetry; exact E). reflexivity.
Qed.

Lemma nadd_num_eq (x x' y y' : number) : x =n= x' -> y =n= y' -> nadd x y =n= nadd x' y'.
Proof.
  destruct x as [p| | | |], x' as [p'| | | |]; cbn [num_eq value]; try tauto; intros Ex;
    destruct y as [q| | | |], y' as [q'| | | |]; cbn [num_eq value]; try tauto; intros Ey;
    cbn [nadd]; try exact I;
    try (match goal with
         | |- number_for ?a =n= number_for ?b =>
             rewrite (number_for_comp a b) by lra; reflexivity
         end);
    try (rewrite (number_for_comp _ 0), number_for_0 by lra; reflexivity);
    try (symmetry; rewrite (number_for_comp _ 0), number_for_0 by lra; reflexivity).
Qed.

Lemma nadd_zero_r (x z : number) : is_number x -> z ~> 0 -> nadd x z =n= x.
Proof.
  intros Hx [Hf Hz]. destruct z as [q| | | |]; try discriminate; cbn [value] in Hz.
  - destruct x as [p| | | |]; cbn [nadd]; try reflexivity.
    + rewrite (number_for_comp (p + q) p) by (rewrite Hz; ring).
      apply (represents_num_eq _ _ p p); [apply number_for_exact, Hx | apply represents_Fin |].
      reflexivity.
    + rewrite (number_for_comp q 0), number_for_0 by exact Hz. reflexivity.
  - destruct x as [p| | | |]; cbn [nadd]; try reflexivity.
    apply (represents_num_eq _ _ p p); [apply number_for_exact, Hx | apply represents_Fin |].
    reflexivity.
Qed.

Lemma is_number_value (x : number) : is_number x -> is_double (value x).
Proof. destruct x; cbn; intros H; first [exact H | apply is_double_0]. Qed.

(** Rounding keeps a value between two binary64 values. *)
Lemma number_for_between (q lo hi : Q) :
  is_double lo -> is_double hi -> lo <= q -> q <= hi ->
  exists r, number_for q ~> r /\ lo <= r /\ r <= hi.
Proof.
  intros [Elo Blo] [Ehi Bhi] Hlo Hhi.
  pose proof (nearest_mono _ _ Hlo) as Mlo. pose proof (nearest_mono _ _ Hhi) as Mhi.
  rewrite Elo in Mlo. rewrite Ehi in Mhi.
  pose proof (Qle_Qabs hi) as A1. pose proof (Qle_Qabs (- lo)) as A2.
  rewrite Qabs_opp in A2.
  destruct (number_for_spec q) as [(_ & H) | [(_ & H) | (H & _)]].
  - exfalso. lra.
  - exfalso. lra.
  - exists (nearest q). split; [exact H |]. split; assumption.
Qed.

Lemma not_negative_num_eq (x y : number) : x =n= y -> not_negative y -> not_negative x.
Proof.
  intros E [-> | [Hf Hv]].
  - left. destruct x; cbn in E; try contradiction. reflexivity.
  - right. destruct x, y; try discriminate; cbn in E; try contradiction;
      (split; [reflexivity |]); cbn in *; lra.
Qed.

Lemma number_for_not_negative (q : Q) : 0 <= q -> not_negative (number_for q).
Proof.
  intros H. pose proof (nearest_sign_nonneg q H) as Hn. pose proof pow2_1024_pos as Hp.
  destruct (number_for_spec q) as [(E & _) | [(_ & Hneg) | ((Hf & Hv) & _)]].
  - left. exact E.
  - exfalso. lra.
  - right. split; [exact Hf |]. rewrite Hv. exact Hn.
Qed.

Lemma nadd_not_negative (x y : number) :
  not_negative x -> finite y = true -> 0 <= value y -> not_negative (nadd x y).
Proof.
  intros [-> | [Hf Hv]] Fy Vy.
  - left. destruct y; try discriminate; reflexivity.
  - apply (not_negative_num_eq _ _ (nadd_finite _ _ Hf Fy)).
    apply number_for_not_negative. lra.
Qed.

(** ** Decimals and [_.round] *)

(** The decimal that stands for a binary64 value reads back as that value. *)
Lemma shortest_decimal_reads_back (fuel : nat) (digits : Z) (a : Q) (e : Z) :
  nearest a == a -> nearest (shortest_decimal fuel digits a e) == a.
Proof.
  intros Ha. revert digits. induction fuel as [| fuel IH]; intros digits; [exact Ha |].
  cbn [shortest_decimal]. cbv zeta.
  set (scale := pow10 (e + 1 - digits)).
  set (s := Qfloor (a / scale)).
  destruct (Qeq_bool (nearest (inject_Z s * scale)) a) eqn:Eb;
    destruct (Qeq_bool (nearest (inject_Z (s + 1) * scale)) a) eqn:Ea; cbn [andb].
  - apply Qeq_bool_iff in Eb, Ea.
    destruct (a - inject_Z s * scale ?= inject_Z (s + 1) * scale - a); try assumption.
    destruct (Z.even s); assumption.
  - apply Qeq_bool_iff in Eb. exact Eb.
  - apply Qeq_bool_iff in Ea. exact Ea.
  - apply IH.
Qed.

Lemma decimal_reads_back (q : Q) : nearest q == q -> nearest (decimal q) == q.
Proof.
  intros Hq. unfold decimal.
  assert (Ha : nearest (Qabs q) == Qabs q).
  { destruct (Qlt_le_dec q 0) as [Hneg | Hpos].
    - rewrite (nearest_comp _ (- q)) by (apply Qabs_neg; lra).
      rewrite nearest_opp, Hq. symmetry. apply Qabs_neg. lra.
    - rewrite (nearest_comp _ q) by (apply Qabs_pos; lra).
      rewrite Hq. symmetry. apply Qabs_pos. lra. }
  pose proof (shortest_decimal_reads_back 17 1 (Qabs q) (Qlog10 (Qabs q)) Ha) as Hd.
  destruct (Qle_bool 0 q) eqn:E.
  - apply Qle_bool_iff in E. rewrite Hd. apply Qabs_pos. exact E.
  - assert (q < 0) by (apply Qltb_lt; unfold Qltb; rewrite E; reflexivity).
    rewrite nearest_opp, Hd. rewrite Qabs_neg by lra. ring.
Qed.

Lemma pow10_pos (k : Z) : 0 < pow10 k.
Proof. apply Qpower_0_lt. reflexivity. Qed.

Lemma pow10_opp (k : Z) : pow10 (- k) == / pow10 k.
Proof. unfold pow10. apply Qpower_opp. Qed.

Lemma pow10_ge_1 (k : Z) : (0 <= k)%Z -> 1 <= pow10 k.
Proof.
  intros H. change 1 with (pow10 0). apply Qpower_le_compat_l; [exact H | discriminate].
Qed.

(** A decimal that reads back as [q] is near [q]. *)
Lemma reads_back_error (d q : Q) :
  nearest d == q ->
  Qabs (d - q) <= Qabs d * pow2 (-53) + pow2 (-1075).
Proof.
  intros H. pose proof (nearest_error d) as E. rewrite H in E.
  rewrite <- Qabs_opp. assert (Eq : - (d - q) == q - d) by ring. rewrite Eq. exact E.
Qed.

Lemma Qabs_spec (w : Q) : (0 <= w /\ Qabs w == w) \/ (w < 0 /\ Qabs w == - w).
Proof.
  destruct (Qlt_le_dec w 0) as [H | H].
  - right. split; [exact H | apply Qabs_neg; lra].
  - left. split; [exact H | apply Qabs_pos; exact H].
Qed.

(** The errors of [_.round] add up: [d] reads back as [q], [y] is [d]
    shifted and rounded to binary64, [m] the integer nearest to [y], [d']
    reads back as [m], and [v] is [d'] shifted back and rounded to
    binary64; everything is scaled to the unit of [q]. *)
Lemma round_errors_add_up (q d y m d' v t s : Q) :
  0 < t -> 0 < s -> s <= 1 ->
  Qabs (d - q) <= Qabs d * (1 # 9007199254740992) + t ->
  Qabs (y - d) <= Qabs d * (1 # 9007199254740992) + t ->
  Qabs (m - y) <= (1 # 2) * s ->
  Qabs (d' - m) <= Qabs d' * (1 # 9007199254740992) + t ->
  Qabs (v - d') <= Qabs d' * (1 # 9007199254740992) + t ->
  Qabs (v - q) <= (1 # 2) * s + (Qabs q + s) * (1 # 562949953421312) + 8 * t /\
  Qabs d <= 2 * Qabs q + 2 * t /\
  Qabs y <= 3 * Qabs q + 4 * t /\
  Qabs d' <= 6 * Qabs q + 10 * t + s /\
  Qabs v <= 12 * Qabs q + 20 * t + 2 * s.
Proof.
  intros Ht Hs Hs1 F1 F2 F3 F4 F5.
  apply Qabs_Qle_condition in F1, F2, F3, F4, F5.
  destruct (Qabs_spec d) as [[Sd Ed] | [Sd Ed]], (Qabs_spec d') as [[Sd' Ed'] | [Sd' Ed']],
    (Qabs_spec q) as [[Sq Eq] | [Sq Eq]];
    rewrite Ed in *; rewrite Ed' in *; rewrite Eq in *; clear Ed Ed' Eq;
    (split; [apply Qabs_Qle_condition; split; lra |]);
    (split; [lra |]); (split; [apply Qabs_Qle_condition; split; lra |]);
    (split; [lra |]); apply Qabs_Qle_condition; split; lra.
Qed.

Lemma shift_cases (x : number) (k : Z) :
  finite x = true ->
  (is_zero x = true /\ shift x k ~> 0) \/
  (is_zero x = false /\ shift x k = number_for (decimal (value x) * pow10 k)).
Proof.
  destruct x as [q| | | |]; try discriminate; intros _; cbn [shift is_zero value].
  - destruct (Qeq_bool q 0); [left | right]; split; try reflexivity. apply represents_Fin.
  - left. split; [reflexivity |]. split; reflexivity.
Qed.

Lemma Qmult_le_l_nonneg (x y z : Q) : x <= y -> 0 <= z -> z * x <= z * y.
Proof. intros H Hz. rewrite !(Qmult_comm z). apply Qmult_le_compat_r; assumption. Qed.

Lemma nearest_bound (z : Q) : Qabs (nearest z) <= 2 * Qabs z + pow2 (-1075).
Proof.
  pose proof (nearest_error z) as E. pose proof (Qabs_nonneg z) as Hz.
  assert (Hu : pow2 (-53) == 1 # 9007199254740992) by reflexivity. rewrite Hu in E.
  apply Qabs_Qle_condition in E. apply Qabs_Qle_condition.
  destruct (Qabs_spec z) as [[Sz Ez] | [Sz Ez]]; rewrite Ez in *; split; lra.
Qed.

Lemma round_unfold (x : number) (p : nat) :
  finite x = true -> (1 <= p <= 292)%nat ->
  round x p = shift (Math_round (shift x (Z.of_nat p))) (- Z.of_nat p).
Proof.
  intros Hf Hp. unfold round. rewrite Nat.min_l by lia.
  destruct p as [| p]; [lia |]. destruct x; try discriminate; reflexivity.
Qed.

Lemma pow10_292 : pow10 292 <= pow2 1000.
Proof. vm_compute. discriminate. Qed.

(** [_.round(x, p)] is within half a unit of the [p]-th decimal of [x], and
    the errors of five roundings to binary64. *)
Lemma round_error (x : number) (p : nat) :
  is_number x -> finite x = true -> (1 <= p <= 292)%nat ->
  Qabs (value x) * pow10 (Z.of_nat p) <= pow2 1000 ->
  finite (round x p) = true /\
  Qabs (value (round x p) - value x) <=
    (1 # 2) * pow10 (- Z.of_nat p) + (Qabs (value x) + pow10 (- Z.of_nat p)) * pow2 (-49)
    + pow2 (-1072).
Proof.
  intros Hn Hf Hp Hb. rewrite (round_unfold x p Hf Hp).
  set (k := Z.of_nat p) in *.
  pose proof (pow10_pos k) as HP. pose proof (pow10_ge_1 k ltac:(lia)) as HP1.
  assert (HPmax : pow10 k <= pow2 1000).
  { eapply Qle_trans; [| exact pow10_292].
    apply Qpower_le_compat_l; [lia | discriminate]. }
  pose proof (pow10_opp k) as Hs. set (P := pow10 k) in *. set (s := pow10 (- k)) in *.
  assert (Hs0 : 0 < s) by (rewrite Hs; apply Qinv_lt_0_compat; exact HP).
  assert (Hs1 : s <= 1).
  { rewrite Hs. apply Qle_shift_inv_r; [exact HP | lra]. }
  assert (HsP : s * P == 1) by (rewrite Hs; field; lra).
  assert (Hu : pow2 (-53) == 1 # 9007199254740992) by reflexivity.
  assert (Hu' : pow2 (-49) == 1 # 562949953421312) by reflexivity.
  assert (Ht8 : pow2 (-1072) == 8 * pow2 (-1075)).
  { change (-1072)%Z with (-1075 + 3)%Z. rewrite pow2_add. change (pow2 3) with 8. ring. }
  pose proof (pow2_pos (-1075)) as Ht.
  assert (Ht1 : pow2 (-1075) <= 1) by (change 1 with (pow2 0); apply pow2_le; lia).
  assert (HtP : pow2 (-1075) * P <= 1).
  { assert (pow2 (-1075) * P <= pow2 (-1075) * pow2 1000)
      by (apply Qmult_le_l_nonneg; [exact HPmax | lra]).
    assert (pow2 (-1075) * pow2 1000 == pow2 (-75)) by (rewrite <- pow2_add; reflexivity).
    assert (pow2 (-75) <= 1) by (change 1 with (pow2 0); apply pow2_le; lia).
    lra. }
  assert (Hbig : pow2 1005 < pow2 1024) by (apply pow2_lt; lia).
  assert (H1000 : pow2 1005 == 32 * pow2 1000).
  { change 1005%Z with (1000 + 5)%Z. rewrite pow2_add. change (pow2 5) with 32. ring. }
  assert (H1 : 32 <= pow2 1000) by (change 32 with (pow2 5); apply pow2_le; lia).
  set (t := pow2 (-1075)) in *.
  set (q := value x) in *. pose proof (Qabs_nonneg q) as HA.
  assert (HAb : Qabs q <= pow2 1000).
  { assert (Qabs q * 1 <= Qabs q * P) by (apply Qmult_le_l_nonneg; [assumption | lra]). lra. }
  rewrite Hu', Ht8.
  destruct (shift_cases x k Hf) as [(Zx & Ry) | (Zx & Ey)].
  - (* a zero stays a zero *)
    apply (represents_is_zero _ _ (represents_value x Hf)) in Zx. fold q in Zx.
    pose proof (represents_Math_round _ _ Ry) as Rm.
    change (inject_Z (Qfloor (0 + (1 # 2)))) with 0 in Rm.
    destruct (shift_cases (Math_round (shift x k)) (- k) (proj1 Rm)) as [(_ & Rv) | (Zm & _)].
    + split; [apply Rv |]. rewrite (proj2 Rv), Zx.
      change (Qabs (0 - 0)) with 0. change (Qabs 0) with 0. lra.
    + rewrite (proj2 (represents_is_zero _ _ Rm) (Qeq_refl 0)) in Zm. discriminate.
  - (* the digits of [x], shifted and rounded *)
    assert (Hq : nearest q == q) by apply (is_number_value x Hn).
    pose proof (decimal_reads_back q Hq) as Hd. set (d := decimal q) in *.
    pose proof (reads_back_error d q Hd) as F1. fold t in F1. rewrite Hu in F1.
    assert (Bd : Qabs d <= 2 * Qabs q + 2 * t).
    { apply Qabs_Qle_condition in F1.
      destruct (Qabs_spec d) as [[Sd Ed] | [Sd Ed]], (Qabs_spec q) as [[Sq Eq] | [Sq Eq]];
        rewrite Ed in *; rewrite Eq in *; lra. }
    assert (BdP : Qabs (d * P) <= 2 * pow2 1000 + 2).
    { rewrite Qabs_Qmult, (Qabs_pos P) by lra.
      assert (Qabs d * P <= (2 * Qabs q + 2 * t) * P)
        by (apply Qmult_le_compat_r; [assumption | lra]).
      lra. }
    pose proof (nearest_bound (d * P)) as By. fold t in By.
    pose proof (nearest_error (d * P)) as F2. fold t in F2. rewrite Hu in F2.
    destruct (number_for_spec (d * P)) as [(_ & Hinf) | [(_ & Hinf) | (Ry & _)]].
    { exfalso. apply Qabs_Qle_condition in By. lra. }
    { exfalso. apply Qabs_Qle_condition in By. lra. }
    assert (Ry' : shift x k ~> nearest (d * P)) by (rewrite Ey; exact Ry).
    clear Ry. rename Ry' into Ry. set (yv := nearest (d * P)) in *.
    pose proof (represents_Math_round _ _ Ry) as Rm.
    set (M := Math_round (shift x k)) in *.
    assert (F3 : Qabs (value M - yv) <= 1 # 2).
    { rewrite (proj2 Rm).
      pose proof (Qfloor_le (yv + (1 # 2))) as L. pose proof (Qlt_floor (yv + (1 # 2))) as U.
      rewrite inject_Z_plus in U. change (inject_Z 1) with 1 in U.
      apply Qabs_Qle_condition. split; lra. }
    set (mv := value M) in *.
    (* scaled to the unit of [x] *)
    assert (F2s : Qabs (yv * s - d) <= Qabs d * (1 # 9007199254740992) + t).
    { rewrite Qabs_Qmult, (Qabs_pos P) in F2 by lra.
      assert (E' : yv * s - d == (yv - d * P) * s).
      { transitivity (yv * s - d * (s * P)); [rewrite HsP; ring | ring]. }
      rewrite E', Qabs_Qmult, (Qabs_pos s) by lra.
      assert (Qabs (yv - d * P) * s <= (Qabs d * P * (1 # 9007199254740992) + t) * s)
        by (apply Qmult_le_compat_r; [assumption | lra]).
      assert ((Qabs d * P * (1 # 9007199254740992) + t) * s ==
              Qabs d * (1 # 9007199254740992) * (s * P) + t * s) by ring.
      assert (t * s <= t * 1) by (apply Qmult_le_l_nonneg; lra).
      rewrite HsP in *. lra. }
    assert (F3s : Qabs (mv * s - yv * s) <= (1 # 2) * s).
    { assert (E : mv * s - yv * s == (mv - yv) * s) by ring.
      rewrite E, Qabs_Qmult, (Qabs_pos s) by lra.
      apply Qmult_le_compat_r; [assumption | lra]. }
    assert (Hm : is_number M) by (apply Math_round_is_number; rewrite Ey; apply number_for_is_number).
    destruct (shift_cases M (- k) (proj1 Rm)) as [(Zm & Rv) | (Zm & Ev)].
    + (* the rounded value is a zero *)
      apply (represents_is_zero _ _ (represents_value M (proj1 Rm))) in Zm. fold mv in Zm.
      split; [apply Rv |]. rewrite (proj2 Rv).
      assert (E0 : 0 == mv * s) by (rewrite Zm; ring). rewrite E0.
      apply (round_errors_add_up q d (yv * s) (mv * s) (mv * s) (mv * s) t s);
        try assumption;
        (assert (Ez : mv * s - mv * s == 0) by ring; rewrite Ez; change (Qabs 0) with 0;
         pose proof (Qabs_nonneg (mv * s)); lra).
    + pose proof (decimal_reads_back mv (proj1 (is_number_value M Hm))) as Hd'.
      set (d' := decimal mv) in *.
      pose proof (reads_back_error d' mv Hd') as F4. fold t in F4. rewrite Hu in F4.
      assert (F4s : Qabs (d' * s - mv * s) <= Qabs (d' * s) * (1 # 9007199254740992) + t).
      { assert (E : d' * s - mv * s == (d' - mv) * s) by ring.
        rewrite E, !Qabs_Qmult, (Qabs_pos s) by lra.
        assert (Qabs (d' - mv) * s <= (Qabs d' * (1 # 9007199254740992) + t) * s)
          by (apply Qmult_le_compat_r; [assumption | lra]).
        assert (t * s <= t * 1) by (apply Qmult_le_l_nonneg; lra).
        lra. }
      assert (Bd' : Qabs (d' * s) <= 6 * Qabs q + 10 * t + s).
      { apply (round_errors_add_up q d (yv * s) (mv * s) (d' * s) (d' * s) t s);
          try assumption.
        assert (Ez : d' * s - d' * s == 0) by ring. rewrite Ez. change (Qabs 0) with 0.
        pose proof (Qabs_nonneg (d' * s)). lra. }
      pose proof (nearest_bound (d' * s)) as Bv. fold t in Bv.
      pose proof (nearest_error (d' * s)) as F5. fold t in F5. rewrite Hu in F5.
      destruct (number_for_spec (d' * s)) as [(_ & Hinf) | [(_ & Hinf) | (Rv & _)]].
      { exfalso. apply Qabs_Qle_condition in Bv. lra. }
      { exfalso. apply Qabs_Qle_condition in Bv. lra. }
      assert (Rv' : shift M (- k) ~> nearest (d' * s)) by (rewrite Ev; exact Rv).
      clear Rv. rename Rv' into Rv.
      split; [apply Rv |]. rewrite (proj2 Rv).
      apply (round_errors_add_up q d (yv * s) (mv * s) (d' * s) (nearest (d' * s)) t s);
        assumption.
Qed.

(** The operations at values where binary64 and the rationals part: the
    product of 5000 and 0.0093 is below 46.5; 0.1 + 0.2 is
    0.30000000000000004; 27.98 - 6.42 is 21.560000000000002 and 2^53 + 1 is
    2^53; [_.round(1.005, 2)] is 1.01, where rounding the product with 100
    would give 1; [2^1024] is Infinity, and so is 1 / 0, and 0 / 0 is NaN. *)
Lemma binary64_examples :
  nlt (nmul (of_Z 5000) (number_for (93 # 10000))) (number_for (465 # 10)) = true /\
  Math_round (nmul (of_Z 5000) (number_for (93 # 10000))) = of_Z 46 /\
  nadd (number_for (1 # 10)) (number_for (2 # 10)) =
    number_for (30000000000000004 # 100000000000000000) /\
  nlt (number_for (3 # 10)) (nadd (number_for (1 # 10)) (number_for (2 # 10))) = true /\
  nsub (number_for (2798 # 100)) (number_for (642 # 100)) =
    number_for (21560000000000002 # 1000000000000000) /\
  nadd (of_Z (2 ^ 53)) (of_Z 1) = of_Z (2 ^ 53) /\
  round (number_for (1005 # 1000)) 2 = number_for (101 # 100) /\
  Math_round (nmul (number_for (1005 # 1000)) (of_Z 100)) = of_Z 100 /\
  round (number_for (10 # 3)) 5 = number_for (333333 # 100000) /\
  number_for (pow2 1024) = PosInf /\
  ndiv (of_Z 1) (Fin 0) = PosInf /\
  ndiv (Fin 0) (Fin 0) = NaN.
Proof. vm_compute. repeat apply conj; reflexivity. Qed.

(** ** Currencies and FX rates *)

Lemma Ok_inj {A : Type} (a b : A) : Ok a = Ok b -> a = b.
Proof. intros H. injection H as ->. reflexivity. Qed.

Lemma the_collective_Some (expense : Expense.t) (c : Collective.t) :
  Expense.collective expense = Some c -> the_collective expense = Ok c.
Proof. intros H. unfold the_collective. rewrite H. reflexivity. Qed.

Lemma computeExpenseAmounts_same_as_host (expense : Expense.t) (c : Collective.t)
    (hostCurrency : string) (r : number) (fees : Fees.t) :
  Expense.collective expense = Some c ->
  Collective.currency c = hostCurrency ->
  computeExpenseAmounts expense hostCurrency r fees =
  Ok (amounts_for expense
        {| expenseToHost := r; collectiveToHost := Fin 1; expenseToCollective := r |} fees).
Proof.
  intros Hc Hcur. unfold computeExpenseAmounts.
  rewrite (the_collective_Some _ _ Hc). cbn [mbind result_bind].
  apply String.eqb_eq in Hcur. rewrite Hcur. reflexivity.
Qed.

Lemma computeExpenseAmounts_same_as_collective (expense : Expense.t) (c : Collective.t)
    (hostCurrency : string) (r : number) (fees : Fees.t) :
  Expense.collective expense = Some c ->
  Collective.currency c <> hostCurrency ->
  Expense.currency expense = Collective.currency c ->
  computeExpenseAmounts expense hostCurrency r fees =
  Ok (amounts_for expense
        {| expenseToHost := r; collectiveToHost := r; expenseToCollective := Fin 1 |} fees).
Proof.
  intros Hc Hne Hcur. unfold computeExpenseAmounts.
  rewrite (the_collective_Some _ _ Hc). cbn [mbind result_bind].
  apply String.eqb_neq in Hne. rewrite Hne.
  apply String.eqb_eq in Hcur. rewrite Hcur. reflexivity.
Qed.

Lemma computeExpenseAmounts_unsupported (expense : Expense.t) (c : Collective.t)
    (hostCurrency : string) (r : number) (fees : Fees.t) :
  Expense.collective expense = Some c ->
  Collective.currency c <> hostCurrency ->
  Expense.currency expense <> Collective.currency c ->
  computeExpenseAmounts expense hostCurrency r fees = Throw (Error multi_currency_message).
Proof.
  intros Hc Hne Hne'. unfold computeExpenseAmounts.
  rewrite (the_collective_Some _ _ Hc). cbn [mbind result_bind].
  apply String.eqb_neq in Hne. rewrite Hne.
  apply String.eqb_neq in Hne'. rewrite Hne'. reflexivity.
Qed.

(** Whatever the currencies, a successful computation is [amounts_for] at
    the rates it returns, and its expense-to-host rate is the given one. *)
Lemma computeExpenseAmounts_Ok (expense : Expense.t) (hostCurrency : string) (r : number)
    (fees : Fees.t) (p : Processed.t) :
  computeExpenseAmounts expense hostCurrency r fees = Ok p ->
  p = amounts_for expense (Processed.fxRates p) fees /\
  expenseToHost (Processed.fxRates p) = r /\
  exists c, Expense.collective expense = Some c /\
    (Collective.currency c = hostCurrency /\
       collectiveToHost (Processed.fxRates p) = Fin 1 /\
       expenseToCollective (Processed.fxRates p) = r
     \/ Collective.currency c <> hostCurrency /\
        Expense.currency expense = Collective.currency c /\
        collectiveToHost (Processed.fxRates p) = r /\
        expenseToCollective (Processed.fxRates p) = Fin 1).
Proof.
  intros H.
  destruct (Expense.collective expense) as [c |] eqn:Hc;
    [| unfold computeExpenseAmounts, the_collective in H; rewrite Hc in H; discriminate].
  destruct (string_dec (Collective.currency c) hostCurrency) as [E | E].
  - rewrite (computeExpenseAmounts_same_as_host _ _ _ _ _ Hc E) in H.
    injection H as <-. repeat split. exists c. split; [reflexivity |]. left. auto.
  - destruct (string_dec (Expense.currency expense) (Collective.currency c)) as [E' | E'].
    + rewrite (computeExpenseAmounts_same_as_collective _ _ _ _ _ Hc E E') in H.
      injection H as <-. repeat split. exists c. split; [reflexivity |]. right. auto.
    + rewrite (computeExpenseAmounts_unsupported _ _ _ _ _ Hc E E') in H. discriminate.
Qed.

(** C1.  When the collective has the currency of the host, the rates
    returned by [computeExpenseAmounts] are [collectiveToHost = 1] and
    [expenseToCollective = expenseToHostFxRate]; otherwise, when the expense
    has the currency of the collective, they are
    [collectiveToHost = expenseToHostFxRate] and [expenseToCollective = 1].
    In both cases [expenseToHost] is the rate given. *)
Theorem computeExpenseAmounts_fxRates (expense : Expense.t) (c : Collective.t)
    (hostCurrency : string) (expenseToHostFxRate : number) (fees : Fees.t) :
  Expense.collective expense = Some c ->
  (Collective.currency c = hostCurrency ->
   exists p, computeExpenseAmounts expense hostCurrency expenseToHostFxRate fees = Ok p /\
     expenseToHost (Processed.fxRates p) = expenseToHostFxRate /\
     collectiveToHost (Processed.fxRates p) = Fin 1 /\
     expenseToCollective (Processed.fxRates p) = expenseToHostFxRate) /\
  (Collective.currency c <> hostCurrency ->
   Expense.currency expense = Collective.currency c ->
   exists p, computeExpenseAmounts expense hostCurrency expenseToHostFxRate fees = Ok p /\
     expenseToHost (Processed.fxRates p) = expenseToHostFxRate /\
     collectiveToHost (Processed.fxRates p) = expenseToHostFxRate /\
     expenseToCollective (Processed.fxRates p) = Fin 1).
Proof.
  intros Hc. split.
  - intros E. eexists. split.
    + apply (computeExpenseAmounts_same_as_host _ _ _ _ _ Hc E).
    + repeat split.
  - intros E E'. eexists. split.
    + apply (computeExpenseAmounts_same_as_collective _ _ _ _ _ Hc E E').
    + repeat split.
Qed.

Lemma Math_round_nearest_integer (x : number) : is_number x -> nearest_integer x (Math_round x).
Proof.
  intros Hn Hf. split; [apply Math_round_is_integer; assumption |].
  destruct (represents_Math_round x (value x) (represents_value x Hf)) as [_ E].
  rewrite E.
  pose proof (Qfloor_le (value x + (1 # 2))) as L.
  pose proof (Qlt_floor (value x + (1 # 2))) as U.
  rewrite inject_Z_plus in U. change (inject_Z 1) with 1 in U.
  split; lra.
Qed.

(** C2.  When the currencies allow the rates to be determined, the gross
    amount comes back as [round(amount * expenseToHost)] in the host
    currency, [round(amount * expenseToCollective)] in the collective
    currency and unchanged in the expense currency; each fee comes back
    unchanged in the host currency, and divided by [collectiveToHost],
    respectively [expenseToHost], and rounded in the two others.  The
    products and quotients are those of binary64, and each rounded value is
    the integer nearest to the finite product or quotient it rounds. *)
Theorem computeExpenseAmounts_representations (expense : Expense.t) (c : Collective.t)
    (hostCurrency : string) (expenseToHostFxRate : number) (fees : Fees.t) :
  Expense.collective expense = Some c ->
  Collective.currency c = hostCurrency \/ Expense.currency expense = Collective.currency c ->
  exists p, computeExpenseAmounts expense hostCurrency expenseToHostFxRate fees = Ok p /\
    let fx := Processed.fxRates p in
    expenseToHost fx = expenseToHostFxRate /\
    inHostCurrency (Processed.amount p) =
      Math_round (nmul (Expense.amount expense) (expenseToHost fx)) /\
    inCollectiveCurrency (Processed.amount p) =
      Math_round (nmul (Expense.amount expense) (expenseToCollective fx)) /\
    inExpenseCurrency (Processed.amount p) = Expense.amount expense /\
    fee_representations fx (Fees.paymentProcessorFeeInHostCurrency fees)
      (Processed.paymentProcessorFee p) /\
    fee_representations fx (Fees.hostFeeInHostCurrency fees) (Processed.hostFee p) /\
    fee_representations fx (Fees.platformFeeInHostCurrency fees) (Processed.platformFee p) /\
    nearest_integer (nmul (Expense.amount expense) (expenseToHost fx))
      (inHostCurrency (Processed.amount p)) /\
    nearest_integer (nmul (Expense.amount expense) (expenseToCollective fx))
      (inCollectiveCurrency (Processed.amount p)) /\
    fee_rounded fx (Processed.paymentProcessorFee p) /\
    fee_rounded fx (Processed.hostFee p) /\
    fee_rounded fx (Processed.platformFee p).
Proof.
  intros Hc Hcur.
  assert (Hall : forall fx : FxRates,
             let p := amounts_for expense fx fees in
             inHostCurrency (Processed.amount p) =
               Math_round (nmul (Expense.amount expense) (expenseToHost fx)) /\
             inCollectiveCurrency (Processed.amount p) =
               Math_round (nmul (Expense.amount expense) (expenseToCollective fx)) /\
             inExpenseCurrency (Processed.amount p) = Expense.amount expense /\
             fee_representations fx (Fees.paymentProcessorFeeInHostCurrency fees)
               (Processed.paymentProcessorFee p) /\
             fee_representations fx (Fees.hostFeeInHostCurrency fees) (Processed.hostFee p) /\
             fee_representations fx (Fees.platformFeeInHostCurrency fees)
               (Processed.platformFee p) /\
             nearest_integer (nmul (Expense.amount expense) (expenseToHost fx))
               (inHostCurrency (Processed.amount p)) /\
             nearest_integer (nmul (Expense.amount expense) (expenseToCollective fx))
               (inCollectiveCurrency (Processed.amount p)) /\
             fee_rounded fx (Processed.paymentProcessorFee p) /\
             fee_rounded fx (Processed.hostFee p) /\
             fee_rounded fx (Processed.platformFee p)).
  { intros fx. cbv [fee_representations fee_rounded]. cbn.
    repeat apply conj;
      first [ reflexivity
            | apply Math_round_nearest_integer;
              first [apply nmul_is_number | apply ndiv_is_number] ]. }
  destruct (string_dec (Collective.currency c) hostCurrency) as [E | E].
  - eexists. split; [apply (computeExpenseAmounts_same_as_host _ _ _ _ _ Hc E) |].
    split; [reflexivity | apply Hall].
  - destruct Hcur as [E' | E']; [contradiction |].
    eexists. split; [apply (computeExpenseAmounts_same_as_collective _ _ _ _ _ Hc E E') |].
    split; [reflexivity | apply Hall].
Qed.

(** C3, as amended.  With the collective loaded, [computeExpenseAmounts]
    fails, with the multi-currency error, exactly when the collective
    currency differs from the host currency and the expense currency differs
    from the collective currency; it succeeds exactly when the collective has
    the currency of the host or the expense has the currency of the
    collective.  In particular it fails when the three currencies are
    mutually distinct. *)
Theorem computeExpenseAmounts_failure (expense : Expense.t) (c : Collective.t)
    (hostCurrency : string) (r : number) (fees : Fees.t) :
  Expense.collective expense = Some c ->
  ((exists e, computeExpenseAmounts expense hostCurrency r fees = Throw e /\
              UnsupportedCurrencyCombination e) <->
   (Collective.currency c <> hostCurrency /\
    Expense.currency expense <> Collective.currency c)) /\
  ((exists p, computeExpenseAmounts expense hostCurrency r fees = Ok p) <->
   (Collective.currency c = hostCurrency \/
    Expense.currency expense = Collective.currency c)) /\
  (Expense.currency expense <> hostCurrency ->
   Collective.currency c <> hostCurrency ->
   Expense.currency expense <> Collective.currency c ->
   computeExpenseAmounts expense hostCurrency r fees = Throw (Error multi_currency_message)).
Proof.
  intros Hc.
  destruct (string_dec (Collective.currency c) hostCurrency) as [E | E];
    [| destruct (string_dec (Expense.currency expense) (Collective.currency c)) as [E' | E']].
  - rewrite (computeExpenseAmounts_same_as_host _ _ _ _ _ Hc E).
    split; [| split].
    + split; [intros (e & He & _); discriminate | tauto].
    + split; [tauto | eauto].
    + tauto.
  - rewrite (computeExpenseAmounts_same_as_collective _ _ _ _ _ Hc E E').
    split; [| split].
    + split; [intros (e & He & _); discriminate | tauto].
    + split; [tauto | eauto].
    + tauto.
  - rewrite (computeExpenseAmounts_unsupported _ _ _ _ _ Hc E E').
    split; [| split].
    + split; [tauto |]. intros _. eexists. split; [reflexivity | left; reflexivity].
    + split; [intros (p & Hp); discriminate | tauto].
    + reflexivity.
Qed.

(** The wording of the specification fails in both directions.  An expense
    in the host currency of a collective in another currency is refused
    although only one currency differs from the host's; an expense in the
    currency of its collective is accepted although both differ from the
    host's. *)
Lemma fails_iff_both_differ_from_host_refuted :
  ~ fails_iff_both_differ_from_host
      (an_expense 1000 "USD" eur_collective "COLLECTIVE" None) eur_collective "USD"
      (Fin (5 # 4)) (some_fees 0 0 0) /\
  ~ fails_iff_both_differ_from_host
      (an_expense 1000 "EUR" eur_collective "COLLECTIVE" None) eur_collective "USD"
      (Fin (5 # 4)) (some_fees 0 0 0).
Proof.
  split; unfold fails_iff_both_differ_from_host; intros [To From].
  - assert (H : "USD" <> "USD" /\ Collective.currency eur_collective <> "USD").
    { apply To. eexists. split; [reflexivity | left; reflexivity]. }
    destruct H as [H _]. apply H. reflexivity.
  - destruct From as (e & He & _); [split; discriminate | discriminate].
Qed.

(** ** The builder for paid expenses *)

Lemma bind_Ok {A B : Type} (m : result A) (f : A -> result B) (b : B) :
  m ≫= f = Ok b -> exists a, m = Ok a /\ f a = Ok b.
Proof. destruct m as [a | e]; [eauto | discriminate]. Qed.

Section PaidExpense.

Variable findByPk : Z -> option Collective.t.
Variable getFxRate : string -> string -> result number.

Local Abbreviation create := (createTransactionsFromPaidExpense findByPk getFxRate).

(** What a successful call has gone through. *)
Lemma createTransactionsFromPaidExpense_Ok (host : Host.t) (expense : Expense.t)
    (fees : FEES_IN_HOST_CURRENCY.t) (config : FxRateConfig) (transactionData : option object)
    (paymentMethod : option PaymentMethod.t) (t : Transaction.t) :
  create host expense fees config transactionData paymentMethod = Ok t ->
  let loaded := load_collective findByPk expense in
  let merged := spread_fees DEFAULT_FEES fees in
  exists r p c,
    resolve_fx_rate getFxRate host loaded config = Ok r /\
    computeExpenseAmounts loaded (Host.currency host) r merged = Ok p /\
    Expense.collective loaded = Some c /\
    let transaction := debit_transaction host loaded c merged r p transactionData paymentMethod in
    t = if String.eqb (Expense.feesPayer expense) "PAYEE" then
          Transaction.update transaction
            (nadd (Transaction.amount transaction)
                  (inCollectiveCurrency (Processed.paymentProcessorFee p)))
            (nadd (Transaction.amountInHostCurrency transaction)
                  (inHostCurrency (Processed.paymentProcessorFee p)))
            (nadd (Transaction.netAmountInCollectiveCurrency transaction)
                  (inCollectiveCurrency (Processed.paymentProcessorFee p)))
            (set (Transaction.data transaction) "feesPayer" (JStr "PAYEE"))
        else transaction.
Proof.
  unfold createTransactionsFromPaidExpense. intros H.
  apply bind_Ok in H as (r & Hr & H).
  apply bind_Ok in H as (p & Hp & H).
  apply bind_Ok in H as (c & Hc & H).
  exists r, p, c. split; [exact Hr |]. split; [exact Hp |]. split.
  - unfold the_collective in Hc.
    destruct (Expense.collective (load_collective findByPk expense)); [| discriminate].
    injection Hc as ->. reflexivity.
  - change (Expense.feesPayer (load_collective findByPk expense))
      with (Expense.feesPayer expense) in H.
    destruct (String.eqb (Expense.feesPayer expense) "PAYEE"); injection H as <-; reflexivity.
Qed.

(** The payer of the fees plays no part before the final adjustment. *)
Lemma load_collective_set_feesPayer (expense : Expense.t) (payer : string) :
  load_collective findByPk (Expense.set_feesPayer expense payer) =
  Expense.set_feesPayer (load_collective findByPk expense) payer.
Proof. reflexivity. Qed.

Lemma computeExpenseAmounts_set_feesPayer (expense : Expense.t) (payer hostCurrency : string)
    (r : number) (fees : Fees.t) :
  computeExpenseAmounts (Expense.set_feesPayer expense payer) hostCurrency r fees =
  computeExpenseAmounts expense hostCurrency r fees.
Proof. reflexivity. Qed.

(** C4.  A successful call for an expense whose fees are not paid by the
    payee submits a DEBIT of kind EXPENSE in the currency of the
    collective, whose [amount] is minus the gross amount in the collective
    currency, whose [amountInHostCurrency] is minus the gross amount in the
    host currency, whose [netAmountInCollectiveCurrency] is minus the sum
    of the gross amount and the three fees in the collective currency,
    whose fee fields are the negated fees in the host currency and whose
    [hostCurrencyFxRate] is [collectiveToHost].  In particular an expense
    of 10000 with one currency throughout, rate 1 and no fees gives -10000
    for the three amounts. *)
Theorem createTransactionsFromPaidExpense_debit :
  (forall (host : Host.t) (expense : Expense.t) (fees : FEES_IN_HOST_CURRENCY.t)
          (config : FxRateConfig) (transactionData : option object)
          (paymentMethod : option PaymentMethod.t) (t : Transaction.t),
      create host expense fees config transactionData paymentMethod = Ok t ->
      Expense.feesPayer expense <> "PAYEE" ->
      exists r p c,
        resolve_fx_rate getFxRate host (load_collective findByPk expense) config = Ok r /\
        computeExpenseAmounts (load_collective findByPk expense) (Host.currency host) r
          (spread_fees DEFAULT_FEES fees) = Ok p /\
        Expense.collective (load_collective findByPk expense) = Some c /\
        Transaction.type t = DEBIT /\
        Transaction.kind t = EXPENSE /\
        Transaction.currency t = Collective.currency c /\
        Transaction.amount t = nneg (inCollectiveCurrency (Processed.amount p)) /\
        Transaction.amountInHostCurrency t = nneg (inHostCurrency (Processed.amount p)) /\
        Transaction.netAmountInCollectiveCurrency t =n=
          nneg (nadd (nadd (nadd (inCollectiveCurrency (Processed.amount p))
                                 (inCollectiveCurrency (Processed.paymentProcessorFee p)))
                           (inCollectiveCurrency (Processed.hostFee p)))
                     (inCollectiveCurrency (Processed.platformFee p))) /\
        Transaction.paymentProcessorFeeInHostCurrency t =
          nneg (inHostCurrency (Processed.paymentProcessorFee p)) /\
        Transaction.hostFeeInHostCurrency t = nneg (inHostCurrency (Processed.hostFee p)) /\
        Transaction.platformFeeInHostCurrency t =
          nneg (inHostCurrency (Processed.platformFee p)) /\
        Transaction.hostCurrencyFxRate t = collectiveToHost (Processed.fxRates p)) /\
  (exists t,
      create usd_host (an_expense 10000 "USD" usd_collective "COLLECTIVE" None) no_fees
        (rate (Fin 1)) None None = Ok t /\
      Transaction.amount t =n= of_Z (-10000) /\
      Transaction.amountInHostCurrency t =n= of_Z (-10000) /\
      Transaction.netAmountInCollectiveCurrency t =n= of_Z (-10000)).
Proof.
  split.
  - intros host expense fees config transactionData paymentMethod t H Hpayer.
    apply createTransactionsFromPaidExpense_Ok in H as (r & p & c & Hr & Hp & Hc & Ht).
    apply String.eqb_neq in Hpayer. rewrite Hpayer in Ht. cbv zeta in Ht. subst t.
    exists r, p, c.
    destruct (computeExpenseAmounts_Ok _ _ _ _ _ Hp) as (Hshape & _).
    repeat (split; [first [assumption | reflexivity] |]).
    split; [apply nmul_minus_one, nadd_is_number |].
    rewrite Hshape. repeat split.
  - eexists. split; [reflexivity |]. vm_compute. repeat split.
Qed.

(** The amounts in the currency of the collective are integers when they
    are finite. *)
Lemma amounts_for_integer (expense : Expense.t) (fx : FxRates) (fees : Fees.t) :
  let p := amounts_for expense fx fees in
  (finite (inCollectiveCurrency (Processed.amount p)) = true ->
   is_integer (inCollectiveCurrency (Processed.amount p))) /\
  (finite (inCollectiveCurrency (Processed.paymentProcessorFee p)) = true ->
   is_integer (inCollectiveCurrency (Processed.paymentProcessorFee p))) /\
  (finite (inCollectiveCurrency (Processed.hostFee p)) = true ->
   is_integer (inCollectiveCurrency (Processed.hostFee p))) /\
  (finite (inCollectiveCurrency (Processed.platformFee p)) = true ->
   is_integer (inCollectiveCurrency (Processed.platformFee p))).
Proof.
  cbn. split; [| split; [| split]]; intros H; rewrite Math_round_finite in H;
    (apply Math_round_is_integer; [first [apply nmul_is_number | apply ndiv_is_number] | exact H]).
Qed.

(** A finite integer that is not negative. *)
Lemma integer_amount (x : number) :
  is_integer x -> nle (Fin 0) x = true -> exists z : Z, x ~> inject_Z z /\ (0 <= z)%Z.
Proof.
  intros Hi Hpos. destruct (is_integer_represents x Hi) as (z & Hz).
  exists z. split; [exact Hz | apply (represents_nonneg x z Hz Hpos)].
Qed.

(** C5, as amended.  When the payee pays the fees, the record differs from
    the one built for the same inputs with the collective as the payer in
    this: [amount] and [netAmountInCollectiveCurrency] are increased by the
    payment processor fee in the collective currency,
    [amountInHostCurrency] by that fee in the host currency, and
    [data.feesPayer] is ['PAYEE'].  The resulting
    [netAmountInCollectiveCurrency] is minus the sum of the gross amount,
    the host fee and the platform fee in the collective currency when the
    gross amount and the three fees in the collective currency are finite,
    not negative and add up to [2^53] at most: no sum is rounded then. *)
Theorem createTransactionsFromPaidExpense_payee (host : Host.t) (expense : Expense.t)
    (fees : FEES_IN_HOST_CURRENCY.t) (config : FxRateConfig) (transactionData : option object)
    (paymentMethod : option PaymentMethod.t) (t : Transaction.t) :
  create host expense fees config transactionData paymentMethod = Ok t ->
  Expense.feesPayer expense = "PAYEE" ->
  exists t0 r p,
    create host (Expense.set_feesPayer expense "COLLECTIVE") fees config transactionData
      paymentMethod = Ok t0 /\
    resolve_fx_rate getFxRate host (load_collective findByPk expense) config = Ok r /\
    computeExpenseAmounts (load_collective findByPk expense) (Host.currency host) r
      (spread_fees DEFAULT_FEES fees) = Ok p /\
    Transaction.amount t =
      nadd (Transaction.amount t0) (inCollectiveCurrency (Processed.paymentProcessorFee p)) /\
    Transaction.amountInHostCurrency t =
      nadd (Transaction.amountInHostCurrency t0)
           (inHostCurrency (Processed.paymentProcessorFee p)) /\
    Transaction.netAmountInCollectiveCurrency t =
      nadd (Transaction.netAmountInCollectiveCurrency t0)
           (inCollectiveCurrency (Processed.paymentProcessorFee p)) /\
    Transaction.data t = set (Transaction.data t0) "feesPayer" (JStr "PAYEE") /\
    Transaction.data t !! "feesPayer" = Some (JStr "PAYEE") /\
    (sums_are_exact p -> payee_net_closed_form t p).
Proof.
  intros H Hpayer.
  apply createTransactionsFromPaidExpense_Ok in H as (r & p & c & Hr & Hp & Hc & Ht).
  rewrite Hpayer in Ht. change (String.eqb "PAYEE" "PAYEE") with true in Ht.
  cbv zeta iota in Ht.
  eexists _, r, p. split.
  { unfold createTransactionsFromPaidExpense.
    rewrite load_collective_set_feesPayer.
    change (resolve_fx_rate getFxRate host (Expense.set_feesPayer ?e _) config)
      with (resolve_fx_rate getFxRate host e config).
    rewrite Hr. cbn [mbind result_bind].
    rewrite computeExpenseAmounts_set_feesPayer, Hp. cbn [mbind result_bind].
    rewrite (the_collective_Some _ c) by exact Hc. cbn [mbind result_bind].
    reflexivity. }
  split; [exact Hr |]. split; [exact Hp |]. subst t.
  repeat (split; [reflexivity |]).
  split; [apply lookup_insert_eq |].
  intros (Fg & Fp & Fh & Ff & Pg & Pp & Ph & Pf & Hsum).
  destruct (computeExpenseAmounts_Ok _ _ _ _ _ Hp) as (Hshape & _).
  destruct (amounts_for_integer (load_collective findByPk expense) (Processed.fxRates p)
              (spread_fees DEFAULT_FEES fees)) as (Ig & Ip & Ih & If_).
  rewrite <- Hshape in Ig, Ip, Ih, If_.
  destruct (integer_amount _ (Ig Fg) Pg) as (zg & Rg & Zg).
  destruct (integer_amount _ (Ip Fp) Pp) as (zp & Rp & Zp).
  destruct (integer_amount _ (Ih Fh) Ph) as (zh & Rh & Zh).
  destruct (integer_amount _ (If_ Ff) Pf) as (zf & Rf & Zf).
  assert (Hbound : (zg + zp + zh + zf <= 2 ^ 53)%Z).
  { rewrite Zle_Qle, !inject_Z_plus.
    destruct Rg as [_ <-], Rp as [_ <-], Rh as [_ <-], Rf as [_ <-]. exact Hsum. }
  unfold payee_net_closed_form.
  cbn [Transaction.update Transaction.netAmountInCollectiveCurrency debit_transaction].
  eapply (represents_num_eq _ _ (inject_Z (- (zg + zp + zh + zf) + zp))
                                (inject_Z (- (zg + zh + zf)))).
  - apply represents_nadd_Z; [| exact Rp | lia].
    eapply represents_num_eq_l; [apply nmul_minus_one, nadd_is_number |].
    apply represents_nneg_Z.
    repeat (apply represents_nadd_Z; [| assumption | lia]). exact Rg.
  - apply represents_nneg_Z.
    repeat (apply represents_nadd_Z; [| assumption | lia]). exact Rg.
  - apply inject_Z_injective. lia.
Qed.

End PaidExpense.

(** C5: at the rate 0 the three fees in the collective currency are infinite
    and the net amount is [NaN], where the closed form is -Infinity; an
    amount of [2^53] with a fee of 1 loses the fee in the first sum. *)
Lemma payee_net_closed_form_refuted :
  (exists t p,
     createTransactionsFromPaidExpense no_collective unit_rate usd_host
       (an_expense 1000 "GBP" gbp_collective "PAYEE" None) (three_fees 125 50 10)
       (rate (Fin 0)) None None = Ok t /\
     computeExpenseAmounts (an_expense 1000 "GBP" gbp_collective "PAYEE" None) "USD" (Fin 0)
       (some_fees 125 50 10) = Ok p /\
     Transaction.netAmountInCollectiveCurrency t = NaN /\
     ~ payee_net_closed_form t p) /\
  (exists t p,
     createTransactionsFromPaidExpense no_collective unit_rate usd_host
       (an_expense (2 ^ 53) "USD" usd_collective "PAYEE" None) (processor_fee 1)
       (rate (Fin 1)) None None = Ok t /\
     computeExpenseAmounts (an_expense (2 ^ 53) "USD" usd_collective "PAYEE" None) "USD" (Fin 1)
       (spread_fees DEFAULT_FEES (processor_fee 1)) = Ok p /\
     Transaction.netAmountInCollectiveCurrency t =n= of_Z (- (2 ^ 53 - 1)) /\
     ~ payee_net_closed_form t p).
Proof.
  split.
  - eexists _, _. split; [reflexivity |]. split; [reflexivity |].
    split; vm_compute; [reflexivity | tauto].
  - eexists _, _. split; [reflexivity |]. split; [reflexivity |].
    split; vm_compute; [reflexivity | discriminate].
Qed.

(** ** Taxes *)

Lemma nor_zero_spec (x : number) :
  nor x (Fin 0) <> NegZero /\ (x <> NaN -> nor x (Fin 0) =n= x) /\ (x = NaN -> nor x (Fin 0) = Fin 0).
Proof.
  unfold nor. destruct x; cbn;
    try (split; [discriminate | split; [intros _; exact I | discriminate]]).
  - destruct (Qeq_bool q 0) eqn:E; cbn.
    + apply Qeq_bool_iff in E.
      split; [discriminate | split; [intros _; symmetry; exact E | discriminate]].
    + split; [discriminate | split; [intros _; reflexivity | discriminate]].
  - split; [discriminate | split; [intros _; reflexivity | discriminate]].
  - split; [discriminate | split; [intros H; contradiction | reflexivity]].
Qed.

(** [sumBy] adds the rates from the left. *)
Lemma sumBy_rates (taxes : list Tax.t) : sumBy taxes Tax.rate = sum_from_left (Tax.rate <$> taxes).
Proof.
  destruct taxes as [| tax rest]; [reflexivity |]. cbn.
  generalize (Tax.rate tax). induction rest as [| t rest IH]; intros acc; [reflexivity |].
  cbn. apply IH.
Qed.

(** C6, as amended.  [computeExpenseTaxes] returns null when the expense has
    no tax line.  Otherwise, with [ratesSum] the rates of the lines added
    from the left, it returns [-round(amount - amount / (1 + ratesSum))],
    where a zero comes back as the positive zero, never as -0, and where 0
    is returned when that value is [NaN].  An amount of 1200 with one line
    at rate 0.20 gives -200, one line at rate 0 gives 0, not null, lines at
    0.1 and 0.2 on 1300 give -300, and 957 with one line at 0.0208 gives
    -19, the quotient being rounded to binary64. *)
Theorem computeExpenseTaxes_spec :
  (forall expense : Expense.t,
      Expense.tax_lines expense = [] -> computeExpenseTaxes expense = None) /\
  (forall expense : Expense.t,
      Expense.tax_lines expense <> [] ->
      exists v, computeExpenseTaxes expense = Some v /\
        v <> NegZero /\
        (tax_formula expense <> NaN -> v =n= tax_formula expense) /\
        (tax_formula expense = NaN -> v = Fin 0)) /\
  computeExpenseTaxes (an_expense 1200 "USD" usd_collective "COLLECTIVE" (Some [vat]))
    = Some (of_Z (-200)) /\
  computeExpenseTaxes
    (an_expense 1200 "USD" usd_collective "COLLECTIVE"
       (Some [ {| Tax.type := "VAT"; Tax.rate := Fin 0; Tax.others := ∅ |} ])) = Some (Fin 0) /\
  computeExpenseTaxes (an_expense 1300 "USD" usd_collective "COLLECTIVE" (Some [gst; vat]))
    = Some (of_Z (-300)) /\
  computeExpenseTaxes
    (an_expense 957 "USD" usd_collective "COLLECTIVE"
       (Some [ {| Tax.type := "VAT"; Tax.rate := number_for (208 # 10000); Tax.others := ∅ |} ]))
    = Some (of_Z (-19)).
Proof.
  split; [| split; [| split; [| split; [| split]]]].
  - intros expense H. unfold computeExpenseTaxes. rewrite H. reflexivity.
  - intros expense H. unfold computeExpenseTaxes, tax_formula.
    rewrite <- sumBy_rates.
    destruct (Expense.tax_lines expense) as [| tax rest] eqn:E; [contradiction |].
    eexists. split; [reflexivity |]. apply nor_zero_spec.
  - vm_compute. reflexivity.
  - vm_compute. reflexivity.
  - vm_compute. reflexivity.
  - vm_compute. reflexivity.
Qed.

(** C6: an amount of 0 with a rate of -1 computes [0 - 0 / 0], which is
    [NaN], and [|| 0] turns it into 0; the value returned is not the value of
    the formula. *)
Lemma returns_tax_formula_refuted :
  ~ returns_tax_formula
      (an_expense 0 "USD" usd_collective "COLLECTIVE"
         (Some [ {| Tax.type := "VAT"; Tax.rate := Fin (-1); Tax.others := ∅ |} ])).
Proof.
  intros H. destruct H as (v & Hv & _ & Heq); [discriminate |].
  vm_compute in Hv. injection Hv as <-. vm_compute in Heq. exact Heq.
Qed.

(** ** The builder for manually paid expenses *)

Lemma nlt_not_nle (x y : number) : nlt x y = true -> nle y x = false.
Proof.
  destruct x, y; cbn; try discriminate; try reflexivity; unfold Qltb;
    intros H; apply negb_true_iff in H; exact H.
Qed.

Lemma nle_not_nlt (x y : number) : nle x y = true -> nlt y x = false.
Proof.
  destruct x, y; cbn; try discriminate; try reflexivity; unfold Qltb;
    intros H; rewrite H; reflexivity.
Qed.

(** Without a loaded collective the manual builder throws on reading its
    currency, before any lookup. *)
Lemma createTransactionsForManuallyPaidExpense_unloaded (host : Host.t) (expense : Expense.t)
    (fee total : number) (transactionData : option object) :
  nge fee (Fin 0) = true -> ngt total (Fin 0) = true ->
  Expense.collective expense = None ->
  exists message,
    createTransactionsForManuallyPaidExpense host expense fee total transactionData =
    Throw (TypeError message).
Proof.
  intros Hfee Htotal Hc. unfold createTransactionsForManuallyPaidExpense, the_collective.
  rewrite Hfee, Htotal, Hc. eexists. reflexivity.
Qed.

(** C7.  [createTransactionsForManuallyPaidExpense] fails with
    [InvalidArgument], and so submits nothing, when the payment processor fee
    is negative or the total paid is not positive.  With a fee >= 0 and a
    total > 0: when the host has the currency of the collective the record
    has the gross amount [-(total - fee)], the net amount [-total] and the
    rate 1; when it has not, the call fails with
    [UnsupportedCurrencyCombination] unless the expense has the currency of
    the collective, and otherwise the rate is [round(|gross / expense.amount|, 5)],
    which is within half a unit of the fifth decimal of that quotient, and
    the errors of binary64; and [amount] and [netAmountInCollectiveCurrency]
    are the gross and the net amount divided by this rate and rounded: each
    is the integer nearest to the quotient, when that is finite. *)
Theorem createTransactionsForManuallyPaidExpense_spec (host : Host.t) (expense : Expense.t)
    (paymentProcessorFeeInHostCurrency totalAmountPaidInHostCurrency : number)
    (transactionData : option object) :
  let call :=
    createTransactionsForManuallyPaidExpense host expense paymentProcessorFeeInHostCurrency
      totalAmountPaidInHostCurrency transactionData in
  (nlt paymentProcessorFeeInHostCurrency (Fin 0) = true \/
   nle totalAmountPaidInHostCurrency (Fin 0) = true ->
   exists e, call = Throw e /\ InvalidArgument e) /\
  (nge paymentProcessorFeeInHostCurrency (Fin 0) = true ->
   ngt totalAmountPaidInHostCurrency (Fin 0) = true ->
   forall c, Expense.collective expense = Some c ->
     let grossAmount :=
       nneg (nsub totalAmountPaidInHostCurrency paymentProcessorFeeInHostCurrency) in
     (Host.currency host = Collective.currency c ->
      exists t, call = Ok t /\
        Transaction.amount t = grossAmount /\
        Transaction.amountInHostCurrency t = grossAmount /\
        Transaction.netAmountInCollectiveCurrency t = nneg totalAmountPaidInHostCurrency /\
        Transaction.hostCurrencyFxRate t = Fin 1) /\
     (Host.currency host <> Collective.currency c ->
      Expense.currency expense <> Collective.currency c ->
      exists e, call = Throw e /\ UnsupportedCurrencyCombination e) /\
     (Host.currency host <> Collective.currency c ->
      Expense.currency expense = Collective.currency c ->
      exists t, call = Ok t /\
        Transaction.hostCurrencyFxRate t =
          round (Math_abs (ndiv grossAmount (Expense.amount expense))) 5 /\
        Transaction.amount t = round (ndiv grossAmount (Transaction.hostCurrencyFxRate t)) 0 /\
        Transaction.netAmountInCollectiveCurrency t =
          round (ndiv (nneg totalAmountPaidInHostCurrency) (Transaction.hostCurrencyFxRate t)) 0 /\
        Transaction.amountInHostCurrency t = grossAmount /\
        rounded_to_decimals 5 (Math_abs (ndiv grossAmount (Expense.amount expense)))
          (Transaction.hostCurrencyFxRate t) /\
        nearest_integer (ndiv grossAmount (Transaction.hostCurrencyFxRate t))
          (Transaction.amount t) /\
        nearest_integer
          (ndiv (nneg totalAmountPaidInHostCurrency) (Transaction.hostCurrencyFxRate t))
          (Transaction.netAmountInCollectiveCurrency t))).
Proof.
  intros call. subst call. unfold createTransactionsForManuallyPaidExpense. split.
  - intros [Hfee | Htotal].
    + apply nlt_not_nle in Hfee. unfold nge. rewrite Hfee.
      eexists. split; [reflexivity | left; reflexivity].
    + apply nle_not_nlt in Htotal. unfold ngt. rewrite Htotal.
      destruct (nge paymentProcessorFeeInHostCurrency (Fin 0));
        eexists; (split; [reflexivity |]); [right | left]; reflexivity.
  - intros Hfee Htotal c Hc. rewrite Hfee, Htotal. cbn [assert mbind result_bind].
    rewrite (the_collective_Some _ _ Hc). cbn [mbind result_bind].
    split; [| split].
    + intros E. apply String.eqb_eq in E. rewrite E. cbn [negb mbind result_bind].
      eexists. split; [reflexivity |]. repeat split.
    + intros E E'. apply String.eqb_neq in E, E'. rewrite E, E'. cbn [negb assert mbind result_bind].
      eexists. split; [reflexivity | right; reflexivity].
    + intros E E'. apply String.eqb_neq in E. apply String.eqb_eq in E'.
      rewrite E, E'. cbn [negb assert mbind result_bind].
      eexists. split; [reflexivity |].
      repeat apply conj;
        first [ reflexivity
              | apply Math_round_nearest_integer, ndiv_is_number
              | intros Hf Hb; apply round_error;
                [apply Math_abs_is_number, ndiv_is_number | exact Hf | lia | exact Hb] ].
Qed.

(** ** Rounding of the fees *)

(** Dividing by a positive rate, rounding and multiplying back moves a value
    by at most half of the rate, and by the error of the division. *)
Lemma round_trip_error (h r : number) :
  finite h = true -> finite r = true -> ngt r (Fin 0) = true ->
  agrees h (Math_round (ndiv h r)) r.
Proof.
  intros Fh Fr Pr Fc. rewrite Math_round_finite in Fc. unfold distance.
  apply represents_value in Fh, Fr.
  apply (represents_nlt _ _ _ _ (represents_Fin 0) Fr) in Pr.
  set (hq := value h) in *. set (rq := value r) in *.
  assert (Hr0 : ~ rq == 0) by lra.
  pose proof (represents_ndiv_nearest _ _ _ _ Fh Fr Hr0 Fc) as Hd.
  pose proof (represents_Math_round _ _ Hd) as [_ Hc]. rewrite Hc.
  pose proof (nearest_error (hq / rq)) as He.
  set (d := nearest (hq / rq)) in *.
  pose proof (Qfloor_le (d + (1 # 2))) as L.
  pose proof (Qlt_floor (d + (1 # 2))) as U.
  set (z := Qfloor (d + (1 # 2))) in *.
  rewrite inject_Z_plus in U. change (inject_Z 1) with 1 in U.
  assert (E : hq == hq / rq * rq) by (field; exact Hr0).
  assert (Ea : Qabs (hq / rq) * rq == Qabs hq).
  { rewrite E at 2. rewrite Qabs_Qmult, (Qabs_pos rq) by lra. reflexivity. }
  apply Qabs_Qle_condition in He. destruct He as [He1 He2].
  pose proof (pow2_pos (-53)) as P53. pose proof (pow2_pos (-1075)) as P1075.
  pose proof (Qabs_nonneg (hq / rq)) as Habs.
  assert (Hhalf : rq / 2 == rq * (1 # 2)) by field. rewrite Hhalf.
  set (x := hq / rq) in *. set (k := inject_Z z) in *. set (a := Qabs x) in *.
  set (e53 := pow2 (-53)) in *. set (e1075 := pow2 (-1075)) in *.
  set (ah := Qabs hq) in *.
  assert (B1 : - (1 # 2) - a * e53 - e1075 <= x - k) by lra.
  assert (B2 : x - k <= (1 # 2) + a * e53 + e1075) by lra.
  assert (Ek : hq - k * rq == (x - k) * rq) by (rewrite E at 1; ring).
  rewrite Ek. apply Qabs_Qle_condition.
  assert (Ea' : a * e53 * rq == ah * e53) by (rewrite <- Ea; ring).
  clearbody k x a rq hq ah e53 e1075. split; nra.
Qed.

Lemma fee_amounts_agree (fx : FxRates) (fee : number) :
  finite fee = true ->
  finite (collectiveToHost fx) = true -> ngt (collectiveToHost fx) (Fin 0) = true ->
  finite (expenseToHost fx) = true -> ngt (expenseToHost fx) (Fin 0) = true ->
  agree_within_rounding fx (fee_amounts fx fee) /\
  (nle (collectiveToHost fx) (Fin 1) = true -> nle (expenseToHost fx) (Fin 1) = true ->
   Qabs (value fee) <= inject_Z (2 ^ 52 - 1) ->
   agree_within_unit fx (fee_amounts fx fee)).
Proof.
  intros Ff Fc Pc Fe Pe.
  pose proof (round_trip_error fee _ Ff Fc Pc) as Rc.
  pose proof (round_trip_error fee _ Ff Fe Pe) as Re.
  pose proof (represents_value _ Fc) as Vc. pose proof (represents_value _ Fe) as Ve.
  split; [split; assumption |].
  intros Lc Le Hfee.
  apply (represents_nle _ _ _ _ Vc (represents_Fin 1)) in Lc.
  apply (represents_nle _ _ _ _ Ve (represents_Fin 1)) in Le.
  apply (represents_nlt _ _ _ _ (represents_Fin 0) Vc) in Pc.
  apply (represents_nlt _ _ _ _ (represents_Fin 0) Ve) in Pe.
  assert (E53 : inject_Z (2 ^ 52 - 1) * pow2 (-53) == (1 # 2) - pow2 (-53)) by reflexivity.
  assert (Hsmall : pow2 (-1075) <= pow2 (-53)) by (apply pow2_le; lia).
  pose proof (pow2_pos (-53)) as P53. pose proof (pow2_pos (-1075)) as P1075.
  cbn [fee_amounts inHostCurrency inCollectiveCurrency inExpenseCurrency] in *.
  split; intros F; [specialize (Rc F) | specialize (Re F)];
    match goal with
    | H : distance _ _ _ <= _ |- distance _ _ _ <= _ => apply (Qle_trans _ _ _ H)
    end;
    set (a := Qabs (value fee)) in *; set (e53 := pow2 (-53)) in *;
    set (e1075 := pow2 (-1075)) in *;
    [set (r := value (collectiveToHost fx)) in * | set (r := value (expenseToHost fx)) in *];
    set (b := inject_Z (2 ^ 52 - 1)) in *;
    assert (Hhalf : r / 2 == r * (1 # 2)) by field; rewrite Hhalf;
    clearbody a e53 e1075 r b; nra.
Qed.

(** C9, as amended.  For finite fees and a finite positive rate, each fee
    returned by [computeExpenseAmounts] satisfies, in exact arithmetic and
    for the representations that are finite,
    [|inHostCurrency - inCollectiveCurrency * collectiveToHost| <=
     collectiveToHost / 2 + |inHostCurrency| / 2^53 + collectiveToHost / 2^1075]
    and the same with [inExpenseCurrency] and [expenseToHost]: half of the
    rate for the rounding to a whole unit, the rest for the division in
    binary64.  The two differences are at most 1 when the rate is at most 1
    and the fee is at most [2^52 - 1] in magnitude. *)
Theorem computeExpenseAmounts_fee_agreement (expense : Expense.t) (hostCurrency : string)
    (expenseToHostFxRate : number) (fees : Fees.t) (p : Processed.t) :
  computeExpenseAmounts expense hostCurrency expenseToHostFxRate fees = Ok p ->
  finite expenseToHostFxRate = true ->
  ngt expenseToHostFxRate (Fin 0) = true ->
  finite (Fees.paymentProcessorFeeInHostCurrency fees) = true ->
  finite (Fees.hostFeeInHostCurrency fees) = true ->
  finite (Fees.platformFeeInHostCurrency fees) = true ->
  (agree_within_rounding (Processed.fxRates p) (Processed.paymentProcessorFee p) /\
   agree_within_rounding (Processed.fxRates p) (Processed.hostFee p) /\
   agree_within_rounding (Processed.fxRates p) (Processed.platformFee p)) /\
  (nle expenseToHostFxRate (Fin 1) = true ->
   Qabs (value (Fees.paymentProcessorFeeInHostCurrency fees)) <= inject_Z (2 ^ 52 - 1) ->
   Qabs (value (Fees.hostFeeInHostCurrency fees)) <= inject_Z (2 ^ 52 - 1) ->
   Qabs (value (Fees.platformFeeInHostCurrency fees)) <= inject_Z (2 ^ 52 - 1) ->
   agree_within_unit (Processed.fxRates p) (Processed.paymentProcessorFee p) /\
   agree_within_unit (Processed.fxRates p) (Processed.hostFee p) /\
   agree_within_unit (Processed.fxRates p) (Processed.platformFee p)).
Proof.
  intros H Fr Pr Fp Fh Ff.
  destruct (computeExpenseAmounts_Ok _ _ _ _ _ H) as (Hshape & Hrate & c & _ & Hfx).
  assert (Hc : finite (collectiveToHost (Processed.fxRates p)) = true /\
               ngt (collectiveToHost (Processed.fxRates p)) (Fin 0) = true /\
               (nle expenseToHostFxRate (Fin 1) = true ->
                nle (collectiveToHost (Processed.fxRates p)) (Fin 1) = true)).
  { destruct Hfx as [(_ & -> & _) | (_ & _ & -> & _)]; auto. }
  destruct Hc as (Fc & Pc & Lc).
  rewrite <- Hrate in Fr, Pr.
  pose proof (fee_amounts_agree (Processed.fxRates p) _ Fp Fc Pc Fr Pr) as [A1 B1].
  pose proof (fee_amounts_agree (Processed.fxRates p) _ Fh Fc Pc Fr Pr) as [A2 B2].
  pose proof (fee_amounts_agree (Processed.fxRates p) _ Ff Fc Pc Fr Pr) as [A3 B3].
  rewrite Hshape. cbn [amounts_for Processed.fxRates Processed.paymentProcessorFee
    Processed.hostFee Processed.platformFee].
  split; [auto |]. intros L Bp Bh Bf. rewrite <- Hrate in L, Lc. auto.
Qed.

(** C9: the tolerance of 1 fails as soon as a rate is large: a fee of 100 JPY
    on an expense in USD, at 150 JPY for 1 USD, is 1 USD, that is 150 JPY. *)
Lemma agree_within_one_refuted :
  exists p,
    computeExpenseAmounts (an_expense 1000 "USD" jpy_collective "COLLECTIVE" None) "JPY"
      (Fin 150) (some_fees 100 0 0) = Ok p /\
    inExpenseCurrency (Processed.paymentProcessorFee p) = Fin 1 /\
    ~ agree_within_one (Processed.fxRates p) (Processed.paymentProcessorFee p).
Proof.
  eexists. split; [reflexivity |]. split; [vm_compute; reflexivity |].
  intros [_ H]. vm_compute in H. discriminate.
Qed.

(** ** The records of the manual builder *)

(** What a successful call of the manual builder has gone through. *)
Lemma createTransactionsForManuallyPaidExpense_Ok (host : Host.t) (expense : Expense.t)
    (fee total : number) (transactionData : option object) (t : Transaction.t) :
  createTransactionsForManuallyPaidExpense host expense fee total transactionData = Ok t ->
  nge fee (Fin 0) = true /\ ngt total (Fin 0) = true /\
  exists c, Expense.collective expense = Some c /\
    (Host.currency host = Collective.currency c /\
       t = manual_transaction host expense c (initial_amounts fee total)
             (tag_payee expense transactionData)
     \/ Host.currency host <> Collective.currency c /\
        Expense.currency expense = Collective.currency c /\
        t = manual_transaction host expense c
              (adjust_amounts (initial_amounts fee total) expense)
              (tag_payee expense transactionData)).
Proof.
  unfold createTransactionsForManuallyPaidExpense. intros H.
  destruct (nge fee (Fin 0)); [| discriminate].
  destruct (ngt total (Fin 0)); [| discriminate].
  cbn [assert mbind result_bind] in H.
  apply bind_Ok in H as (c & Hc & H).
  apply bind_Ok in H as (amounts & Ha & H).
  injection H as <-.
  split; [reflexivity |]. split; [reflexivity |]. exists c. split.
  - unfold the_collective in Hc.
    destruct (Expense.collective expense); [injection Hc as ->; reflexivity | discriminate].
  - destruct (String.eqb (Host.currency host) (Collective.currency c)) eqn:E.
    + apply String.eqb_eq in E. injection Ha as <-. left. auto.
    + apply String.eqb_neq in E. cbn [negb] in Ha.
      destruct (String.eqb (Expense.currency expense) (Collective.currency c)) eqn:E';
        [| discriminate].
      apply String.eqb_eq in E'. injection Ha as <-. right. auto.
Qed.

(** The only key of [tax_data] is [tax]. *)
Lemma tax_data_lookup_ne (expense : Expense.t) (k : string) :
  k <> "tax" -> tax_data expense !! k = None.
Proof.
  intros H. unfold tax_data.
  destruct (Expense.tax_lines expense); [apply lookup_empty |].
  apply lookup_singleton_ne. congruence.
Qed.

Lemma tax_data_lookup_tax (expense : Expense.t) :
  Expense.tax_lines expense <> [] -> is_Some (tax_data expense !! "tax").
Proof.
  intros H. unfold tax_data.
  destruct (Expense.tax_lines expense); [contradiction |].
  rewrite lookup_singleton_eq. eauto.
Qed.

Lemma tag_payee_lookup_ne (expense : Expense.t) (transactionData : option object) (k : string) :
  k <> "feesPayer" ->
  default ∅ (tag_payee expense transactionData) !! k = default ∅ transactionData !! k.
Proof.
  intros H. unfold tag_payee.
  destruct (String.eqb (Expense.feesPayer expense) "PAYEE"); [| reflexivity].
  destruct transactionData as [d |]; [| reflexivity].
  cbn. unfold set. apply lookup_insert_ne. congruence.
Qed.

(** How [data] is looked up in the record of the manual builder: the tax
    entry first, then what the caller gave, then [isManual]. *)
Lemma manual_transaction_data_lookup (host : Host.t) (expense : Expense.t) (c : Collective.t)
    (amounts : ManualAmounts) (transactionData : option object) (k : string) :
  Transaction.data (manual_transaction host expense c amounts transactionData) !! k =
  match tax_data expense !! k with
  | Some v => Some v
  | None =>
      match default ∅ transactionData !! k with
      | Some v => Some v
      | None => ({[ "isManual" := JBool true ]} : object) !! k
      end
  end.
Proof.
  cbn [manual_transaction Transaction.data]. unfold spread.
  rewrite !lookup_union.
  destruct (tax_data expense !! k), (default ∅ transactionData !! k),
    (({[ "isManual" := JBool true ]} : object) !! k); reflexivity.
Qed.

(** C10, as amended.  In the record of a successful call of the manual
    builder, [data.isManual] is [true] when the caller's [transactionData]
    has no [isManual] key, and is the caller's value when it has one; the tax
    entry is there when the expense has tax lines, and every other key of the
    caller's data is kept. *)
Theorem createTransactionsForManuallyPaidExpense_data (host : Host.t) (expense : Expense.t)
    (fee total : number) (transactionData : option object) (t : Transaction.t) :
  createTransactionsForManuallyPaidExpense host expense fee total transactionData = Ok t ->
  (default ∅ transactionData !! "isManual" = None -> is_marked_manual t) /\
  (forall v, default ∅ transactionData !! "isManual" = Some v ->
             Transaction.data t !! "isManual" = Some v) /\
  (Expense.tax_lines expense <> [] ->
   is_Some (tax_data expense !! "tax") /\
   Transaction.data t !! "tax" = tax_data expense !! "tax") /\
  (forall k, k <> "tax" -> k <> "feesPayer" -> k <> "isManual" ->
             Transaction.data t !! k = default ∅ transactionData !! k).
Proof.
  intros H.
  apply createTransactionsForManuallyPaidExpense_Ok in H as (_ & _ & c & _ & H).
  assert (Hlookup : forall k,
    Transaction.data t !! k =
    match tax_data expense !! k with
    | Some v => Some v
    | None =>
        match default ∅ (tag_payee expense transactionData) !! k with
        | Some v => Some v
        | None => ({[ "isManual" := JBool true ]} : object) !! k
        end
    end).
  { intros k. destruct H as [(_ & ->) | (_ & _ & ->)]; apply manual_transaction_data_lookup. }
  clear H. unfold is_marked_manual. split; [| split; [| split]].
  - intros Hnone. rewrite Hlookup, tax_data_lookup_ne by discriminate.
    rewrite tag_payee_lookup_ne, Hnone by discriminate. reflexivity.
  - intros v Hv. rewrite Hlookup, tax_data_lookup_ne by discriminate.
    rewrite tag_payee_lookup_ne, Hv by discriminate. reflexivity.
  - intros Htax. pose proof (tax_data_lookup_tax _ Htax) as Hsome.
    split; [exact Hsome |]. rewrite Hlookup. destruct Hsome as [v ->]. reflexivity.
  - intros k K1 K2 K3. rewrite Hlookup, tax_data_lookup_ne by exact K1.
    rewrite tag_payee_lookup_ne by exact K2.
    destruct (default ∅ transactionData !! k); [reflexivity |].
    apply lookup_singleton_ne. congruence.
Qed.

(** A caller whose data says [isManual: false] gets it back unchanged. *)
Lemma is_marked_manual_refuted :
  exists t,
    createTransactionsForManuallyPaidExpense usd_host
      (an_expense 10000 "USD" usd_collective "COLLECTIVE" None) (of_Z 300) (of_Z 10000)
      (Some {[ "isManual" := JBool false ]}) = Ok t /\
    ~ is_marked_manual t.
Proof.
  eexists. split; [reflexivity |].
  unfold is_marked_manual. rewrite manual_transaction_data_lookup.
  vm_compute. discriminate.
Qed.

(** ** Signs and sums in the records *)

Lemma nle_num_eq (x x' y y' : number) : x =n= x' -> y =n= y' -> nle x y = nle x' y'.
Proof.
  intros Hx Hy.
  destruct x, x'; try contradiction; destruct y, y'; try contradiction;
    cbn in *; try reflexivity; apply Qle_bool_comp; assumption.
Qed.



Lemma is_fee_represents (x : number) :
  is_fee x -> exists z : Z, x ~> inject_Z z /\ (0 <= z)%Z.
Proof. intros [Hi Hpos]. apply integer_amount; assumption. Qed.


Lemma is_fee_number (x : number) : is_fee x -> is_number x.
Proof. intros [(H & _) _]. exact H. Qed.






(** The limits of the other parts.  With the payee paying a processor fee
    above the gross amount, [amount] is positive. *)
Lemma amount_positive_when_fee_exceeds_gross :
  exists t,
    createTransactionsFromPaidExpense no_collective unit_rate usd_host
      (an_expense 100 "USD" usd_collective "PAYEE" None) (processor_fee 300)
      (rate (Fin 1)) None None = Ok t /\
    Transaction.amount t =n= of_Z 200 /\
    nle (Transaction.amount t) (Fin 0) = false.
Proof. eexists. split; [reflexivity |]. split; vm_compute; reflexivity. Qed.

(** A manual payment whose fee is the whole total, for a collective in
    another currency than the host: the derived rate is 0 and [amount] is
    0 / 0. *)
Lemma manual_amount_NaN_when_fee_is_total :
  exists t,
    createTransactionsForManuallyPaidExpense usd_host
      (an_expense 1000 "GBP" gbp_collective "COLLECTIVE" None) (of_Z 1250) (of_Z 1250) None
    = Ok t /\
    Transaction.hostCurrencyFxRate t =n= Fin 0 /\
    Transaction.amount t = NaN /\
    Transaction.netAmountInCollectiveCurrency t = NegInf.
Proof. eexists. split; [reflexivity |]. repeat split; vm_compute; reflexivity. Qed.

(** With amounts that are not whole the sum is rounded: a total of 27.98
    with a fee of 6.42 gives an [amount] and a stored fee that add up to
    -27.980000000000004. *)
Lemma manual_sum_is_rounded :
  exists t,
    createTransactionsForManuallyPaidExpense usd_host
      (an_expense 2798 "USD" usd_collective "COLLECTIVE" None)
      (number_for (642 # 100)) (number_for (2798 # 100)) None = Ok t /\
    ~ net_is_sum t.
Proof.
  eexists. split; [reflexivity |]. intros H. vm_compute in H. discriminate.
Qed.

(** ** The properties at concrete inputs *)

(** An expense in EUR of a USD collective with a USD host, and an expense in
    GBP of a GBP collective with a USD host. *)
Lemma computeExpenseAmounts_fxRates_witness :
  (Expense.collective (an_expense 1000 "EUR" usd_collective "COLLECTIVE" None) = Some usd_collective /\
   exists p,
     computeExpenseAmounts (an_expense 1000 "EUR" usd_collective "COLLECTIVE" None) "USD"
       (Fin (11 # 10)) (some_fees 30 0 0) = Ok p /\
     expenseToHost (Processed.fxRates p) = Fin (11 # 10) /\
     collectiveToHost (Processed.fxRates p) = Fin 1 /\
     expenseToCollective (Processed.fxRates p) = Fin (11 # 10)) /\
  (Collective.currency gbp_collective <> "USD" /\
   exists p,
     computeExpenseAmounts (an_expense 1000 "GBP" gbp_collective "COLLECTIVE" None) "USD"
       (Fin (5 # 4)) (some_fees 125 0 0) = Ok p /\
     expenseToHost (Processed.fxRates p) = Fin (5 # 4) /\
     collectiveToHost (Processed.fxRates p) = Fin (5 # 4) /\
     expenseToCollective (Processed.fxRates p) = Fin 1).
Proof.
  split; (split; [first [reflexivity | discriminate] |]).
  - apply (computeExpenseAmounts_fxRates
             (an_expense 1000 "EUR" usd_collective "COLLECTIVE" None) usd_collective "USD"
             (Fin (11 # 10)) (some_fees 30 0 0) eq_refl).
    reflexivity.
  - apply (computeExpenseAmounts_fxRates
             (an_expense 1000 "GBP" gbp_collective "COLLECTIVE" None) gbp_collective "USD"
             (Fin (5 # 4)) (some_fees 125 0 0) eq_refl);
      [discriminate | reflexivity].
Defined.

(** 5000 EUR of a USD collective at the rate 0.0093, with fees of 25 and 10
    USD: the product of 5000 and 0.0093 is 46.49999999999999 in binary64, so
    the amount is 46 USD and not 47; the fees are 2688 and 1075 EUR.  850 GBP
    of a GBP collective at 1.17: the product is 994.4999999999999, so the
    amount is 994 USD, and a fee of 25 USD is 21 GBP. *)
Lemma computeExpenseAmounts_representations_witness :
  (Expense.collective (an_expense 5000 "EUR" usd_collective "COLLECTIVE" None) = Some usd_collective /\
   Collective.currency usd_collective = "USD" /\
   exists p,
     computeExpenseAmounts (an_expense 5000 "EUR" usd_collective "COLLECTIVE" None) "USD"
       (number_for (93 # 10000)) (some_fees 25 10 0) = Ok p /\
     inHostCurrency (Processed.amount p) = Fin 46 /\
     inCollectiveCurrency (Processed.amount p) = Fin 46 /\
     inExpenseCurrency (Processed.amount p) = Fin 5000 /\
     inHostCurrency (Processed.paymentProcessorFee p) = Fin 25 /\
     inCollectiveCurrency (Processed.paymentProcessorFee p) = Fin 25 /\
     inExpenseCurrency (Processed.paymentProcessorFee p) = Fin 2688 /\
     inExpenseCurrency (Processed.hostFee p) = Fin 1075) /\
  (Expense.collective (an_expense 850 "GBP" gbp_collective "COLLECTIVE" None) = Some gbp_collective /\
   Expense.currency (an_expense 850 "GBP" gbp_collective "COLLECTIVE" None) =
     Collective.currency gbp_collective /\
   exists p,
     computeExpenseAmounts (an_expense 850 "GBP" gbp_collective "COLLECTIVE" None) "USD"
       (number_for (117 # 100)) (some_fees 25 0 0) = Ok p /\
     inHostCurrency (Processed.amount p) = Fin 994 /\
     inCollectiveCurrency (Processed.amount p) = Fin 850 /\
     inCollectiveCurrency (Processed.paymentProcessorFee p) = Fin 21 /\
     inExpenseCurrency (Processed.paymentProcessorFee p) = Fin 21).
Proof.
  split.
  - split; [reflexivity |]. split; [reflexivity |].
    destruct (computeExpenseAmounts_representations
                (an_expense 5000 "EUR" usd_collective "COLLECTIVE" None) usd_collective "USD"
                (number_for (93 # 10000)) (some_fees 25 10 0) eq_refl (or_introl eq_refl))
      as (p & Hp & _ & Hhost & Hcol & Hexp & (Hin & Hfcol & Hfexp) & (_ & _ & Hhexp) & _).
    exists p. split; [exact Hp |].
    rewrite Hhost, Hcol, Hexp, Hfcol, Hfexp, Hhexp, Hin.
    injection Hp as <-. repeat apply conj; vm_compute; reflexivity.
  - split; [reflexivity |]. split; [reflexivity |].
    destruct (computeExpenseAmounts_representations
                (an_expense 850 "GBP" gbp_collective "COLLECTIVE" None) gbp_collective "USD"
                (number_for (117 # 100)) (some_fees 25 0 0) eq_refl (or_intror eq_refl))
      as (p & Hp & _ & Hhost & Hcol & _ & (Hin & Hfcol & Hfexp) & _).
    exists p. split; [exact Hp |].
    rewrite Hhost, Hcol, Hfcol, Hfexp, Hin.
    injection Hp as <-. repeat apply conj; vm_compute; reflexivity.
Defined.

Lemma computeExpenseAmounts_failure_witness :
  Expense.collective (an_expense 1000 "USD" eur_collective "COLLECTIVE" None) = Some eur_collective /\
  (exists e,
     computeExpenseAmounts (an_expense 1000 "USD" eur_collective "COLLECTIVE" None) "USD"
       (Fin 1) (some_fees 0 0 0) = Throw e /\ UnsupportedCurrencyCombination e) /\
  computeExpenseAmounts (an_expense 1000 "GBP" eur_collective "COLLECTIVE" None) "USD"
    (Fin (5 # 4)) (some_fees 0 0 0) = Throw (Error multi_currency_message).
Proof.
  split; [reflexivity |]. split.
  - apply (computeExpenseAmounts_failure
             (an_expense 1000 "USD" eur_collective "COLLECTIVE" None) eur_collective "USD"
             (Fin 1) (some_fees 0 0 0) eq_refl).
    split; discriminate.
  - apply (computeExpenseAmounts_failure
             (an_expense 1000 "GBP" eur_collective "COLLECTIVE" None) eur_collective "USD"
             (Fin (5 # 4)) (some_fees 0 0 0) eq_refl); discriminate.
Defined.

(** 1000 GBP of a GBP collective, paid by a USD host at 1.25 with a
    processor fee of 125 USD: -1000 GBP, -1250 USD, -1100 GBP net.  850 GBP
    at 1.17 with a fee of 25 USD: -850 GBP, -994 USD, -871 GBP net. *)
Lemma createTransactionsFromPaidExpense_debit_witness :
  (exists t,
     createTransactionsFromPaidExpense no_collective unit_rate usd_host
       (an_expense 1000 "GBP" gbp_collective "COLLECTIVE" None) (processor_fee 125)
       (rate (Fin (5 # 4))) None None = Ok t /\
     Expense.feesPayer (an_expense 1000 "GBP" gbp_collective "COLLECTIVE" None) <> "PAYEE" /\
     Transaction.type t = DEBIT /\
     Transaction.kind t = EXPENSE /\
     Transaction.currency t = "GBP" /\
     Transaction.amount t =n= of_Z (-1000) /\
     Transaction.amountInHostCurrency t =n= of_Z (-1250) /\
     Transaction.netAmountInCollectiveCurrency t =n= of_Z (-1100) /\
     Transaction.paymentProcessorFeeInHostCurrency t =n= of_Z (-125) /\
     Transaction.hostCurrencyFxRate t = Fin (5 # 4)) /\
  (exists t,
     createTransactionsFromPaidExpense no_collective unit_rate usd_host
       (an_expense 850 "GBP" gbp_collective "COLLECTIVE" None) (processor_fee 25)
       (rate (number_for (117 # 100))) None None = Ok t /\
     Transaction.amount t =n= of_Z (-850) /\
     Transaction.amountInHostCurrency t =n= of_Z (-994) /\
     Transaction.netAmountInCollectiveCurrency t =n= of_Z (-871) /\
     Transaction.hostCurrencyFxRate t = number_for (117 # 100)).
Proof.
  split.
  - eexists. split; [reflexivity |]. split; [discriminate |].
    destruct (proj1 (createTransactionsFromPaidExpense_debit no_collective unit_rate)
                usd_host (an_expense 1000 "GBP" gbp_collective "COLLECTIVE" None)
                (processor_fee 125) (rate (Fin (5 # 4))) None None _ eq_refl)
      as (r & p & c & Hr & Hp & Hc & Hty & Hk & Hcur & Ha & Hh & Hn & Hf & _ & _ & Hx);
      [discriminate |].
    injection Hr as <-. injection Hp as <-. injection Hc as <-.
    split; [exact Hty |]. split; [exact Hk |]. split; [exact Hcur |].
    split; [rewrite Ha; vm_compute; reflexivity |].
    split; [rewrite Hh; vm_compute; reflexivity |].
    split; [etransitivity; [exact Hn | vm_compute; reflexivity] |].
    split; [rewrite Hf; vm_compute; reflexivity |]. exact Hx.
  - eexists. split; [reflexivity |].
    destruct (proj1 (createTransactionsFromPaidExpense_debit no_collective unit_rate)
                usd_host (an_expense 850 "GBP" gbp_collective "COLLECTIVE" None)
                (processor_fee 25) (rate (number_for (117 # 100))) None None _ eq_refl)
      as (r & p & c & Hr & Hp & Hc & _ & _ & _ & Ha & Hh & Hn & _ & _ & _ & Hx);
      [discriminate |].
    apply Ok_inj in Hr, Hp. subst r p.
    split; [rewrite Ha; vm_compute; reflexivity |].
    split; [rewrite Hh; vm_compute; reflexivity |].
    split; [etransitivity; [exact Hn | vm_compute; reflexivity] |]. exact Hx.
Defined.

(** 10000 USD with one currency throughout, a processor fee of 300 and the
    payee paying the fees: the amount is -10000 + 300 = -9700 and the net
    amount is -10300 + 300 = -10000, which is minus the gross amount and the
    two other fees. *)
Lemma createTransactionsFromPaidExpense_payee_witness :
  exists t t0 p,
    createTransactionsFromPaidExpense no_collective unit_rate usd_host
      (an_expense 10000 "USD" usd_collective "PAYEE" None) (processor_fee 300)
      (rate (Fin 1)) None None = Ok t /\
    Expense.feesPayer (an_expense 10000 "USD" usd_collective "PAYEE" None) = "PAYEE" /\
    createTransactionsFromPaidExpense no_collective unit_rate usd_host
      (an_expense 10000 "USD" usd_collective "COLLECTIVE" None) (processor_fee 300)
      (rate (Fin 1)) None None = Ok t0 /\
    computeExpenseAmounts (an_expense 10000 "USD" usd_collective "PAYEE" None) "USD" (Fin 1)
      (spread_fees DEFAULT_FEES (processor_fee 300)) = Ok p /\
    Transaction.amount t0 =n= of_Z (-10000) /\
    Transaction.netAmountInCollectiveCurrency t0 =n= of_Z (-10300) /\
    Transaction.amount t =n= of_Z (-9700) /\
    Transaction.amountInHostCurrency t =n= of_Z (-9700) /\
    Transaction.netAmountInCollectiveCurrency t =n= of_Z (-10000) /\
    Transaction.data t !! "feesPayer" = Some (JStr "PAYEE") /\
    sums_are_exact p /\
    payee_net_closed_form t p.
Proof.
  eexists.
  destruct (createTransactionsFromPaidExpense_payee no_collective unit_rate
              usd_host (an_expense 10000 "USD" usd_collective "PAYEE" None)
              (processor_fee 300) (rate (Fin 1)) None None _ eq_refl eq_refl)
    as (t0 & r & p & H0 & Hr & Hp & Ha & Hh & Hn & _ & Hd & Hnet).
  exists t0, p. split; [reflexivity |]. split; [reflexivity |]. split; [exact H0 |].
  injection Hr as <-. split; [exact Hp |].
  injection Hp as <-. injection H0 as <-.
  assert (Hexact : sums_are_exact
                     (amounts_for (an_expense 10000 "USD" usd_collective "PAYEE" None)
                        {| expenseToHost := Fin 1; collectiveToHost := Fin 1;
                           expenseToCollective := Fin 1 |}
                        (spread_fees DEFAULT_FEES (processor_fee 300)))).
  { unfold sums_are_exact. repeat apply conj; vm_compute; first [reflexivity | discriminate]. }
  split; [vm_compute; reflexivity |]. split; [vm_compute; reflexivity |].
  split; [rewrite Ha; vm_compute; reflexivity |].
  split; [rewrite Hh; vm_compute; reflexivity |].
  split; [rewrite Hn; vm_compute; reflexivity |].
  split; [exact Hd |]. split; [exact Hexact | exact (Hnet Hexact)].
Defined.

(** 1300 with two lines, at 10 and at 20 percent: the sum of the rates is
    0.30000000000000004 in binary64, the quotient is 1000 and the tax amount
    is -300. *)
Lemma computeExpenseTaxes_spec_witness :
  Expense.tax_lines (an_expense 1300 "USD" usd_collective "COLLECTIVE" (Some [gst; vat])) <> [] /\
  sumBy [gst; vat] Tax.rate = number_for (5404319552844596 # 18014398509481984) /\
  exists v,
    computeExpenseTaxes (an_expense 1300 "USD" usd_collective "COLLECTIVE" (Some [gst; vat]))
      = Some v /\
    v <> NegZero /\ v =n= of_Z (-300).
Proof.
  split; [discriminate |]. split; [vm_compute; reflexivity |].
  destruct (proj1 (proj2 computeExpenseTaxes_spec)
              (an_expense 1300 "USD" usd_collective "COLLECTIVE" (Some [gst; vat])))
    as (v & Hv & Hz & Heq & _); [discriminate |].
  exists v. split; [exact Hv |]. split; [exact Hz |].
  etransitivity; [apply Heq; vm_compute; discriminate | vm_compute; reflexivity].
Defined.

(** A fee of -1 is refused; a total of 10000 with a fee of 300 gives a gross
    amount of -9700 and a net amount of -10000 at rate 1.  5 GBP paid as 21
    USD with a fee of 7 USD by a USD host: the rate is 14 / 5 = 2.8, the
    amount is -5 GBP, and the net amount is -21 / 2.8 = -7.5 in the reals but
    -7.500000000000001 in binary64, so -8 GBP.  300 GBP paid as 1000 USD: the
    rate is 3.33333 and the amount -300 GBP. *)
Lemma createTransactionsForManuallyPaidExpense_spec_witness :
  (exists e,
     createTransactionsForManuallyPaidExpense usd_host
       (an_expense 10000 "USD" usd_collective "COLLECTIVE" None) (of_Z (-1)) (of_Z 10000) None
     = Throw e /\ InvalidArgument e) /\
  (exists t,
     createTransactionsForManuallyPaidExpense usd_host
       (an_expense 10000 "USD" usd_collective "COLLECTIVE" None) (of_Z 300) (of_Z 10000) None
     = Ok t /\
     Transaction.amount t =n= of_Z (-9700) /\
     Transaction.netAmountInCollectiveCurrency t =n= of_Z (-10000) /\
     Transaction.hostCurrencyFxRate t = Fin 1) /\
  (exists t,
     createTransactionsForManuallyPaidExpense usd_host
       (an_expense 5 "GBP" gbp_collective "COLLECTIVE" None) (of_Z 7) (of_Z 21) None
     = Ok t /\
     Transaction.hostCurrencyFxRate t =n= number_for (28 # 10) /\
     Transaction.amount t =n= of_Z (-5) /\
     Transaction.amountInHostCurrency t =n= of_Z (-14) /\
     ndiv (of_Z (-21)) (Transaction.hostCurrencyFxRate t) =n=
       number_for (- (75 # 10) - pow2 (-50)) /\
     Transaction.netAmountInCollectiveCurrency t =n= of_Z (-8)) /\
  (exists t,
     createTransactionsForManuallyPaidExpense usd_host
       (an_expense 300 "GBP" gbp_collective "COLLECTIVE" None) (of_Z 0) (of_Z 1000) None
     = Ok t /\
     Transaction.hostCurrencyFxRate t =n= number_for (333333 # 100000) /\
     Transaction.amount t =n= of_Z (-300) /\
     Transaction.netAmountInCollectiveCurrency t =n= of_Z (-300)).
Proof.
  split; [| split; [| split]].
  - apply (createTransactionsForManuallyPaidExpense_spec usd_host
             (an_expense 10000 "USD" usd_collective "COLLECTIVE" None)
             (of_Z (-1)) (of_Z 10000) None).
    left. reflexivity.
  - destruct (proj2 (createTransactionsForManuallyPaidExpense_spec usd_host
                       (an_expense 10000 "USD" usd_collective "COLLECTIVE" None)
                       (of_Z 300) (of_Z 10000) None) eq_refl eq_refl usd_collective eq_refl)
      as (Hsame & _).
    destruct (Hsame eq_refl) as (t & Ht & Ha & _ & Hn & Hr).
    exists t. split; [exact Ht |].
    split; [rewrite Ha; vm_compute; reflexivity |].
    split; [rewrite Hn; vm_compute; reflexivity | exact Hr].
  - destruct (proj2 (createTransactionsForManuallyPaidExpense_spec usd_host
                       (an_expense 5 "GBP" gbp_collective "COLLECTIVE" None)
                       (of_Z 7) (of_Z 21) None) eq_refl eq_refl gbp_collective eq_refl)
      as (_ & _ & Hconv).
    destruct Hconv as (t & Ht & Hr & Ha & Hn & Hh & _); [discriminate | reflexivity |].
    exists t. split; [exact Ht |].
    assert (Hrate : Transaction.hostCurrencyFxRate t = number_for (28 # 10))
      by (rewrite Hr; vm_compute; reflexivity).
    rewrite Ha, Hn, Hh, Hrate.
    split; [| split; [| split; [| split]]]; vm_compute; reflexivity.
  - destruct (proj2 (createTransactionsForManuallyPaidExpense_spec usd_host
                       (an_expense 300 "GBP" gbp_collective "COLLECTIVE" None)
                       (of_Z 0) (of_Z 1000) None) eq_refl eq_refl gbp_collective eq_refl)
      as (_ & _ & Hconv).
    destruct Hconv as (t & Ht & Hr & Ha & Hn & _); [discriminate | reflexivity |].
    exists t. split; [exact Ht |].
    assert (Hrate : Transaction.hostCurrencyFxRate t = number_for (333333 # 100000))
      by (rewrite Hr; vm_compute; reflexivity).
    rewrite Ha, Hn, Hrate. split; [| split]; vm_compute; reflexivity.
Defined.

(** 1000 GBP of a GBP collective at the rate 0.4 with a fee of 25 USD: the
    fee is 63 GBP, which is 25.200000000000003 USD again; the distance is
    more than half of the rate and less than one minor unit. *)
Lemma computeExpenseAmounts_fee_agreement_witness :
  exists p,
    computeExpenseAmounts (an_expense 1000 "GBP" gbp_collective "COLLECTIVE" None) "USD"
      (number_for (4 # 10)) (some_fees 25 50 0) = Ok p /\
    finite (number_for (4 # 10)) = true /\
    ngt (number_for (4 # 10)) (Fin 0) = true /\
    nle (number_for (4 # 10)) (Fin 1) = true /\
    inCollectiveCurrency (Processed.paymentProcessorFee p) = Fin 63 /\
    value (number_for (4 # 10)) / 2 <
      distance (of_Z 25) (inCollectiveCurrency (Processed.paymentProcessorFee p))
        (number_for (4 # 10)) /\
    agree_within_rounding (Processed.fxRates p) (Processed.paymentProcessorFee p) /\
    agree_within_unit (Processed.fxRates p) (Processed.paymentProcessorFee p) /\
    agree_within_unit (Processed.fxRates p) (Processed.hostFee p).
Proof.
  eexists. split; [reflexivity |].
  split; [vm_compute; reflexivity |]. split; [vm_compute; reflexivity |].
  split; [vm_compute; reflexivity |].
  split; [vm_compute; reflexivity |]. split; [vm_compute; reflexivity |].
  destruct (computeExpenseAmounts_fee_agreement
              (an_expense 1000 "GBP" gbp_collective "COLLECTIVE" None) "USD"
              (number_for (4 # 10)) (some_fees 25 50 0) _ eq_refl
              ltac:(vm_compute; reflexivity) ltac:(vm_compute; reflexivity)
              eq_refl eq_refl eq_refl)
    as ((Hp & _ & _) & Hone).
  split; [exact Hp |].
  destruct Hone as (Hp1 & Hh1 & _);
    [vm_compute; reflexivity | vm_compute; discriminate ..|].
  split; [exact Hp1 | exact Hh1].
Defined.


(** A caller who passes other keys only. *)
Lemma createTransactionsForManuallyPaidExpense_data_witness :
  exists t,
    createTransactionsForManuallyPaidExpense usd_host
      (an_expense 1200 "USD" usd_collective "COLLECTIVE" (Some [vat]))
      (of_Z 0) (of_Z 1200) (Some {[ "note" := JStr "paid by cheque" ]}) = Ok t /\
    is_marked_manual t /\
    is_Some (Transaction.data t !! "tax") /\
    Transaction.data t !! "note" = Some (JStr "paid by cheque").
Proof.
  eexists. split; [reflexivity |].
  destruct (createTransactionsForManuallyPaidExpense_data usd_host
              (an_expense 1200 "USD" usd_collective "COLLECTIVE" (Some [vat]))
              (of_Z 0) (of_Z 1200) (Some {[ "note" := JStr "paid by cheque" ]}) _ eq_refl)
    as (Hmanual & _ & Htax & Hkeep).
  split; [apply Hmanual; reflexivity |]. split.
  - destruct Htax as [Hsome ->]; [discriminate | exact Hsome].
  - rewrite Hkeep by discriminate. reflexivity.
Defined.

(** * Further properties of the amounts *)

(** X1.  The three rates returned by [computeExpenseAmounts] are consistent:
    [expenseToHost] is [expenseToCollective * collectiveToHost], whatever the
    rate given. *)
Theorem computeExpenseAmounts_rates_consistent (expense : Expense.t) (hostCurrency : string)
    (expenseToHostFxRate : number) (fees : Fees.t) (p : Processed.t) :
  computeExpenseAmounts expense hostCurrency expenseToHostFxRate fees = Ok p ->
  is_number expenseToHostFxRate ->
  expenseToHost (Processed.fxRates p) =n=
  nmul (expenseToCollective (Processed.fxRates p)) (collectiveToHost (Processed.fxRates p)).
Proof.
  intros H Hn.
  destruct (computeExpenseAmounts_Ok _ _ _ _ _ H) as (_ & -> & c & _ & Hfx).
  destruct Hfx as [(_ & -> & ->) | (_ & _ & -> & ->)]; symmetry.
  - apply nmul_one_r, Hn.
  - apply nmul_one_l, Hn.
Qed.

Lemma num_eq_zero_represents (x : number) : x =n= Fin 0 -> x ~> 0.
Proof. destruct x; cbn; try contradiction; intros H; split; try reflexivity; exact H. Qed.

(** Multiplying or dividing an integer by 1 and rounding gives it back. *)
Lemma round_mul_one (x : number) : is_integer x -> Math_round (nmul x (Fin 1)) =n= x.
Proof.
  intros H. destruct (is_integer_bounded _ H) as (z & Hz & Hd).
  apply (represents_num_eq _ _ (inject_Z z) (inject_Z z)); [| exact Hz | reflexivity].
  apply represents_Math_round_integer.
  eapply represents_eq;
    [apply (represents_nmul _ _ _ _ Hz (represents_Fin 1));
     apply (is_double_comp (inject_Z z)); [ring | exact Hd] |].
  ring.
Qed.

Lemma round_div_one (x : number) : is_integer x -> Math_round (ndiv x (Fin 1)) =n= x.
Proof.
  intros H. destruct (is_integer_bounded _ H) as (z & Hz & Hd).
  apply (represents_num_eq _ _ (inject_Z z) (inject_Z z)); [| exact Hz | reflexivity].
  apply represents_Math_round_integer.
  eapply represents_eq;
    [apply (represents_ndiv _ _ _ _ Hz (represents_Fin 1)); [lra |];
     apply (is_double_comp (inject_Z z)); [field | exact Hd] |].
  field.
Qed.

(** X2.  Two representations in one currency agree, for integer amounts.
    When the collective has the currency of the host, the gross amount and
    every fee are the same in the collective and in the host currency; when
    it has not, the expense has the currency of the collective and they are
    the same in the expense and in the collective currency. *)
Theorem computeExpenseAmounts_same_currency (expense : Expense.t) (c : Collective.t)
    (hostCurrency : string) (expenseToHostFxRate : number) (fees : Fees.t) (p : Processed.t) :
  computeExpenseAmounts expense hostCurrency expenseToHostFxRate fees = Ok p ->
  Expense.collective expense = Some c ->
  is_integer (Expense.amount expense) ->
  is_integer (Fees.paymentProcessorFeeInHostCurrency fees) ->
  is_integer (Fees.hostFeeInHostCurrency fees) ->
  is_integer (Fees.platformFeeInHostCurrency fees) ->
  (Collective.currency c = hostCurrency ->
   inCollectiveCurrency (Processed.amount p) = inHostCurrency (Processed.amount p) /\
   inCollectiveCurrency (Processed.paymentProcessorFee p) =n=
     inHostCurrency (Processed.paymentProcessorFee p) /\
   inCollectiveCurrency (Processed.hostFee p) =n= inHostCurrency (Processed.hostFee p) /\
   inCollectiveCurrency (Processed.platformFee p) =n= inHostCurrency (Processed.platformFee p)) /\
  (Collective.currency c <> hostCurrency ->
   Expense.currency expense = Collective.currency c /\
   inCollectiveCurrency (Processed.amount p) =n= inExpenseCurrency (Processed.amount p) /\
   inCollectiveCurrency (Processed.paymentProcessorFee p) =
     inExpenseCurrency (Processed.paymentProcessorFee p) /\
   inCollectiveCurrency (Processed.hostFee p) = inExpenseCurrency (Processed.hostFee p) /\
   inCollectiveCurrency (Processed.platformFee p) = inExpenseCurrency (Processed.platformFee p)).
Proof.
  intros H Hc Ia Ip Ih If.
  destruct (computeExpenseAmounts_Ok _ _ _ _ _ H) as (Hshape & Hrate & c' & Hc' & Hfx).
  assert (c' = c) as -> by congruence.
  rewrite Hshape. cbn [amounts_for fee_amounts Processed.amount Processed.paymentProcessorFee
    Processed.hostFee Processed.platformFee inHostCurrency inCollectiveCurrency
    inExpenseCurrency Processed.fxRates].
  split; intros E.
  - destruct Hfx as [(_ & Hone & Hec) | (Hne & _)]; [| contradiction].
    rewrite Hone, Hec, Hrate.
    split; [reflexivity |].
    split; [apply round_div_one; assumption |].
    split; apply round_div_one; assumption.
  - destruct Hfx as [(Heq & _) | (_ & Hcur & Hch & Hec)]; [contradiction |].
    rewrite Hch, Hec, Hrate.
    split; [exact Hcur |]. split; [apply round_mul_one; assumption |].
    split; [reflexivity |]. split; reflexivity.
Qed.

(** X3.  Without fees the net amount is the amount: when the three fees are
    0 (as they are when none is given), the amount is finite and the rate is
    finite and not 0, [netAmountInCollectiveCurrency] equals [amount] and
    the stored fees are 0, whoever pays the fees. *)
Theorem createTransactionsFromPaidExpense_no_fees (findByPk : Z -> option Collective.t)
    (getFxRate : string -> string -> result number) (host : Host.t) (expense : Expense.t)
    (fees : FEES_IN_HOST_CURRENCY.t) (config : FxRateConfig) (transactionData : option object)
    (paymentMethod : option PaymentMethod.t) (t : Transaction.t) (r : number) :
  createTransactionsFromPaidExpense findByPk getFxRate host expense fees config
    transactionData paymentMethod = Ok t ->
  resolve_fx_rate getFxRate host (load_collective findByPk expense) config = Ok r ->
  finite r = true -> is_zero r = false ->
  finite (Expense.amount expense) = true ->
  Fees.paymentProcessorFeeInHostCurrency (spread_fees DEFAULT_FEES fees) =n= Fin 0 ->
  Fees.hostFeeInHostCurrency (spread_fees DEFAULT_FEES fees) =n= Fin 0 ->
  Fees.platformFeeInHostCurrency (spread_fees DEFAULT_FEES fees) =n= Fin 0 ->
  Transaction.netAmountInCollectiveCurrency t =n= Transaction.amount t /\
  Transaction.paymentProcessorFeeInHostCurrency t =n= Fin 0 /\
  Transaction.hostFeeInHostCurrency t =n= Fin 0 /\
  Transaction.platformFeeInHostCurrency t =n= Fin 0.
Proof.
  intros H Hr Fr Zr Fa Zp Zh Zf.
  apply createTransactionsFromPaidExpense_Ok in H as (r' & p & c & Hr' & Hp & Hc & Ht).
  cbv zeta in Ht. assert (r' = r) as -> by congruence. clear Hr'.
  apply num_eq_zero_represents in Zp, Zh, Zf.
  pose proof (represents_value _ Fr) as Rr.
  assert (Hq : ~ value r == 0).
  { intros E. apply (represents_is_zero _ _ Rr) in E. congruence. }
  destruct (computeExpenseAmounts_Ok _ _ _ _ _ Hp) as (Hshape & Hrate & c' & _ & Hfx).
  set (merged := spread_fees DEFAULT_FEES fees) in *.
  set (loaded := load_collective findByPk expense) in *.
  assert (Hk : exists k, collectiveToHost (Processed.fxRates p) ~> k /\ ~ k == 0).
  { destruct Hfx as [(_ & -> & _) | (_ & _ & -> & _)];
      [exists 1; split; [apply represents_Fin | lra] | exists (value r); split; assumption]. }
  destruct Hk as (k & Rk & Nk).
  assert (Zero : forall fee, fee ~> 0 ->
            Math_round (ndiv fee (collectiveToHost (Processed.fxRates p))) ~> 0).
  { intros fee Hfee. apply (represents_Math_round_integer _ 0%Z).
    eapply represents_eq;
      [apply (represents_ndiv _ _ _ _ Hfee Rk Nk);
       apply (is_double_comp 0); [field; exact Nk | apply is_double_0] |].
    change (inject_Z 0) with 0. field. exact Nk. }
  pose proof (Zero _ Zp) as Rpc. pose proof (Zero _ Zh) as Rhc. pose proof (Zero _ Zf) as Rfc.
  assert (Hfields : forall x, x ~> 0 -> toNegative x =n= Fin 0).
  { intros x Hx. unfold toNegative.
    apply (represents_num_eq _ _ (- 0) 0);
      [apply represents_nneg, Hx | apply represents_Fin | ring]. }
  set (g := Math_round (nmul (Expense.amount loaded) (expenseToCollective (Processed.fxRates p)))).
  assert (Hg : is_number g) by apply Math_round_is_number, nmul_is_number.
  assert (Hnet : nmul (Fin (-1))
                   (nadd (nadd (nadd g
                      (Math_round (ndiv (Fees.paymentProcessorFeeInHostCurrency merged)
                                        (collectiveToHost (Processed.fxRates p)))))
                      (Math_round (ndiv (Fees.hostFeeInHostCurrency merged)
                                        (collectiveToHost (Processed.fxRates p)))))
                      (Math_round (ndiv (Fees.platformFeeInHostCurrency merged)
                                        (collectiveToHost (Processed.fxRates p)))))
                 =n= nneg g).
  { etransitivity; [apply nmul_minus_one, nadd_is_number |].
    apply nneg_num_eq.
    etransitivity; [apply nadd_zero_r; [apply nadd_is_number | exact Rfc] |].
    etransitivity; [apply nadd_zero_r; [apply nadd_is_number | exact Rhc] |].
    apply nadd_zero_r; assumption. }
  rewrite Ht, Hshape.
  destruct (String.eqb (Expense.feesPayer expense) "PAYEE");
    cbn [Transaction.update debit_transaction Transaction.netAmountInCollectiveCurrency
      Transaction.amount Transaction.paymentProcessorFeeInHostCurrency
      Transaction.hostFeeInHostCurrency Transaction.platformFeeInHostCurrency
      amounts_for fee_amounts Processed.amount Processed.paymentProcessorFee Processed.hostFee
      Processed.platformFee inCollectiveCurrency inHostCurrency Processed.fxRates];
    fold g.
  - split.
    + etransitivity; [apply nadd_zero_r; [apply nmul_is_number | exact Rpc] |].
      etransitivity; [exact Hnet |]. symmetry.
      apply nadd_zero_r; [apply nneg_is_number, Hg | exact Rpc].
    + split; [apply Hfields, Zp |]. split; [apply Hfields, Zh | apply Hfields, Zf].
  - split; [exact Hnet |].
    split; [apply Hfields, Zp |]. split; [apply Hfields, Zh | apply Hfields, Zf].
Qed.

Lemma ndiv_by_zero_not_finite (x y : number) : is_zero y = true -> finite (ndiv x y) = false.
Proof.
  intros H. destruct y; try discriminate; cbn in H.
  - destruct x; unfold ndiv; cbn [is_zero]; rewrite ?H; try reflexivity;
      try (destruct (xorb _ _); reflexivity).
    destruct (Qeq_bool q0 0); [reflexivity | destruct (xorb _ _); reflexivity].
  - destruct x; unfold ndiv; cbn [is_zero]; try reflexivity;
      try (destruct (xorb _ _); reflexivity).
    destruct (Qeq_bool q 0); [reflexivity | destruct (xorb _ _); reflexivity].
Qed.

Lemma Math_round_not_finite (x : number) : finite x = false -> finite (Math_round x) = false.
Proof. destruct x; try discriminate; intros _; reflexivity. Qed.

Lemma nadd_not_finite_r (x y : number) : finite y = false -> finite (nadd x y) = false.
Proof. destruct x, y; try discriminate; intros _; reflexivity. Qed.

Lemma nadd_not_finite_l (x y : number) : finite x = false -> finite (nadd x y) = false.
Proof. destruct x, y; try discriminate; intros _; reflexivity. Qed.

Lemma nmul_minus_one_not_finite (x : number) :
  finite x = false -> finite (nmul (Fin (-1)) x) = false.
Proof. destruct x; try discriminate; intros _; reflexivity. Qed.

(** X4.  A rate of 0 is not refused.  With a collective in another currency
    than the host the call goes through and the submitted
    [netAmountInCollectiveCurrency] is not a finite number (every fee has
    been divided by 0). *)
Theorem createTransactionsFromPaidExpense_zero_rate (findByPk : Z -> option Collective.t)
    (getFxRate : string -> string -> result number) (host : Host.t) (expense : Expense.t)
    (fees : FEES_IN_HOST_CURRENCY.t) (config : FxRateConfig) (transactionData : option object)
    (paymentMethod : option PaymentMethod.t) (r : number) (c : Collective.t) :
  resolve_fx_rate getFxRate host (load_collective findByPk expense) config = Ok r ->
  is_zero r = true ->
  Expense.collective (load_collective findByPk expense) = Some c ->
  Collective.currency c <> Host.currency host ->
  Expense.currency expense = Collective.currency c ->
  exists t,
    createTransactionsFromPaidExpense findByPk getFxRate host expense fees config
      transactionData paymentMethod = Ok t /\
    Transaction.hostCurrencyFxRate t = r /\
    finite (Transaction.netAmountInCollectiveCurrency t) = false.
Proof.
  intros Hr Zr Hc Hne Hcur.
  unfold createTransactionsFromPaidExpense. rewrite Hr. cbn [mbind result_bind].
  rewrite (computeExpenseAmounts_same_as_collective _ c) by assumption.
  cbn [mbind result_bind]. rewrite (the_collective_Some _ c) by exact Hc.
  cbn [mbind result_bind].
  assert (Hnet : finite (Transaction.netAmountInCollectiveCurrency
                   (debit_transaction host (load_collective findByPk expense) c
                      (spread_fees DEFAULT_FEES fees) r
                      (amounts_for (load_collective findByPk expense)
                         {| expenseToHost := r; collectiveToHost := r;
                            expenseToCollective := Fin 1 |}
                         (spread_fees DEFAULT_FEES fees)) transactionData paymentMethod))
                 = false).
  { cbn [debit_transaction Transaction.netAmountInCollectiveCurrency amounts_for fee_amounts
      Processed.platformFee inCollectiveCurrency collectiveToHost].
    apply nmul_minus_one_not_finite, nadd_not_finite_r, Math_round_not_finite,
      ndiv_by_zero_not_finite, Zr. }
  destruct (String.eqb (Expense.feesPayer (load_collective findByPk expense)) "PAYEE").
  - eexists. split; [reflexivity |]. split; [reflexivity |].
    cbn [Transaction.update Transaction.netAmountInCollectiveCurrency].
    apply nadd_not_finite_l, Hnet.
  - eexists. split; [reflexivity |]. split; [reflexivity | exact Hnet].
Qed.
(** * Further properties of the builder for paid expenses *)

(** X5.  The rate lookup.  With ['auto'] a failed lookup fails the call with
    the exception of the lookup, whatever the currencies, and a lookup that
    answers [r] gives what the explicit rate [r] gives; with an explicit rate
    the lookup plays no part. *)
Theorem createTransactionsFromPaidExpense_rate_lookup (findByPk : Z -> option Collective.t)
    (getFxRate : string -> string -> result number) (host : Host.t) (expense : Expense.t)
    (fees : FEES_IN_HOST_CURRENCY.t) (transactionData : option object)
    (paymentMethod : option PaymentMethod.t) :
  (forall e, getFxRate (Expense.currency expense) (Host.currency host) = Throw e ->
     createTransactionsFromPaidExpense findByPk getFxRate host expense fees auto
       transactionData paymentMethod = Throw e) /\
  (forall r, getFxRate (Expense.currency expense) (Host.currency host) = Ok r ->
     createTransactionsFromPaidExpense findByPk getFxRate host expense fees auto
       transactionData paymentMethod =
     createTransactionsFromPaidExpense findByPk getFxRate host expense fees (rate r)
       transactionData paymentMethod) /\
  (forall r (otherFxRate : string -> string -> result number),
     createTransactionsFromPaidExpense findByPk getFxRate host expense fees (rate r)
       transactionData paymentMethod =
     createTransactionsFromPaidExpense findByPk otherFxRate host expense fees (rate r)
       transactionData paymentMethod).
Proof.
  split; [| split].
  - intros e H. unfold createTransactionsFromPaidExpense, resolve_fx_rate.
    change (Expense.currency (load_collective findByPk expense)) with (Expense.currency expense).
    rewrite H. reflexivity.
  - intros r H. unfold createTransactionsFromPaidExpense, resolve_fx_rate.
    change (Expense.currency (load_collective findByPk expense)) with (Expense.currency expense).
    rewrite H. reflexivity.
  - intros r other. reflexivity.
Qed.

(** X6.  Loading the collective.  A collective that is already on the
    expense is used as it is and [findByPk] plays no part; a missing one is
    looked up by [expense.CollectiveId], and the call then gives what it
    gives for the expense with that collective; when the lookup finds
    nothing the call never succeeds. *)
Theorem createTransactionsFromPaidExpense_collective (findByPk : Z -> option Collective.t)
    (getFxRate : string -> string -> result number) (host : Host.t) (expense : Expense.t)
    (fees : FEES_IN_HOST_CURRENCY.t) (config : FxRateConfig) (transactionData : option object)
    (paymentMethod : option PaymentMethod.t) :
  (forall c (otherFindByPk : Z -> option Collective.t),
     Expense.collective expense = Some c ->
     createTransactionsFromPaidExpense findByPk getFxRate host expense fees config
       transactionData paymentMethod =
     createTransactionsFromPaidExpense otherFindByPk getFxRate host expense fees config
       transactionData paymentMethod) /\
  (forall c,
     Expense.collective expense = None ->
     findByPk (Expense.CollectiveId expense) = Some c ->
     createTransactionsFromPaidExpense findByPk getFxRate host expense fees config
       transactionData paymentMethod =
     createTransactionsFromPaidExpense findByPk getFxRate host
       (Expense.set_collective expense (Some c)) fees config transactionData paymentMethod) /\
  (Expense.collective expense = None ->
   findByPk (Expense.CollectiveId expense) = None ->
   forall t,
     createTransactionsFromPaidExpense findByPk getFxRate host expense fees config
       transactionData paymentMethod <> Ok t).
Proof.
  split; [| split].
  - intros c other Hc. unfold createTransactionsFromPaidExpense, load_collective.
    rewrite Hc. reflexivity.
  - intros c Hnone Hfound. unfold createTransactionsFromPaidExpense, load_collective.
    cbn [Expense.set_collective Expense.collective Expense.CollectiveId].
    rewrite Hnone, Hfound. reflexivity.
  - intros Hnone Hmiss t H.
    apply createTransactionsFromPaidExpense_Ok in H as (r & p & c & _ & _ & Hc & _).
    unfold load_collective in Hc. cbn in Hc. rewrite Hnone, Hmiss in Hc. discriminate.
Qed.

(** How [data] is looked up in the debit: the rate and the tax entry first,
    then what the caller gave. *)
Lemma debit_transaction_data_lookup (host : Host.t) (expense : Expense.t) (c : Collective.t)
    (fees : Fees.t) (r : number) (p : Processed.t) (transactionData : option object)
    (paymentMethod : option PaymentMethod.t) (k : string) :
  Transaction.data (debit_transaction host expense c fees r p transactionData paymentMethod) !! k =
  match tax_data expense !! k with
  | Some v => Some v
  | None =>
      if String.eqb k "expenseToHostFxRate" then Some (JNum r)
      else default ∅ transactionData !! k
  end.
Proof.
  cbn [debit_transaction Transaction.data]. unfold spread.
  rewrite !lookup_union.
  destruct (String.eqb k "expenseToHostFxRate") eqn:E.
  - apply String.eqb_eq in E. subst k. rewrite lookup_singleton_eq.
    destruct (tax_data expense !! "expenseToHostFxRate"),
      (default ∅ transactionData !! "expenseToHostFxRate"); reflexivity.
  - apply String.eqb_neq in E. rewrite lookup_singleton_ne by congruence.
    destruct (tax_data expense !! k), (default ∅ transactionData !! k); reflexivity.
Qed.

Lemma tax_data_load_collective (findByPk : Z -> option Collective.t) (expense : Expense.t) :
  tax_data (load_collective findByPk expense) = tax_data expense.
Proof. reflexivity. Qed.

(** X7.  The [data] of the record of the builder for paid expenses:
    [expenseToHostFxRate] is the rate used, also when the caller's data has
    that key; [feesPayer] is ['PAYEE'] when the payee pays the fees and the
    caller's value otherwise; [tax] is the tax entry when the expense has tax
    lines; every other key is the caller's. *)
Theorem createTransactionsFromPaidExpense_data (findByPk : Z -> option Collective.t)
    (getFxRate : string -> string -> result number) (host : Host.t) (expense : Expense.t)
    (fees : FEES_IN_HOST_CURRENCY.t) (config : FxRateConfig) (transactionData : option object)
    (paymentMethod : option PaymentMethod.t) (t : Transaction.t) :
  createTransactionsFromPaidExpense findByPk getFxRate host expense fees config
    transactionData paymentMethod = Ok t ->
  (exists r,
     resolve_fx_rate getFxRate host (load_collective findByPk expense) config = Ok r /\
     Transaction.data t !! "expenseToHostFxRate" = Some (JNum r)) /\
  (Expense.feesPayer expense = "PAYEE" ->
   Transaction.data t !! "feesPayer" = Some (JStr "PAYEE")) /\
  (Expense.feesPayer expense <> "PAYEE" ->
   Transaction.data t !! "feesPayer" = default ∅ transactionData !! "feesPayer") /\
  (Expense.tax_lines expense <> [] ->
   is_Some (tax_data expense !! "tax") /\
   Transaction.data t !! "tax" = tax_data expense !! "tax") /\
  (Expense.tax_lines expense = [] ->
   Transaction.data t !! "tax" = default ∅ transactionData !! "tax") /\
  (forall k, k <> "tax" -> k <> "feesPayer" -> k <> "expenseToHostFxRate" ->
             Transaction.data t !! k = default ∅ transactionData !! k).
Proof.
  intros H.
  apply createTransactionsFromPaidExpense_Ok in H as (r & p & c & Hr & _ & _ & Ht).
  cbv zeta in Ht.
  set (base := debit_transaction host (load_collective findByPk expense) c
                 (spread_fees DEFAULT_FEES fees) r p transactionData paymentMethod) in *.
  assert (Hbase : forall k,
    Transaction.data base !! k =
    match tax_data expense !! k with
    | Some v => Some v
    | None => if String.eqb k "expenseToHostFxRate" then Some (JNum r)
              else default ∅ transactionData !! k
    end).
  { intros k. unfold base. rewrite debit_transaction_data_lookup, tax_data_load_collective.
    reflexivity. }
  assert (Hother : forall k, k <> "feesPayer" ->
            Transaction.data t !! k = Transaction.data base !! k).
  { intros k Hk. rewrite Ht.
    destruct (String.eqb (Expense.feesPayer expense) "PAYEE"); [| reflexivity].
    cbn [Transaction.update Transaction.data]. unfold set.
    apply lookup_insert_ne. congruence. }
  split; [| split; [| split; [| split; [| split]]]].
  - exists r. split; [exact Hr |].
    rewrite Hother, Hbase, tax_data_lookup_ne by discriminate. reflexivity.
  - intros Hpayee. rewrite Ht, Hpayee. cbn. unfold set. apply lookup_insert_eq.
  - intros Hpayee. apply String.eqb_neq in Hpayee. rewrite Ht, Hpayee.
    rewrite Hbase, tax_data_lookup_ne by discriminate. reflexivity.
  - intros Htax. pose proof (tax_data_lookup_tax _ Htax) as Hsome.
    split; [exact Hsome |]. rewrite Hother, Hbase by discriminate.
    destruct Hsome as [v ->]. reflexivity.
  - intros Htax. rewrite Hother, Hbase by discriminate.
    unfold tax_data. rewrite Htax. rewrite lookup_empty. reflexivity.
  - intros k K1 K2 K3. rewrite Hother, Hbase, tax_data_lookup_ne by assumption.
    apply String.eqb_neq in K3. rewrite K3. reflexivity.
Qed.

(** * Further properties of the taxes *)

(** A sum of rates that are finite and not negative is finite and not
    negative, or Infinity. *)
Lemma sumBy_not_negative (taxes : list Tax.t) :
  Forall (fun tax => finite (Tax.rate tax) = true /\ nge (Tax.rate tax) (Fin 0) = true) taxes ->
  not_negative (sumBy taxes Tax.rate).
Proof.
  assert (Hrate : forall tax : Tax.t,
             finite (Tax.rate tax) = true /\ nge (Tax.rate tax) (Fin 0) = true ->
             finite (Tax.rate tax) = true /\ 0 <= value (Tax.rate tax)).
  { intros tax [Hf Hp]. split; [exact Hf |].
    apply (represents_nle _ _ _ _ (represents_Fin 0) (represents_value _ Hf)). exact Hp. }
  intros H. destruct taxes as [| tax rest]; [right; split; [reflexivity | cbn; lra] |].
  cbn [sumBy]. inversion H as [| ? ? H0 Hrest]; subst.
  assert (Hacc : not_negative (Tax.rate tax)) by (right; apply Hrate, H0).
  revert Hacc. generalize (Tax.rate tax) as acc. clear H H0.
  induction Hrest as [| y rest Hy _ IH]; intros acc Hacc; [exact Hacc |].
  cbn [fold_left]. apply IH. apply Hrate in Hy. destruct Hy as [Fy Vy].
  apply nadd_not_negative; assumption.
Qed.

(** X8.  The tax withheld is an integer between minus the amount and 0:
    for an integer amount that is not negative and tax lines whose rates are
    finite and not negative, [computeExpenseTaxes] returns a finite integer
    [v] with [-amount <= v <= 0]. *)
Theorem computeExpenseTaxes_bounds (expense : Expense.t) :
  Expense.tax_lines expense <> [] ->
  is_integer (Expense.amount expense) ->
  nge (Expense.amount expense) (Fin 0) = true ->
  Forall (fun tax => finite (Tax.rate tax) = true /\ nge (Tax.rate tax) (Fin 0) = true)
         (Expense.tax_lines expense) ->
  exists v, computeExpenseTaxes expense = Some v /\
    is_integer v /\
    nle (nneg (Expense.amount expense)) v = true /\
    nle v (Fin 0) = true.
Proof.
  intros Hne Ia Pa Hrates.
  destruct (is_integer_bounded _ Ia) as (z & Ra & Da).
  apply (represents_nle _ _ _ _ (represents_Fin 0) Ra) in Pa.
  pose proof (sumBy_not_negative _ Hrates) as Hs.
  unfold computeExpenseTaxes.
  destruct (Expense.tax_lines expense) as [| tax rest] eqn:E; [contradiction |].
  eexists. split; [reflexivity |].
  set (a := inject_Z z) in *.
  set (s := sumBy (tax :: rest) Tax.rate) in *.
  (* the amount without taxes is between 0 and the amount *)
  assert (Hw : exists w, ndiv (Expense.amount expense) (nadd (Fin 1) s) ~> w /\ 0 <= w /\ w <= a).
  { assert (Hd : not_negative (nadd (Fin 1) s) /\
                 (finite (nadd (Fin 1) s) = true -> 1 <= value (nadd (Fin 1) s))).
    { destruct Hs as [-> | [Fs Vs]]; [split; [left; reflexivity | discriminate] |].
      pose proof (nadd_finite (Fin 1) s eq_refl Fs) as Eq. cbn [value] in Eq.
      split.
      - apply (not_negative_num_eq _ _ Eq), number_for_not_negative. lra.
      - intros Fd. rewrite (num_eq_finite _ _ Eq) in Fd.
        apply number_for_finite in Fd.
        apply (represents_num_eq_l _ _ _ Eq) in Fd. destruct Fd as [_ ->].
        assert (H1 : nearest 1 == 1) by (apply (nearest_Z 1); vm_compute; discriminate).
        rewrite <- H1. apply nearest_mono. lra. }
    destruct Hd as [[Ed | [Fd Vd]] Hone].
    - rewrite Ed. exists 0. split; [| lra].
      destruct Ra as [Fa _]. destruct (Expense.amount expense); try discriminate;
        apply (represents_zero (xorb _ false)).
    - specialize (Hone Fd).
      assert (Zd : is_zero (nadd (Fin 1) s) = false).
      { destruct (is_zero (nadd (Fin 1) s)) eqn:Ez; [| reflexivity].
        apply (represents_is_zero _ _ (represents_value _ Fd)) in Ez. lra. }
      pose proof (ndiv_finite _ _ (proj1 Ra) Fd Zd) as Eq.
      destruct Ra as [Fa Va].
      set (d := value (nadd (Fin 1) s)) in *.
      rewrite (number_for_comp _ (inject_Z z / d)) in Eq by (rewrite Va; reflexivity).
      assert (Hq : 0 <= inject_Z z / d /\ inject_Z z / d <= a).
      { fold a. split.
        - apply Qle_shift_div_l; lra.
        - apply Qle_shift_div_r; [lra |].
          assert (0 <= a * (d - 1)) by (apply Qmult_le_0_compat; lra). lra. }
      destruct (number_for_between (inject_Z z / d) 0 a is_double_0 Da (proj1 Hq) (proj2 Hq))
        as (w & Rw & Hw).
      exists w. split; [| exact Hw].
      apply (represents_num_eq_l _ _ _ Eq Rw). }
  destruct Hw as (w & Rw & W0 & Wa).
  (* and so is the difference *)
  assert (Ht : exists t, nsub (Expense.amount expense)
                           (ndiv (Expense.amount expense) (nadd (Fin 1) s)) ~> t /\
                         0 <= t /\ t <= a).
  { unfold nsub.
    pose proof (represents_nneg _ _ Rw) as Rn.
    pose proof (nadd_finite _ _ (proj1 Ra) (proj1 Rn)) as Eq.
    destruct Ra as [Fa Va]. destruct Rn as [Fn Vn].
    rewrite (number_for_comp _ (inject_Z z + - w)) in Eq by (rewrite Va, Vn; reflexivity).
    destruct (number_for_between (inject_Z z + - w) 0 a is_double_0 Da) as (t & Rt & Ht);
      [fold a; lra | fold a; lra |].
    exists t. split; [| exact Ht]. apply (represents_num_eq_l _ _ _ Eq Rt). }
  destruct Ht as (t & Rt & T0 & Ta).
  pose proof (represents_Math_round _ _ Rt) as Rk.
  set (k := Qfloor (t + (1 # 2))) in *.
  assert (Hk : (0 <= k)%Z /\ (k <= z)%Z).
  { split.
    - change 0%Z with (Qfloor 0). apply Qfloor_resp_le. lra.
    - rewrite <- (Qfloor_half z). apply Qfloor_resp_le. fold a. lra. }
  destruct Hk as [K0 Kz].
  assert (Dk : is_double (inject_Z k)).
  { apply (is_double_comp _ _ (proj2 Rk)).
    apply is_number_value, Math_round_is_number, nsub_is_number. }
  rewrite Zle_Qle in K0, Kz. change (inject_Z 0) with 0 in K0. fold a in Kz.
  pose proof (represents_nneg _ _ Rk) as Rv.
  set (computed := nneg (Math_round (nsub (Expense.amount expense)
                     (ndiv (Expense.amount expense) (nadd (Fin 1) s))))) in *.
  assert (Hv : nor computed (Fin 0) ~> - inject_Z k).
  { apply (represents_num_eq_l _ computed); [| exact Rv].
    apply nor_zero_spec. intros HN. destruct Rv as [Hf _]. rewrite HN in Hf. discriminate. }
  split; [| split].
  - split; [| split; [apply Hv |]].
    + destruct Hv as [Fv Vv]. destruct (nor computed (Fin 0)); try exact I.
      cbn [value] in Vv. cbn [is_number].
      apply (is_double_comp (- inject_Z k)); [symmetry; exact Vv | apply is_double_opp, Dk].
    + exists (- k)%Z. rewrite inject_Z_opp. apply Hv.
  - apply (represents_nle _ _ _ _ (represents_nneg _ _ Ra) Hv). lra.
  - apply (represents_nle _ _ _ _ Hv (represents_Fin 0)). lra.
Qed.
(** * Further properties of the builder for manually paid expenses *)

(** The manual builder on a host and a collective with one currency. *)
Lemma createTransactionsForManuallyPaidExpense_same (host : Host.t) (expense : Expense.t)
    (c : Collective.t) (fee total : number) (transactionData : option object) :
  nge fee (Fin 0) = true -> ngt total (Fin 0) = true ->
  Expense.collective expense = Some c ->
  Host.currency host = Collective.currency c ->
  createTransactionsForManuallyPaidExpense host expense fee total transactionData =
  Ok (manual_transaction host expense c (initial_amounts fee total)
        (tag_payee expense transactionData)).
Proof.
  intros Hfee Htotal Hc Hcur. unfold createTransactionsForManuallyPaidExpense.
  rewrite Hfee, Htotal. cbn [assert mbind result_bind].
  rewrite (the_collective_Some _ _ Hc). cbn [mbind result_bind].
  apply String.eqb_eq in Hcur. rewrite Hcur. reflexivity.
Qed.

(** Sums, differences and negations of integers that stay within [2^53]. *)
Ltac represent :=
  lazymatch goal with
  | |- nneg _ ~> inject_Z (- _) => apply represents_nneg_Z; represent
  | |- nadd _ _ ~> inject_Z (_ + _) => apply represents_nadd_Z; [represent | represent | lia]
  | |- nsub _ _ ~> inject_Z (_ - _) => apply represents_nsub_Z; [represent | represent | lia]
  | |- nmul (Fin (-1)) _ ~> inject_Z (- _) =>
      eapply represents_num_eq_l;
      [apply nmul_minus_one, nadd_is_number | apply represents_nneg_Z; represent]
  | |- Fin 0 ~> inject_Z 0 => apply (represents_Fin 0)
  | |- _ => eassumption
  end.

(** [x =n= y] for two such expressions with the integer values [a] and
    [b]. *)
Ltac same_integer a b :=
  apply (represents_num_eq _ _ (inject_Z a) (inject_Z b));
  [represent | represent | apply inject_Z_injective; lia].

(** X10.  In the host currency the record of the manual builder balances:
    for an integer fee that does not exceed an integer total of [2^53] at
    most, [amountInHostCurrency] and the stored processor fee add up to
    minus the total paid, whatever the currencies, and the two other fees
    are 0. *)
Theorem createTransactionsForManuallyPaidExpense_balance (host : Host.t) (expense : Expense.t)
    (fee total : number) (transactionData : option object) (t : Transaction.t) :
  createTransactionsForManuallyPaidExpense host expense fee total transactionData = Ok t ->
  is_integer fee -> is_integer total ->
  nle fee total = true -> nle total (of_Z (2 ^ 53)) = true ->
  nadd (Transaction.amountInHostCurrency t) (Transaction.paymentProcessorFeeInHostCurrency t)
    =n= nneg total /\
  Transaction.hostFeeInHostCurrency t = Fin 0 /\
  Transaction.platformFeeInHostCurrency t = Fin 0 /\
  Transaction.hostCurrency t = Host.currency host.
Proof.
  intros H If It Hle Hmax.
  apply createTransactionsForManuallyPaidExpense_Ok in H as (Pf & _ & c & _ & H).
  destruct (is_integer_represents _ If) as (zf & Zf).
  destruct (is_integer_represents _ It) as (zt & Zt).
  pose proof (represents_nonneg _ _ Zf Pf) as Hzf.
  apply (represents_nle _ _ _ _ Zf Zt) in Hle. rewrite <- Zle_Qle in Hle.
  apply (represents_nle _ _ _ _ Zt (represents_of_Z _)) in Hmax. rewrite <- Zle_Qle in Hmax.
  destruct H as [(_ & ->) | (_ & _ & ->)];
    cbn [manual_transaction adjust_amounts initial_amounts Transaction.amountInHostCurrency
      Transaction.paymentProcessorFeeInHostCurrency Transaction.hostFeeInHostCurrency
      Transaction.platformFeeInHostCurrency Transaction.hostCurrency m_amountInHostCurrency
      m_paymentProcessorFeeInHostCurrency]; unfold toNegative;
    (split; [same_integer (- (zt - zf) + - zf)%Z (- zt)%Z |]);
    (split; [reflexivity |]); split; reflexivity.
Qed.

(** X11.  The tag of the payer in the manual builder.  When the payee pays
    the fees, [data.feesPayer] is ['PAYEE'] whatever data object the call
    has, the empty object of a call that leaves the argument out included;
    only when the caller passes null is there no [feesPayer] in the record.
    When the payee does not pay, the key is the caller's. *)
Theorem createTransactionsForManuallyPaidExpense_feesPayer (host : Host.t)
    (expense : Expense.t) (fee total : number) (transactionData : option object)
    (t : Transaction.t) :
  createTransactionsForManuallyPaidExpense host expense fee total transactionData = Ok t ->
  (Expense.feesPayer expense = "PAYEE" ->
   (is_Some transactionData -> Transaction.data t !! "feesPayer" = Some (JStr "PAYEE")) /\
   (transactionData = Some ∅ -> Transaction.data t !! "feesPayer" = Some (JStr "PAYEE")) /\
   (transactionData = None -> Transaction.data t !! "feesPayer" = None)) /\
  (Expense.feesPayer expense <> "PAYEE" ->
   Transaction.data t !! "feesPayer" = default ∅ transactionData !! "feesPayer").
Proof.
  intros H.
  apply createTransactionsForManuallyPaidExpense_Ok in H as (_ & _ & c & _ & H).
  assert (Hlookup :
    Transaction.data t !! "feesPayer" =
    default ∅ (tag_payee expense transactionData) !! "feesPayer").
  { destruct H as [(_ & ->) | (_ & _ & ->)];
      rewrite manual_transaction_data_lookup, tax_data_lookup_ne by discriminate;
      destruct (default ∅ (tag_payee expense transactionData) !! "feesPayer");
      reflexivity. }
  rewrite Hlookup. unfold tag_payee. split.
  - intros ->. change (String.eqb "PAYEE" "PAYEE") with true. cbv iota.
    split; [| split].
    + intros [d ->]. cbn. unfold set. apply lookup_insert_eq.
    + intros ->. cbn. unfold set. apply lookup_insert_eq.
    + intros ->. cbn. apply lookup_empty.
  - intros Hne. apply String.eqb_neq in Hne. rewrite Hne. reflexivity.
Qed.

(** * The two builders side by side *)

Lemma round_mul_one_Z (x : number) (z : Z) :
  x ~> inject_Z z -> is_double (inject_Z z) -> Math_round (nmul x (Fin 1)) ~> inject_Z z.
Proof.
  intros Hz Hd. apply represents_Math_round_integer.
  eapply represents_eq;
    [apply (represents_nmul _ _ _ _ Hz (represents_Fin 1));
     apply (is_double_comp (inject_Z z)); [ring | exact Hd] |].
  ring.
Qed.

Lemma round_div_one_Z (x : number) (z : Z) :
  x ~> inject_Z z -> is_double (inject_Z z) -> Math_round (ndiv x (Fin 1)) ~> inject_Z z.
Proof.
  intros Hz Hd. apply represents_Math_round_integer.
  eapply represents_eq;
    [apply (represents_ndiv _ _ _ _ Hz (represents_Fin 1)); [lra |];
     apply (is_double_comp (inject_Z z)); [field | exact Hd] |].
  field.
Qed.

(** X12.  The two builders agree.  For a collective in the currency of the
    host, an integer amount and a processor fee as the only fee, which add
    up to [2^53] at most, the builder for paid expenses at rate 1 and the
    manual builder record the same amounts, fees, rate and tax, when the
    manual builder is given as total paid the amount plus the fee, or the
    amount alone when the payee pays the fee. *)
Theorem builders_agree (findByPk : Z -> option Collective.t)
    (getFxRate : string -> string -> result number) (host : Host.t) (expense : Expense.t)
    (c : Collective.t) (fee : number) (transactionData : option object)
    (paymentMethod : option PaymentMethod.t) :
  Expense.collective expense = Some c ->
  Collective.currency c = Host.currency host ->
  is_integer (Expense.amount expense) ->
  is_fee fee ->
  value (Expense.amount expense) + value fee <= inject_Z (2 ^ 53) ->
  let total :=
    if String.eqb (Expense.feesPayer expense) "PAYEE" then Expense.amount expense
    else nadd (Expense.amount expense) fee in
  ngt total (Fin 0) = true ->
  nle fee total = true ->
  exists paid manual,
    createTransactionsFromPaidExpense findByPk getFxRate host expense
      {| FEES_IN_HOST_CURRENCY.paymentProcessorFeeInHostCurrency := Some fee;
         FEES_IN_HOST_CURRENCY.hostFeeInHostCurrency := None;
         FEES_IN_HOST_CURRENCY.platformFeeInHostCurrency := None |}
      (rate (Fin 1)) transactionData paymentMethod = Ok paid /\
    createTransactionsForManuallyPaidExpense host expense fee total transactionData = Ok manual /\
    Transaction.amount paid =n= Transaction.amount manual /\
    Transaction.amountInHostCurrency paid =n= Transaction.amountInHostCurrency manual /\
    Transaction.netAmountInCollectiveCurrency paid =n=
      Transaction.netAmountInCollectiveCurrency manual /\
    Transaction.paymentProcessorFeeInHostCurrency paid =n=
      Transaction.paymentProcessorFeeInHostCurrency manual /\
    Transaction.hostFeeInHostCurrency paid =n= Transaction.hostFeeInHostCurrency manual /\
    Transaction.platformFeeInHostCurrency paid =n= Transaction.platformFeeInHostCurrency manual /\
    Transaction.hostCurrencyFxRate paid = Transaction.hostCurrencyFxRate manual /\
    Transaction.currency paid = Transaction.currency manual /\
    Transaction.taxAmount paid = Transaction.taxAmount manual.
Proof.
  intros Hc Hcur Ia Ifee Hmax total Ptotal Hle.
  destruct (is_integer_bounded _ Ia) as (a & Ra & Da).
  destruct (is_fee_represents _ Ifee) as (f & Rf & Hf).
  assert (Df : is_double (inject_Z f)).
  { apply (is_double_comp _ _ (proj2 Rf)), is_number_value, is_fee_number, Ifee. }
  assert (Pfee : nge fee (Fin 0) = true) by apply Ifee.
  rewrite (proj2 Ra), (proj2 Rf), <- inject_Z_plus, <- Zle_Qle in Hmax.
  assert (Hload : load_collective findByPk expense = expense).
  { unfold load_collective. rewrite Hc. destruct expense. cbn in *. rewrite Hc. reflexivity. }
  pose proof (round_mul_one_Z _ _ Ra Da) as Rg. pose proof (round_div_one_Z _ _ Rf Df) as Rpc.
  pose proof (round_div_one_Z _ _ (represents_Fin (inject_Z 0)) is_double_0) as Rz.
  assert (Hrange : (0 <= a /\ f <= a + f)%Z /\
                   (String.eqb (Expense.feesPayer expense) "PAYEE" = true -> (f <= a)%Z)).
  { subst total. destruct (String.eqb (Expense.feesPayer expense) "PAYEE").
    - apply (represents_nle _ _ _ _ Rf Ra) in Hle. rewrite <- Zle_Qle in Hle.
      apply (represents_nlt _ _ _ _ (represents_Fin (inject_Z 0)) Ra) in Ptotal.
      rewrite <- Zlt_Qlt in Ptotal.
      split; [lia | intros _; exact Hle].
    - split; [| discriminate].
      destruct (Z_lt_le_dec a 0) as [Hneg | Hpos]; [| lia].
      exfalso. destruct (Z_le_gt_dec (- 2 ^ 53) (a + f)) as [Hlow | Hlow].
      + assert (Rt : nadd (Expense.amount expense) fee ~> inject_Z (a + f))
          by (apply represents_nadd_Z; [exact Ra | exact Rf | lia]).
        apply (represents_nle _ _ _ _ Rf Rt) in Hle. rewrite <- Zle_Qle in Hle. lia.
      + assert (Hneg' : nle (nadd (Expense.amount expense) fee) (Fin 0) = true).
        { rewrite (nle_num_eq _ _ _ (Fin 0) (nadd_finite _ _ (proj1 Ra) (proj1 Rf))
                     (num_eq_refl _)).
          apply number_for_nonpos.
          rewrite (proj2 Ra), (proj2 Rf), <- inject_Z_plus.
          change 0 with (inject_Z 0). rewrite <- Zle_Qle. lia. }
        apply nle_not_nlt in Hneg'. unfold ngt in Ptotal. congruence. }
  destruct Hrange as [[Ha Hfa] Hpayee].
  unfold createTransactionsFromPaidExpense. rewrite Hload.
  cbn [resolve_fx_rate mbind result_bind].
  rewrite (computeExpenseAmounts_same_as_host _ c) by assumption.
  cbn [mbind result_bind]. rewrite (the_collective_Some _ c) by exact Hc.
  cbn [mbind result_bind].
  rewrite (createTransactionsForManuallyPaidExpense_same _ _ c) by auto.
  subst total.
  destruct (String.eqb (Expense.feesPayer expense) "PAYEE");
    [specialize (Hpayee eq_refl) | clear Hpayee];
    (eexists _, _; split; [reflexivity |]; split; [reflexivity |]);
    cbn [Transaction.update debit_transaction manual_transaction initial_amounts
      Transaction.amount Transaction.amountInHostCurrency
      Transaction.netAmountInCollectiveCurrency
      Transaction.paymentProcessorFeeInHostCurrency Transaction.hostFeeInHostCurrency
      Transaction.platformFeeInHostCurrency Transaction.hostCurrencyFxRate
      Transaction.currency Transaction.taxAmount
      amounts_for fee_amounts Processed.amount Processed.paymentProcessorFee
      Processed.hostFee Processed.platformFee Processed.fxRates inCollectiveCurrency
      inHostCurrency collectiveToHost expenseToHost expenseToCollective
      m_amount m_amountInHostCurrency m_netAmountInCollectiveCurrency
      m_paymentProcessorFeeInHostCurrency m_hostCurrencyFxRate
      spread_fees DEFAULT_FEES Fees.paymentProcessorFeeInHostCurrency
      Fees.hostFeeInHostCurrency Fees.platformFeeInHostCurrency
      FEES_IN_HOST_CURRENCY.paymentProcessorFeeInHostCurrency
      FEES_IN_HOST_CURRENCY.hostFeeInHostCurrency
      FEES_IN_HOST_CURRENCY.platformFeeInHostCurrency default];
    unfold toNegative.
  - split; [same_integer (- a + f)%Z (- (a - f))%Z |].
    split; [same_integer (- a + f)%Z (- (a - f))%Z |].
    split; [same_integer (- (a + f + 0 + 0) + f)%Z (- a)%Z |].
    split; [reflexivity |]. split; [reflexivity |]. split; [reflexivity |].
    split; [reflexivity |]. split; reflexivity.
  - split; [same_integer (- a)%Z (- (a + f - f))%Z |].
    split; [same_integer (- a)%Z (- (a + f - f))%Z |].
    split; [same_integer (- (a + f + 0 + 0))%Z (- (a + f))%Z |].
    split; [reflexivity |]. split; [reflexivity |]. split; [reflexivity |].
    split; [reflexivity |]. split; reflexivity.
Qed.
(** * Properties of the listing *)

(** X13.  The query of [getTransactions].  Without [options] the call
    throws a TypeError.  With options, the query is restricted to the given
    collectives and to the dates from [startDate] (2015-01-01 by default) to
    [endDate] (now by default), also when the caller's [where] has the keys
    [CollectiveId] or [createdAt]; the other keys of [where] are kept; the
    newest come first; and a limit of 0 is no limit. *)
Theorem getTransactions_query (now : Z) (collectiveids : list Z) (startDate endDate : option Z)
    (options : option Options.t) :
  (options = None ->
   exists message,
     getTransactions now collectiveids startDate endDate options = Throw (TypeError message)) /\
  (forall o, options = Some o ->
   exists q,
     getTransactions now collectiveids startDate endDate options = Ok q /\
     Query.where_ q !! "CollectiveId" = Some (is_in collectiveids) /\
     Query.where_ q !! "createdAt" =
       Some (is_between (default default_start_date startDate) (default now endDate)) /\
     (forall k, k <> "CollectiveId" -> k <> "createdAt" ->
                Query.where_ q !! k = is_value <$> (default ∅ (Options.where_ o) !! k)) /\
     Query.order q = [("createdAt", "DESC")] /\
     (forall l, Query.limit q = Some l <-> Options.limit o = Some l /\ truthy l = true) /\
     Query.include q = Options.include o).
Proof.
  split.
  - intros ->. eexists. reflexivity.
  - intros o ->. eexists. split; [reflexivity |].
    cbn [Query.where_ Query.order Query.limit Query.include].
    split; [rewrite lookup_insert_ne by discriminate; apply lookup_insert_eq |].
    split; [apply lookup_insert_eq |].
    split; [| split; [reflexivity | split; [| reflexivity]]].
    + intros k K1 K2. rewrite !lookup_insert_ne by congruence. apply lookup_fmap.
    + intros l. unfold truthy_number. destruct (Options.limit o) as [n |].
      * destruct (truthy n) eqn:E; split.
        -- intros [= <-]. auto.
        -- intros [[= <-] _]. reflexivity.
        -- discriminate.
        -- intros [[= <-] H]. congruence.
      * split; [discriminate | intros [H _]; discriminate].
Qed.

(** * Properties of the descriptions *)

Section DescriptionFacts.

Variable models : Lookups.t.
Variable req : option Lookups.t.
Variable full : bool.

Local Abbreviation describe_ := (describe models req full).
Local Abbreviation generate := (generateDescription models req full).
Local Abbreviation chain := (refund_chain models req).

Lemma generateDescription_chain (transaction final : TransactionRow.t) (n : nat) :
  chain transaction n final ->
  forall fuel, (n < fuel)%nat ->
  generate fuel transaction = Some (refund_result n (describe_ final)).
Proof.
  induction 1 as [t Hend | t next final n Hnext _ IH]; intros fuel Hfuel.
  - destruct fuel as [| fuel]; [lia |]. cbn [generateDescription]. rewrite Hend.
    destruct (describe_ t); reflexivity.
  - destruct fuel as [| fuel]; [lia |]. cbn [generateDescription]. rewrite Hnext.
    rewrite (IH fuel) by lia.
    destruct (describe_ final); reflexivity.
Qed.

Lemma generateDescription_inv (fuel : nat) :
  forall (transaction : TransactionRow.t) (r : result string),
  generate fuel transaction = Some r ->
  exists n final, (n < fuel)%nat /\ chain transaction n final /\
                  r = refund_result n (describe_ final).
Proof.
  induction fuel as [| fuel IH]; intros t r H; [discriminate |].
  cbn [generateDescription] in H.
  destruct (refunded models req t) as [next |] eqn:Hnext.
  - destruct (generate fuel next) as [r' |] eqn:Hrec; [| discriminate].
    destruct (IH _ _ Hrec) as (n & final & Hn & Hchain & ->).
    exists (S n), final. split; [lia |]. split; [econstructor; eassumption |].
    destruct (describe_ final); cbn in *; congruence.
  - injection H as <-. exists 0%nat, t. split; [lia |]. split; [constructor; exact Hnext |].
    destruct (describe_ t); reflexivity.
Qed.

(** X14.  Refunds of refunds.  [generateDescription] ends within [fuel]
    calls exactly when fewer than [fuel] refunds lead from the transaction to
    one that is not described as a refund; the result is then the description
    of that one, wrapped once per refund in [Refund of "..."], or the
    exception its description throws. *)
Theorem generateDescription_refunds (fuel : nat) (transaction : TransactionRow.t) (r : result string) :
  generate fuel transaction = Some r <->
  exists n final, (n < fuel)%nat /\ chain transaction n final /\
                  r = refund_result n (describe_ final).
Proof.
  split.
  - apply generateDescription_inv.
  - intros (n & final & Hn & Hchain & ->). apply generateDescription_chain; assumption.
Qed.

(** X15.  A refund that refers to itself is never described: whatever the
    number of calls allowed, the recursion has not ended. *)
Theorem generateDescription_self_refund (transaction : TransactionRow.t) :
  refunded models req transaction = Some transaction ->
  forall fuel, generate fuel transaction = None.
Proof.
  intros H fuel. induction fuel as [| fuel IH]; [reflexivity |].
  cbn [generateDescription]. rewrite H, IH. reflexivity.
Qed.

End DescriptionFacts.

(** X16.  Without a request the two accounts are read from the order, so a
    transaction without an order that is found is not described: the
    description throws a TypeError, whatever its kind. *)
Theorem describe_without_request (models : Lookups.t) (full : bool) (transaction : TransactionRow.t) :
  match truthy_id (TransactionRow.OrderId transaction) with
  | Some id => Lookups.Order models id = None
  | None => True
  end ->
  (exists message, describe models None full transaction = Throw (TypeError message)) /\
  (refunded models None transaction = None ->
   forall fuel, exists message,
     generateDescription models None full (S fuel) transaction = Some (Throw (TypeError message))).
Proof.
  intros Horder.
  assert (H : exists message, describe models None full transaction = Throw (TypeError message)).
  { unfold describe, lookup.
    destruct (truthy_id (TransactionRow.OrderId transaction)) as [id |]; [rewrite Horder |];
      (destruct (TransactionRow.kind transaction) as [[] |]; cbn;
       [ .. | eexists; reflexivity ]; try (eexists; reflexivity);
       repeat case_match; eexists; reflexivity). }
  split; [exact H |].
  intros Hnone fuel. destruct H as (message & H). exists message.
  cbn [generateDescription]. rewrite Hnone, H. reflexivity.
Qed.

Lemma append_empty_r (s : string) : s +:+ "" = s.
Proof.
  induction s as [| a s IH]; [reflexivity |].
  change (String a (s +:+ "") = String a s). rewrite IH. reflexivity.
Qed.

(** X17.  The description of an expense transaction that is not a debt,
    generated for a request: the debit reads [Expense from <payee> -
    <description of the expense>], the credit [Expense to <payee> - ...],
    the name trimmed; a virtual card charge is labelled as such and its
    description is left out.  With [full] the collective's own name is added
    on the other side. *)
Theorem describe_expense (models loaders : Lookups.t) (full : bool) (transaction : TransactionRow.t)
    (id : Z) (expense : PaidExpense.t) (account oppositeAccount : Account.t)
    (name oppositeName : string) :
  TransactionRow.kind transaction = Some EXPENSE ->
  TransactionRow.isDebt transaction = false ->
  truthy_id (TransactionRow.ExpenseId transaction) = Some id ->
  Lookups.Expense loaders id = Some expense ->
  Lookups.Collective loaders (TransactionRow.CollectiveId transaction) = Some account ->
  Account.name account = Some name ->
  Lookups.Collective loaders (TransactionRow.FromCollectiveId transaction) = Some oppositeAccount ->
  Account.name oppositeAccount = Some oppositeName ->
  describe models (Some loaders) full transaction =
  Ok (match TransactionRow.type transaction with
      | DEBIT =>
          expense_label expense +:+ " from " +:+ trim oppositeName +:+
          (if full then " to " +:+ trim name else "") +:+ expense_suffix expense
      | CREDIT =>
          expense_label expense +:+ (if full then " from " +:+ trim name else "") +:+
          " to " +:+ trim oppositeName +:+ expense_suffix expense
      end).
Proof.
  intros Hkind Hdebt Hid Hexpense Haccount Hname Hopposite Hoppname.
  unfold describe, lookup, named, when_full, trimmed_name, expense_label, expense_suffix.
  rewrite Hkind, Hdebt, Hid, Hexpense. cbn.
  rewrite Haccount, Hopposite, Hname, Hoppname.
  destruct (PaidExpense.type expense), (TransactionRow.type transaction), full; cbn;
    rewrite ?append_empty_r; reflexivity.
Qed.

(** * Properties of the summary of the taxes *)

Lemma groupBy_fold_lookup {A : Type} (key : A -> string) (k : string) (array : list A) :
  forall groups : gmap string (list A),
  fold_left (fun groups x => <[key x := default [] (groups !! key x) ++ [x]]> groups)
    array groups !! k =
  match groups !! k, List.filter (fun x => String.eqb (key x) k) array with
  | Some group, members => Some (group ++ members)
  | None, [] => None
  | None, members => Some members
  end.
Proof.
  induction array as [| x array IH]; intros groups.
  - cbn. destruct (groups !! k); [rewrite app_nil_r |]; reflexivity.
  - cbn [fold_left List.filter]. rewrite IH.
    destruct (String.eqb_spec (key x) k) as [-> | Hne].
    + rewrite lookup_insert_eq.
      destruct (groups !! k) as [group |]; cbn; [rewrite <- app_assoc |]; reflexivity.
    + rewrite lookup_insert_ne by exact Hne. reflexivity.
Qed.

(** The group of a key holds the elements with that key, in their order; a
    key no element has is absent. *)
Lemma groupBy_lookup {A : Type} (key : A -> string) (k : string) (array : list A) :
  groupBy array key !! k =
  match List.filter (fun x => String.eqb (key x) k) array with
  | [] => None
  | members => Some members
  end.
Proof. unfold groupBy. rewrite groupBy_fold_lookup, lookup_empty. reflexivity. Qed.

Lemma filter_filter {A : Type} (f g : A -> bool) (l : list A) :
  List.filter g (List.filter f l) = List.filter (fun x => f x && g x) l.
Proof.
  induction l as [| x l IH]; [reflexivity |]. cbn.
  destruct (f x); cbn; [destruct (g x) |]; rewrite ?IH; reflexivity.
Qed.

Lemma Math_abs_not_negative (x : number) : nlt (Math_abs x) (Fin 0) = false.
Proof.
  destruct x as [q | | | |]; cbn; try reflexivity.
  unfold Qltb. apply negb_false_iff. apply Qle_bool_iff. apply Qabs_nonneg.
Qed.

Section TaxesSummaryFacts.

Variable sumByWhen :
  list Transaction.t -> (Transaction.t -> number) -> (Transaction.t -> bool) -> number.
Variable hostCurrencyRate : Transaction.t -> option number.
Variable toPropertyKey : jsvalue -> string.

Local Abbreviation summary := (getTaxesSummary sumByWhen hostCurrencyRate toPropertyKey).
Local Abbreviation key := (tax_id toPropertyKey).
Local Abbreviation in_host := (getTaxAmountInHostCurrency hostCurrencyRate).
Local Abbreviation taxed_under := (taxed_under toPropertyKey).

Lemma getTaxesSummary_None (allTransactions : list Transaction.t) :
  summary allTransactions = None <->
  forall t, In t allTransactions -> has_taxes t = false.
Proof.
  unfold getTaxesSummary. split.
  - intros H t Hin.
    destruct (List.filter has_taxes allTransactions) as [| t0 rest] eqn:Hfilter; [| discriminate].
    destruct (has_taxes t) eqn:Ht; [| reflexivity].
    assert (Hin' : In t (List.filter has_taxes allTransactions))
      by (apply filter_In; split; assumption).
    rewrite Hfilter in Hin'. destruct Hin'.
  - intros H.
    destruct (List.filter has_taxes allTransactions) as [| t0 rest] eqn:Hfilter; [reflexivity |].
    assert (Hin : In t0 (List.filter has_taxes allTransactions))
      by (rewrite Hfilter; left; reflexivity).
    apply filter_In in Hin. destruct Hin as [Hin Ht]. rewrite (H _ Hin) in Ht. discriminate.
Qed.

Lemma getTaxesSummary_lookup (allTransactions : list Transaction.t)
    (entries : gmap string TaxSummary) (id : string) :
  summary allTransactions = Some entries ->
  entries !! id =
  match taxed_under id allTransactions with
  | [] => None
  | transactions =>
      Some {| collected := Math_abs (sumByWhen transactions in_host (is_type CREDIT));
              paid := sumByWhen transactions in_host (is_type DEBIT) |}
  end.
Proof.
  intros H. unfold getTaxesSummary in H.
  destruct (List.filter has_taxes allTransactions) as [| t0 rest] eqn:Hfilter; [discriminate |].
  injection H as <-. rewrite lookup_fmap, groupBy_lookup.
  rewrite <- Hfilter, filter_filter. fold (taxed_under id allTransactions).
  destruct (taxed_under id allTransactions); reflexivity.
Qed.

(** X18.  The summary is null exactly when no transaction has a tax amount
    other than null, 0 and NaN.  Otherwise it has one entry for each tax id
    of a transaction with taxes and no other: the entry of an id is computed
    from the transactions with taxes of that id, in their order, those
    without taxes left out, and the amount collected is never negative. *)
Theorem getTaxesSummary_groups (allTransactions : list Transaction.t) :
  (summary allTransactions = None <->
   forall t, In t allTransactions -> has_taxes t = false) /\
  (forall entries, summary allTransactions = Some entries ->
   forall id,
     entries !! id =
     match taxed_under id allTransactions with
     | [] => None
     | transactions =>
         Some {| collected := Math_abs (sumByWhen transactions in_host (is_type CREDIT));
                 paid := sumByWhen transactions in_host (is_type DEBIT) |}
     end) /\
  (forall entries id entry, summary allTransactions = Some entries ->
   entries !! id = Some entry -> nlt (collected entry) (Fin 0) = false).
Proof.
  split; [| split].
  - apply getTaxesSummary_None.
  - intros entries H id. apply getTaxesSummary_lookup. exact H.
  - intros entries id entry H Hlookup. rewrite (getTaxesSummary_lookup _ _ id H) in Hlookup.
    destruct (taxed_under id allTransactions); [discriminate |].
    injection Hlookup as <-. apply Math_abs_not_negative.
Qed.

(** X19.  The record built for a paid expense with tax lines is filed under
    the type of its first tax line, the caller's data notwithstanding, and is
    a debit: when its tax amount is not 0, the summary of any list that holds
    it has an entry for that tax, and it counts there as tax paid. *)
Theorem createTransactionsFromPaidExpense_tax_summary (findByPk : Z -> option Collective.t)
    (getFxRate : string -> string -> result number) (host : Host.t) (expense : Expense.t)
    (fees : FEES_IN_HOST_CURRENCY.t) (config : FxRateConfig) (transactionData : option object)
    (paymentMethod : option PaymentMethod.t) (t : Transaction.t) (tax : Tax.t)
    (others : list Tax.t) :
  createTransactionsFromPaidExpense findByPk getFxRate host expense fees config
    transactionData paymentMethod = Ok t ->
  Expense.tax_lines expense = tax :: others ->
  key t = Tax.type tax /\
  is_type DEBIT t = true /\ is_type CREDIT t = false /\
  Transaction.taxAmount t = computeExpenseTaxes expense /\
  (has_taxes t = true ->
   forall allTransactions, In t allTransactions ->
   exists entries transactions,
     summary allTransactions = Some entries /\
     taxed_under (Tax.type tax) allTransactions = transactions /\
     In t transactions /\
     entries !! Tax.type tax =
     Some {| collected := Math_abs (sumByWhen transactions in_host (is_type CREDIT));
             paid := sumByWhen transactions in_host (is_type DEBIT) |}).
Proof.
  intros H Hlines.
  apply createTransactionsFromPaidExpense_Ok in H as (r & p & c & _ & _ & _ & Ht).
  cbv zeta in Ht.
  set (base := debit_transaction host (load_collective findByPk expense) c
                 (spread_fees DEFAULT_FEES fees) r p transactionData paymentMethod) in *.
  assert (Htax : Transaction.data t !! "tax" = tax_data expense !! "tax").
  { assert (Hbase : Transaction.data base !! "tax" = tax_data expense !! "tax").
    { unfold base. rewrite debit_transaction_data_lookup, tax_data_load_collective.
      destruct (tax_data_lookup_tax expense) as [v ->]; [congruence | reflexivity]. }
    rewrite Ht. destruct (String.eqb (Expense.feesPayer expense) "PAYEE"); [| exact Hbase].
    cbn [Transaction.update Transaction.data]. unfold set.
    rewrite lookup_insert_ne by discriminate. exact Hbase. }
  assert (Hkey : key t = Tax.type tax).
  { unfold tax_id. rewrite Htax. unfold tax_data. rewrite Hlines.
    rewrite lookup_singleton_eq. unfold spread.
    rewrite lookup_union, lookup_insert_eq.
    destruct (Tax.fields tax !! "id"); reflexivity. }
  assert (Hfields : Transaction.type t = DEBIT /\
                    Transaction.taxAmount t = computeExpenseTaxes expense).
  { rewrite Ht. destruct (String.eqb (Expense.feesPayer expense) "PAYEE"); split; reflexivity. }
  destruct Hfields as [Htype Hamount].
  split; [exact Hkey |]. unfold is_type. rewrite Htype.
  split; [reflexivity |]. split; [reflexivity |]. split; [exact Hamount |].
  intros Htaxes allTransactions Hin.
  destruct (summary allTransactions) as [entries |] eqn:Hsummary.
  - exists entries, (taxed_under (Tax.type tax) allTransactions).
    assert (Hmember : In t (taxed_under (Tax.type tax) allTransactions)).
    { apply filter_In. split; [exact Hin |]. rewrite Htaxes, Hkey, String.eqb_refl. reflexivity. }
    split; [reflexivity |]. split; [reflexivity |]. split; [exact Hmember |].
    rewrite (getTaxesSummary_lookup _ _ (Tax.type tax) Hsummary).
    destruct (taxed_under (Tax.type tax) allTransactions); [destruct Hmember | reflexivity].
  - rewrite getTaxesSummary_None in Hsummary. rewrite (Hsummary _ Hin) in Htaxes. discriminate.
Qed.

End TaxesSummaryFacts.

(** * The tax entry *)

(** X20.  The tax entry that both builders store for an expense with tax
    lines is made from the first line: it has [id] and [type], the type of
    the line; [rate], the rate of the line rounded to 4 decimals;
    [percentage], the integer nearest to 100 times the rate; and every other
    field of the line.  A rate of 0.145 gives the rate 0.145 and the
    percentage 14, the product being 14.499999999999998 in binary64. *)
Theorem tax_data_entry (expense : Expense.t) (tax : Tax.t) (rest : list Tax.t) :
  Expense.tax_lines expense = tax :: rest ->
  exists entry,
    tax_data expense !! "tax" = Some (JObj entry) /\
    entry !! "id" = Some (JStr (Tax.type tax)) /\
    entry !! "type" = Some (JStr (Tax.type tax)) /\
    entry !! "rate" = Some (JNum (round (Tax.rate tax) 4)) /\
    (is_number (Tax.rate tax) -> rounded_to_decimals 4 (Tax.rate tax) (round (Tax.rate tax) 4)) /\
    entry !! "percentage" = Some (JNum (Math_round (nmul (Tax.rate tax) (Fin 100)))) /\
    nearest_integer (nmul (Tax.rate tax) (Fin 100))
      (Math_round (nmul (Tax.rate tax) (Fin 100))) /\
    (forall k, k <> "id" -> k <> "type" -> k <> "rate" -> k <> "percentage" ->
               entry !! k = Tax.others tax !! k) /\
    (Tax.rate tax = number_for (145 # 1000) ->
     entry !! "rate" = Some (JNum (number_for (145 # 1000))) /\
     entry !! "percentage" = Some (JNum (of_Z 14))).
Proof.
  intros H. unfold tax_data. rewrite H. eexists. split; [apply lookup_singleton_eq |].
  unfold spread, Tax.fields.
  assert (Hrate : (<["id" := JStr (Tax.type tax)]>
                     (<["rate" := JNum (round (Tax.rate tax) 4)]>
                        {["percentage" := JNum (round (nmul (Tax.rate tax) (Fin 100)) 0)]})
                   ∪ <["type" := JStr (Tax.type tax)]>
                       (<["rate" := JNum (Tax.rate tax)]> (Tax.others tax))) !! "rate"
                  = Some (JNum (round (Tax.rate tax) 4))).
  { apply lookup_union_Some_l. rewrite lookup_insert_ne by discriminate.
    apply lookup_insert_eq. }
  assert (Hpercentage : (<["id" := JStr (Tax.type tax)]>
                     (<["rate" := JNum (round (Tax.rate tax) 4)]>
                        {["percentage" := JNum (round (nmul (Tax.rate tax) (Fin 100)) 0)]})
                   ∪ <["type" := JStr (Tax.type tax)]>
                       (<["rate" := JNum (Tax.rate tax)]> (Tax.others tax))) !! "percentage"
                  = Some (JNum (Math_round (nmul (Tax.rate tax) (Fin 100))))).
  { apply lookup_union_Some_l. rewrite !lookup_insert_ne by discriminate.
    apply lookup_singleton_eq. }
  split; [apply lookup_union_Some_l, lookup_insert_eq |].
  split.
  { rewrite lookup_union_r.
    - apply lookup_insert_eq.
    - rewrite !lookup_insert_ne by discriminate. apply lookup_singleton_ne. discriminate. }
  split; [exact Hrate |].
  split; [intros Hn Hf Hb; apply round_error; [exact Hn | exact Hf | lia | exact Hb] |].
  split; [exact Hpercentage |].
  split; [apply Math_round_nearest_integer, nmul_is_number |].
  split.
  - intros k K1 K2 K3 K4. rewrite lookup_union_r.
    + rewrite !lookup_insert_ne by congruence. reflexivity.
    + rewrite !lookup_insert_ne by congruence. apply lookup_singleton_ne. congruence.
  - intros E. rewrite Hrate, Hpercentage, E. split; vm_compute; reflexivity.
Qed.

(** ** The further properties at concrete inputs *)

(** 850 GBP of a GBP collective with a USD host at 1.17. *)
Lemma computeExpenseAmounts_rates_consistent_witness :
  exists p,
    computeExpenseAmounts (an_expense 850 "GBP" gbp_collective "COLLECTIVE" None) "USD"
      (number_for (117 # 100)) (some_fees 25 0 0) = Ok p /\
    is_number (number_for (117 # 100)) /\
    expenseToHost (Processed.fxRates p) =n=
    nmul (expenseToCollective (Processed.fxRates p)) (collectiveToHost (Processed.fxRates p)).
Proof.
  eexists. split; [reflexivity |]. split; [apply number_for_is_number |].
  apply (computeExpenseAmounts_rates_consistent
           (an_expense 850 "GBP" gbp_collective "COLLECTIVE" None) "USD"
           (number_for (117 # 100)) (some_fees 25 0 0) _ eq_refl).
  apply number_for_is_number.
Defined.

(** 850 GBP of a GBP collective at 1.17 with fees of 25 and 10 USD: 850 in
    both currencies of the expense, and fees of 21 and 9 GBP. *)
Lemma computeExpenseAmounts_same_currency_witness :
  exists p,
    computeExpenseAmounts (an_expense 850 "GBP" gbp_collective "COLLECTIVE" None) "USD"
      (number_for (117 # 100)) (some_fees 25 10 0) = Ok p /\
    inCollectiveCurrency (Processed.amount p) =n= of_Z 850 /\
    inCollectiveCurrency (Processed.amount p) =n= inExpenseCurrency (Processed.amount p) /\
    inCollectiveCurrency (Processed.paymentProcessorFee p) = of_Z 21 /\
    inCollectiveCurrency (Processed.paymentProcessorFee p) =
      inExpenseCurrency (Processed.paymentProcessorFee p) /\
    inCollectiveCurrency (Processed.hostFee p) = of_Z 9.
Proof.
  eexists. split; [reflexivity |].
  destruct (computeExpenseAmounts_same_currency
              (an_expense 850 "GBP" gbp_collective "COLLECTIVE" None) gbp_collective "USD"
              (number_for (117 # 100)) (some_fees 25 10 0) _ eq_refl eq_refl
              (is_integer_of_Z 850 ltac:(lia)) (is_integer_of_Z 25 ltac:(lia))
              (is_integer_of_Z 10 ltac:(lia)) (is_integer_of_Z 0 ltac:(lia))) as [_ Hother].
  destruct Hother as (_ & Hamount & Hfee & _); [discriminate |].
  split; [vm_compute; reflexivity |]. split; [exact Hamount |].
  split; [vm_compute; reflexivity |]. split; [exact Hfee | vm_compute; reflexivity].
Defined.

(** 10000 USD without fees, the payee paying them. *)
Lemma createTransactionsFromPaidExpense_no_fees_witness :
  exists t,
    createTransactionsFromPaidExpense no_collective unit_rate usd_host
      (an_expense 10000 "USD" usd_collective "PAYEE" None) no_fees auto None None = Ok t /\
    Transaction.amount t =n= of_Z (-10000) /\
    Transaction.netAmountInCollectiveCurrency t =n= Transaction.amount t /\
    Transaction.paymentProcessorFeeInHostCurrency t =n= Fin 0 /\
    Transaction.hostFeeInHostCurrency t =n= Fin 0 /\
    Transaction.platformFeeInHostCurrency t =n= Fin 0.
Proof.
  eexists. split; [reflexivity |]. split; [vm_compute; reflexivity |].
  apply (createTransactionsFromPaidExpense_no_fees no_collective unit_rate usd_host
           (an_expense 10000 "USD" usd_collective "PAYEE" None) no_fees auto None None _ (Fin 1)
           eq_refl eq_refl eq_refl eq_refl eq_refl); vm_compute; reflexivity.
Defined.

(** 1000 GBP of a GBP collective with a USD host at the rate 0. *)
Lemma createTransactionsFromPaidExpense_zero_rate_witness :
  exists t,
    createTransactionsFromPaidExpense no_collective unit_rate usd_host
      (an_expense 1000 "GBP" gbp_collective "COLLECTIVE" None) (processor_fee 125)
      (rate (Fin 0)) None None = Ok t /\
    Transaction.hostCurrencyFxRate t = Fin 0 /\
    finite (Transaction.netAmountInCollectiveCurrency t) = false.
Proof.
  apply (createTransactionsFromPaidExpense_zero_rate no_collective unit_rate usd_host
           (an_expense 1000 "GBP" gbp_collective "COLLECTIVE" None) (processor_fee 125)
           (rate (Fin 0)) None None (Fin 0) gbp_collective eq_refl eq_refl eq_refl);
    [discriminate | reflexivity].
Defined.

(** The caller's [expenseToHostFxRate] and [tax] are overwritten, the
    caller's [memo] is kept. *)
Lemma createTransactionsFromPaidExpense_data_witness :
  exists t,
    createTransactionsFromPaidExpense no_collective unit_rate usd_host
      (an_expense 1200 "USD" usd_collective "PAYEE" (Some [vat])) no_fees auto
      (Some (<["expenseToHostFxRate" := JNum (Fin 2)]> {[ "memo" := JStr "paid" ]}))
      None = Ok t /\
    Transaction.data t !! "expenseToHostFxRate" = Some (JNum (Fin 1)) /\
    Transaction.data t !! "feesPayer" = Some (JStr "PAYEE") /\
    is_Some (Transaction.data t !! "tax") /\
    Transaction.data t !! "memo" = Some (JStr "paid").
Proof.
  eexists. split; [reflexivity |].
  destruct (createTransactionsFromPaidExpense_data no_collective unit_rate usd_host
              (an_expense 1200 "USD" usd_collective "PAYEE" (Some [vat])) no_fees auto
              (Some (<["expenseToHostFxRate" := JNum (Fin 2)]> {[ "memo" := JStr "paid" ]}))
              None _ eq_refl)
    as ((r & Hr & Hrate) & Hpayee & _ & Htax & _ & Hother).
  apply Ok_inj in Hr. subst r.
  split; [exact Hrate |]. split; [exact (Hpayee eq_refl) |].
  destruct Htax as [Hsome Heq]; [discriminate |].
  split; [rewrite Heq; exact Hsome |].
  rewrite Hother by discriminate. reflexivity.
Defined.

(** 1300 with taxes of 10 % and 20 %: 300 are withheld. *)
Lemma computeExpenseTaxes_bounds_witness :
  exists v,
    computeExpenseTaxes (an_expense 1300 "USD" usd_collective "COLLECTIVE" (Some [gst; vat]))
      = Some v /\
    v = of_Z (-300) /\
    is_integer v /\
    nle (of_Z (-1300)) v = true /\
    nle v (Fin 0) = true.
Proof.
  destruct (computeExpenseTaxes_bounds
              (an_expense 1300 "USD" usd_collective "COLLECTIVE" (Some [gst; vat])))
    as (v & Hv & Hint & Hlow & Hhigh).
  - discriminate.
  - apply is_integer_of_Z. lia.
  - reflexivity.
  - repeat (constructor; [split; vm_compute; reflexivity |]). constructor.
  - exists v. split; [exact Hv |].
    split; [vm_compute in Hv; apply Some_inj in Hv; symmetry; exact Hv |].
    split; [exact Hint |]. split; [exact Hlow | exact Hhigh].
Defined.

(** 1000 GBP paid as 1250 USD, of which 50 USD are fees. *)
Lemma createTransactionsForManuallyPaidExpense_balance_witness :
  exists t,
    createTransactionsForManuallyPaidExpense usd_host
      (an_expense 1000 "GBP" gbp_collective "COLLECTIVE" None) (of_Z 50) (of_Z 1250) None = Ok t /\
    Transaction.amountInHostCurrency t =n= of_Z (-1200) /\
    Transaction.paymentProcessorFeeInHostCurrency t =n= of_Z (-50) /\
    nadd (Transaction.amountInHostCurrency t) (Transaction.paymentProcessorFeeInHostCurrency t)
      =n= of_Z (-1250) /\
    Transaction.hostCurrency t = "USD".
Proof.
  eexists. split; [reflexivity |].
  split; [vm_compute; reflexivity |]. split; [vm_compute; reflexivity |].
  destruct (createTransactionsForManuallyPaidExpense_balance usd_host
              (an_expense 1000 "GBP" gbp_collective "COLLECTIVE" None) (of_Z 50) (of_Z 1250)
              None _ eq_refl (is_integer_of_Z 50 ltac:(lia)) (is_integer_of_Z 1250 ltac:(lia))
              eq_refl eq_refl) as (Hsum & _ & _ & Hcurrency).
  split; [exact Hsum | exact Hcurrency].
Defined.

(** The payee pays the fees.  The caller passes null: no [feesPayer].  The
    caller leaves the argument out, which makes it the empty object, or
    passes an object: [feesPayer] is ['PAYEE']. *)
Lemma createTransactionsForManuallyPaidExpense_feesPayer_witness :
  (exists t,
     createTransactionsForManuallyPaidExpense usd_host
       (an_expense 10000 "USD" usd_collective "PAYEE" None) (of_Z 300) (of_Z 10000) None = Ok t /\
     Transaction.data t !! "feesPayer" = None) /\
  (exists t,
     createTransactionsForManuallyPaidExpense usd_host
       (an_expense 10000 "USD" usd_collective "PAYEE" None) (of_Z 300) (of_Z 10000) (Some ∅)
     = Ok t /\
     Transaction.data t !! "feesPayer" = Some (JStr "PAYEE")) /\
  (exists t,
     createTransactionsForManuallyPaidExpense usd_host
       (an_expense 10000 "USD" usd_collective "PAYEE" None) (of_Z 300) (of_Z 10000)
       (Some {[ "feesPayer" := JStr "COLLECTIVE" ]}) = Ok t /\
     Transaction.data t !! "feesPayer" = Some (JStr "PAYEE")).
Proof.
  split; [| split]; (eexists; split; [reflexivity |]).
  - destruct (createTransactionsForManuallyPaidExpense_feesPayer usd_host
                (an_expense 10000 "USD" usd_collective "PAYEE" None) (of_Z 300) (of_Z 10000)
                None _ eq_refl) as [Hpayee _].
    destruct (Hpayee eq_refl) as (_ & _ & Hnone). exact (Hnone eq_refl).
  - destruct (createTransactionsForManuallyPaidExpense_feesPayer usd_host
                (an_expense 10000 "USD" usd_collective "PAYEE" None) (of_Z 300) (of_Z 10000)
                (Some ∅) _ eq_refl) as [Hpayee _].
    destruct (Hpayee eq_refl) as (_ & Hempty & _). exact (Hempty eq_refl).
  - destruct (createTransactionsForManuallyPaidExpense_feesPayer usd_host
                (an_expense 10000 "USD" usd_collective "PAYEE" None) (of_Z 300) (of_Z 10000)
                (Some {[ "feesPayer" := JStr "COLLECTIVE" ]}) _ eq_refl) as [Hpayee _].
    destruct (Hpayee eq_refl) as (Hsome & _). apply Hsome. eexists. reflexivity.
Defined.

(** 10000 USD with a fee of 300: paid by the collective, a total of 10300;
    paid by the payee, a total of 10000. *)
Lemma builders_agree_witness :
  (exists paid manual,
     createTransactionsFromPaidExpense no_collective unit_rate usd_host
       (an_expense 10000 "USD" usd_collective "COLLECTIVE" None) (processor_fee 300)
       (rate (Fin 1)) None None = Ok paid /\
     createTransactionsForManuallyPaidExpense usd_host
       (an_expense 10000 "USD" usd_collective "COLLECTIVE" None) (of_Z 300)
       (nadd (of_Z 10000) (of_Z 300)) None = Ok manual /\
     Transaction.amount paid =n= of_Z (-10000) /\
     Transaction.netAmountInCollectiveCurrency paid =n= of_Z (-10300) /\
     Transaction.amount paid =n= Transaction.amount manual /\
     Transaction.netAmountInCollectiveCurrency paid =n=
       Transaction.netAmountInCollectiveCurrency manual) /\
  (exists paid manual,
     createTransactionsFromPaidExpense no_collective unit_rate usd_host
       (an_expense 10000 "USD" usd_collective "PAYEE" None) (processor_fee 300)
       (rate (Fin 1)) None None = Ok paid /\
     createTransactionsForManuallyPaidExpense usd_host
       (an_expense 10000 "USD" usd_collective "PAYEE" None) (of_Z 300) (of_Z 10000) None
     = Ok manual /\
     Transaction.amount paid =n= of_Z (-9700) /\
     Transaction.netAmountInCollectiveCurrency paid =n= of_Z (-10000) /\
     Transaction.amount paid =n= Transaction.amount manual /\
     Transaction.netAmountInCollectiveCurrency paid =n=
       Transaction.netAmountInCollectiveCurrency manual).
Proof.
  assert (Hfee : is_fee (of_Z 300)).
  { split; [apply is_integer_of_Z; lia | reflexivity]. }
  split.
  - destruct (builders_agree no_collective unit_rate usd_host
                (an_expense 10000 "USD" usd_collective "COLLECTIVE" None) usd_collective
                (of_Z 300) None None eq_refl eq_refl (is_integer_of_Z 10000 ltac:(lia))
                Hfee ltac:(vm_compute; discriminate) ltac:(vm_compute; reflexivity)
                ltac:(vm_compute; reflexivity))
      as (paid & manual & Hpaid & Hmanual & Hamount & _ & Hnet & _).
    exists paid, manual.
    split; [exact Hpaid |]. split; [exact Hmanual |].
    apply Ok_inj in Hpaid. subst paid.
    split; [vm_compute; reflexivity |]. split; [vm_compute; reflexivity |].
    split; [exact Hamount | exact Hnet].
  - destruct (builders_agree no_collective unit_rate usd_host
                (an_expense 10000 "USD" usd_collective "PAYEE" None) usd_collective
                (of_Z 300) None None eq_refl eq_refl (is_integer_of_Z 10000 ltac:(lia))
                Hfee ltac:(vm_compute; discriminate) ltac:(vm_compute; reflexivity)
                ltac:(vm_compute; reflexivity))
      as (paid & manual & Hpaid & Hmanual & Hamount & _ & Hnet & _).
    exists paid, manual.
    split; [exact Hpaid |]. split; [exact Hmanual |].
    apply Ok_inj in Hpaid. subst paid.
    split; [vm_compute; reflexivity |]. split; [vm_compute; reflexivity |].
    split; [exact Hamount | exact Hnet].
Defined.
(** A refund of a refund of an expense, and the refund that is missing. *)
Lemma generateDescription_refunds_witness :
  generateDescription
    (sample_lookups None)
    (Some (sample_lookups (Some (a_row EXPENSE DEBIT None)))) false 2
    (a_row EXPENSE CREDIT (Some 7%Z)) =
  Some (Ok ("Refund of " +:+ quote +:+ "Expense from Jane - Hosting" +:+ quote)).
Proof.
  apply (proj2 (generateDescription_refunds (sample_lookups None)
                  (Some (sample_lookups (Some (a_row EXPENSE DEBIT None)))) false 2
                  (a_row EXPENSE CREDIT (Some 7%Z)) _)).
  exists 1%nat, (a_row EXPENSE DEBIT None). split; [lia |]. split; [| reflexivity].
  apply chain_step with (next := a_row EXPENSE DEBIT None); [reflexivity |].
  apply chain_end. reflexivity.
Defined.

(** A refund that every lookup answers with. *)
Lemma generateDescription_self_refund_witness :
  generateDescription (sample_lookups (Some (a_row EXPENSE DEBIT (Some 7%Z)))) None false 1000
    (a_row EXPENSE DEBIT (Some 7%Z)) = None.
Proof.
  apply (generateDescription_self_refund
           (sample_lookups (Some (a_row EXPENSE DEBIT (Some 7%Z)))) None false
           (a_row EXPENSE DEBIT (Some 7%Z)) eq_refl 1000%nat).
Defined.

(** A transaction without an order, described without a request. *)
Lemma describe_without_request_witness :
  exists message,
    generateDescription (sample_lookups None) None true 1 (a_row CONTRIBUTION CREDIT None) =
    Some (Throw (TypeError message)).
Proof.
  destruct (describe_without_request (sample_lookups None) true
              (a_row CONTRIBUTION CREDIT None) I) as [_ H].
  exact (H eq_refl 0%nat).
Defined.

Lemma describe_expense_witness :
  describe (sample_lookups None) (Some (sample_lookups None)) true (a_row EXPENSE DEBIT None) =
  Ok "Expense from Jane to Webpack - Hosting".
Proof.
  apply (describe_expense (sample_lookups None) (sample_lookups None) true
           (a_row EXPENSE DEBIT None) 31 _ webpack jane "Webpack" " Jane "
           eq_refl eq_refl eq_refl eq_refl eq_refl eq_refl eq_refl eq_refl).
Defined.

(** The record of an expense of 1200 with a tax of 20 %, the caller's data
    having a [tax] of its own: -200 paid under VAT. *)
Lemma createTransactionsFromPaidExpense_tax_summary_witness :
  exists t entries,
    createTransactionsFromPaidExpense no_collective unit_rate usd_host
      (an_expense 1200 "USD" usd_collective "COLLECTIVE" (Some [vat])) no_fees auto
      (Some {[ "tax" := JStr "none" ]}) None = Ok t /\
    getTaxesSummary sum_when (fun _ => None) (fun _ => "?") [t] = Some entries /\
    exists entry, entries !! "VAT" = Some entry /\ paid entry =n= of_Z (-200).
Proof.
  eexists.
  destruct (createTransactionsFromPaidExpense_tax_summary sum_when (fun _ => None)
              (fun _ => "?") no_collective unit_rate usd_host
              (an_expense 1200 "USD" usd_collective "COLLECTIVE" (Some [vat])) no_fees auto
              (Some {[ "tax" := JStr "none" ]}) None _ vat [] eq_refl eq_refl)
    as (_ & _ & _ & _ & Hsummary).
  destruct (Hsummary ltac:(vm_compute; reflexivity) [_] (or_introl eq_refl))
    as (entries & transactions & Hentries & Hgroup & _ & Hentry).
  exists entries. split; [reflexivity |]. split; [exact Hentries |].
  eexists. split; [exact Hentry |].
  rewrite <- Hgroup. vm_compute. reflexivity.
Defined.

(** Five transactions: 200 paid and 300 collected under VAT, 50 paid under
    GST, and two without taxes, one with no tax amount and one with 0.  The
    summary has the two entries and no other; a list of transactions without
    taxes has no summary. *)
Lemma getTaxesSummary_groups_witness :
  (exists entries,
     getTaxesSummary sum_when (fun _ => None) (fun _ => "?")
       [ a_taxed DEBIT "VAT" (Some (of_Z (-200)));
         a_taxed CREDIT "VAT" (Some (of_Z 300));
         a_taxed DEBIT "GST" None;
         a_taxed DEBIT "GST" (Some (of_Z (-50)));
         a_taxed CREDIT "GST" (Some (Fin 0)) ] = Some entries /\
     entries !! "VAT" = Some {| collected := of_Z 300; paid := of_Z (-200) |} /\
     entries !! "GST" = Some {| collected := Fin 0; paid := of_Z (-50) |} /\
     entries !! "undefined" = None) /\
  getTaxesSummary sum_when (fun _ => None) (fun _ => "?")
    [ a_taxed DEBIT "GST" None; a_taxed CREDIT "GST" (Some (Fin 0)) ] = None.
Proof.
  split.
  - destruct (getTaxesSummary_groups sum_when (fun _ => None) (fun _ => "?")
                [ a_taxed DEBIT "VAT" (Some (of_Z (-200)));
                  a_taxed CREDIT "VAT" (Some (of_Z 300));
                  a_taxed DEBIT "GST" None;
                  a_taxed DEBIT "GST" (Some (of_Z (-50)));
                  a_taxed CREDIT "GST" (Some (Fin 0)) ]) as (Hnone & Hentries & _).
    destruct (getTaxesSummary sum_when (fun _ => None) (fun _ => "?") _) as [entries |].
    + exists entries. split; [reflexivity |].
      rewrite !(Hentries entries eq_refl).
      split; [vm_compute; reflexivity |]. split; vm_compute; reflexivity.
    + exfalso.
      pose proof (proj1 Hnone eq_refl _ (or_introl eq_refl)) as H. vm_compute in H.
      discriminate H.
  - apply (proj1 (getTaxesSummary_groups sum_when (fun _ => None) (fun _ => "?")
                    [ a_taxed DEBIT "GST" None; a_taxed CREDIT "GST" (Some (Fin 0)) ])).
    intros t [<- | [<- | []]]; reflexivity.
Defined.

(** No limit, and a limit of 0. *)
Lemma getTransactions_query_witness :
  (exists message, getTransactions 1700000000000 [21%Z] None None None = Throw (TypeError message)) /\
  exists q,
    getTransactions 1700000000000 [21%Z] None None
      (Some {| Options.where_ := Some {[ "CollectiveId" := JNum (Fin 99) ]};
               Options.limit := Some (Fin 0);
               Options.include := None |}) = Ok q /\
    Query.where_ q !! "CollectiveId" = Some (is_in [21%Z]) /\
    Query.where_ q !! "createdAt" = Some (is_between default_start_date 1700000000000).
Proof.
  split.
  - apply (proj1 (getTransactions_query 1700000000000 [21%Z] None None None) eq_refl).
  - destruct (proj2 (getTransactions_query 1700000000000 [21%Z] None None
                (Some {| Options.where_ := Some {[ "CollectiveId" := JNum (Fin 99) ]};
                         Options.limit := Some (Fin 0);
                         Options.include := None |})) _ eq_refl)
      as (q & Hq & Hcollective & Hcreated & _).
    exists q. split; [exact Hq |]. split; [exact Hcollective | exact Hcreated].
Defined.

(** The lookup of the rate fails for an expense that would be refused. *)
Lemma createTransactionsFromPaidExpense_rate_lookup_witness :
  createTransactionsFromPaidExpense no_collective (fun _ _ => Throw (Error "no rate")) usd_host
    (an_expense 1000 "USD" eur_collective "COLLECTIVE" None) no_fees auto None None =
  Throw (Error "no rate").
Proof.
  apply (proj1 (createTransactionsFromPaidExpense_rate_lookup no_collective
                  (fun _ _ => Throw (Error "no rate")) usd_host
                  (an_expense 1000 "USD" eur_collective "COLLECTIVE" None) no_fees None None)
           _ eq_refl).
Defined.

(** An expense whose collective is not loaded and is found by its id. *)
Lemma createTransactionsFromPaidExpense_collective_witness :
  createTransactionsFromPaidExpense (fun _ => Some usd_collective) unit_rate usd_host
    (Expense.set_collective (an_expense 1000 "USD" usd_collective "COLLECTIVE" None) None)
    no_fees auto None None =
  createTransactionsFromPaidExpense (fun _ => Some usd_collective) unit_rate usd_host
    (Expense.set_collective
       (Expense.set_collective (an_expense 1000 "USD" usd_collective "COLLECTIVE" None) None)
       (Some usd_collective))
    no_fees auto None None.
Proof.
  exact (proj1 (proj2 (createTransactionsFromPaidExpense_collective
                  (fun _ => Some usd_collective) unit_rate usd_host
                  (Expense.set_collective (an_expense 1000 "USD" usd_collective "COLLECTIVE" None)
                     None)
                  no_fees auto None None)) usd_collective eq_refl eq_refl).
Defined.

(** An expense whose first tax line is a GST of 10 % with a number. *)
Lemma tax_data_entry_witness :
  exists entry,
    tax_data (an_expense 1300 "USD" usd_collective "COLLECTIVE" (Some [gst; vat])) !! "tax"
      = Some (JObj entry) /\
    entry !! "id" = Some (JStr "GST") /\
    entry !! "type" = Some (JStr "GST") /\
    entry !! "rate" = Some (JNum (number_for (1 # 10))) /\
    entry !! "percentage" = Some (JNum (of_Z 10)) /\
    entry !! "idNumber" = Some (JStr "123").
Proof.
  destruct (tax_data_entry (an_expense 1300 "USD" usd_collective "COLLECTIVE" (Some [gst; vat]))
              gst [vat] eq_refl)
    as (entry & Hentry & Hid & Htype & Hrate & _ & Hpercentage & _ & Hother & _).
  exists entry. split; [exact Hentry |]. split; [exact Hid |]. split; [exact Htype |].
  split; [rewrite Hrate; vm_compute; reflexivity |].
  split; [rewrite Hpercentage; vm_compute; reflexivity |].
  rewrite Hother by discriminate. reflexivity.
Defined.

